(** * KStock scoring pipeline: a shallow embedding and its properties

    The Python sources embedded here are the four Level-1 agents
    (agents/technical_agent.py, agents/quant_agent.py,
    agents/qualitative_agent.py, agents/news_agent.py), the Level-1
    aggregation entry points (agents/test_level1_all.py,
    daily_level1_batch.py, daily_level1_fdr.py,
    daily_level1_fullmarket.py), the agent group with its two drivers
    (investment_agent_group.py, agent_orchestrator.py,
    agent_spawner.py) and the Level-3 rule quoted in
    investment_agent_group.py.

    Conventions.
    - A Python or numpy float is an extended rational [fl]: NaN, the two
      infinities, or an exact rational.  Rounding and signed zeros are
      not modelled; every comparison involving NaN is false, as in
      Python.
    - A Python exception is a value of [exn]; code that may raise
      returns a [result].
    - An f-string is kept as its template together with the values
      substituted into it ([msg]).
    - A method body that runs [score += n], [signals.append(..)] and
      [risks.append(..)] is a computation in the state-and-exception
      monad [M]. *)

From Stdlib Require Import ZArith QArith Lia Bool Ascii String.
From stdpp Require Import base list strings gmap pretty.

Local Open Scope Z_scope.
Local Open Scope string_scope.
Local Open Scope list_scope.

(* ================================================================== *)
(** ** Python values, exceptions and floats                              *)
(* ================================================================== *)

Module Py.

Inductive exn :=
| TypeError | AttributeError | ValueError | IndexError | KeyError
| ZeroDivisionError.

Inductive result (A : Type) :=
| Ok (a : A)
| Raise (e : exn).
Arguments Ok {A} a.
Arguments Raise {A} e.

(** Floats: IEEE special values around exact rationals. *)
Inductive fl :=
| NaN
| NInf
| Fin (q : Q)
| PInf.

Definition is_nan (x : fl) : bool :=
  match x with NaN => true | _ => false end.

Definition of_Z (z : Z) : fl := Fin (inject_Z z).

(** [a < b] *)
Definition flt (a b : fl) : bool :=
  match a, b with
  | NaN, _ | _, NaN => false
  | _, NInf => false
  | NInf, _ => true
  | PInf, _ => false
  | Fin _, PInf => true
  | Fin x, Fin y => negb (Qle_bool y x)
  end.

(** [a <= b] *)
Definition fle (a b : fl) : bool :=
  match a, b with
  | NaN, _ | _, NaN => false
  | NInf, _ => true
  | _, PInf => true
  | PInf, _ => false
  | Fin _, NInf => false
  | Fin x, Fin y => Qle_bool x y
  end.

Definition fgt (a b : fl) : bool := flt b a.
Definition fge (a b : fl) : bool := fle b a.

Definition fneg (a : fl) : fl :=
  match a with
  | NaN => NaN
  | NInf => PInf
  | PInf => NInf
  | Fin x => Fin (- x)
  end.

Definition fadd (a b : fl) : fl :=
  match a, b with
  | NaN, _ | _, NaN => NaN
  | PInf, NInf | NInf, PInf => NaN
  | PInf, _ | _, PInf => PInf
  | NInf, _ | _, NInf => NInf
  | Fin x, Fin y => Fin (x + y)
  end.

Definition fsub (a b : fl) : fl := fadd a (fneg b).

Definition fmul (a b : fl) : fl :=
  match a, b with
  | NaN, _ | _, NaN => NaN
  | Fin x, Fin y => Fin (x * y)
  | Fin x, PInf | PInf, Fin x =>
      match (x ?= 0)%Q with Eq => NaN | Gt => PInf | Lt => NInf end
  | Fin x, NInf | NInf, Fin x =>
      match (x ?= 0)%Q with Eq => NaN | Gt => NInf | Lt => PInf end
  | PInf, PInf | NInf, NInf => PInf
  | PInf, NInf | NInf, PInf => NInf
  end.

(** numpy division: a zero divisor gives an infinity or NaN (with a
    warning), never an exception. *)
Definition np_div (a b : fl) : fl :=
  match a, b with
  | NaN, _ | _, NaN => NaN
  | Fin x, Fin y =>
      match (y ?= 0)%Q with
      | Eq => match (x ?= 0)%Q with Eq => NaN | Gt => PInf | Lt => NInf end
      | _ => Fin (x / y)
      end
  | Fin _, _ => Fin 0
  | PInf, Fin y => match (y ?= 0)%Q with Lt => NInf | _ => PInf end
  | NInf, Fin y => match (y ?= 0)%Q with Lt => PInf | _ => NInf end
  | _, _ => NaN
  end.

(** Python's [/] on floats: a zero divisor raises. *)
Definition py_div (a b : fl) : result fl :=
  match b with
  | Fin y => match (y ?= 0)%Q with
             | Eq => Raise ZeroDivisionError
             | _ => Ok (np_div a b)
             end
  | _ => Ok (np_div a b)
  end.

Definition fsum (xs : list fl) : fl := foldr fadd (Fin 0) xs.

(** [Series.mean()]: NaN entries are skipped; an empty series gives NaN. *)
Definition series_mean (xs : list fl) : fl :=
  let ys := List.filter (fun x => negb (is_nan x)) xs in
  np_div (fsum ys) (of_Z (Z.of_nat (length ys))).

(** [xs.tail(n)] and [xs.iloc[-k]] *)
Definition tail {A} (n : nat) (xs : list A) : list A :=
  drop (length xs - n) xs.

Definition iloc_neg {A} (xs : list A) (k : nat) : result A :=
  if (k <=? length xs)%nat
  then match xs !! (length xs - k)%nat with
       | Some x => Ok x
       | None => Raise IndexError
       end
  else Raise IndexError.

(** The values found in a JSON-like mapping such as [ticker.info]. *)
Inductive pyval :=
| PyNone
| PyInt (z : Z)
| PyFloat (x : fl)
| PyStr (s : string).

(** An f-string: its template and the values formatted into it. *)
Record msg := Msg { template : string; args : list pyval }.

(** [str.lower()] on the ASCII range (Hangul has no case). *)
Definition lower_ascii (c : ascii) : ascii :=
  let n := nat_of_ascii c in
  if ((65 <=? n) && (n <=? 90))%nat then ascii_of_nat (n + 32) else c.

Fixpoint lower (s : string) : string :=
  match s with
  | EmptyString => EmptyString
  | String c s' => String (lower_ascii c) (lower s')
  end.

Fixpoint is_prefix (p s : string) : bool :=
  match p, s with
  | EmptyString, _ => true
  | String a p', String b s' => if Ascii.eqb a b then is_prefix p' s' else false
  | String _ _, EmptyString => false
  end.

(** [kw in text] for strings *)
Fixpoint contains (kw text : string) : bool :=
  if is_prefix kw text then true
  else match text with
       | EmptyString => false
       | String _ t' => contains kw t'
       end.

(** [x in names] for a list of string literals: a non-string is never
    equal to a string. *)
Definition in_strs (x : pyval) (names : list string) : bool :=
  match x with
  | PyStr s => existsb (String.eqb s) names
  | _ => false
  end.

(** Numeric view of a value: what [<], [>=] and [*] against a number
    need; [None] and strings raise [TypeError]. *)
Definition as_num (v : pyval) : result fl :=
  match v with
  | PyInt z => Ok (of_Z z)
  | PyFloat x => Ok x
  | PyNone | PyStr _ => Raise TypeError
  end.

(** [v.lower()]: only strings have the method. *)
Definition py_lower (v : pyval) : result string :=
  match v with
  | PyStr s => Ok (lower s)
  | _ => Raise AttributeError
  end.

End Py.
Export Py.

(* ================================================================== *)
(** ** The scoring monad                                                 *)
(* ================================================================== *)

Module Scoring.

(** The locals of an [analyze_*] method ([score], [signals], [risks])
    and a ghost log [reads] of the mapping reads the agent performed,
    in order, with the values they returned. *)
Record acc := mkAcc {
  score : Z;
  signals : list msg;
  risks : list msg;
  reads : list (string * pyval)
}.

Definition M (A : Type) : Type := acc -> result (A * acc).

Definition ret {A} (x : A) : M A := fun a => Ok (x, a).

Definition bind {A B} (m : M A) (k : A -> M B) : M B :=
  fun a => match m a with
           | Ok (x, a') => k x a'
           | Raise e => Raise e
           end.

Definition lift {A} (r : result A) : M A :=
  fun a => match r with Ok x => Ok (x, a) | Raise e => Raise e end.

(** [score += n] *)
Definition add (n : Z) : M unit :=
  fun a => Ok (tt, mkAcc (score a + n) (signals a) (risks a) (reads a)).

(** [signals.append(m)] *)
Definition signal (m : msg) : M unit :=
  fun a => Ok (tt, mkAcc (score a) (signals a ++ [m]) (risks a) (reads a)).

(** [risks.append(m)] *)
Definition risk (m : msg) : M unit :=
  fun a => Ok (tt, mkAcc (score a) (signals a) (risks a ++ [m]) (reads a)).

Definition log_read (k : string) (v : pyval) : M unit :=
  fun a => Ok (tt, mkAcc (score a) (signals a) (risks a) (reads a ++ [(k, v)])).

Definition get_risks : M (list msg) := fun a => Ok (risks a, a).

Definition skip : M unit := ret tt.

(** A method whose locals start at [score = init] and that returns
    [(clamp score, signals, risks)]. *)
Definition method (init : Z) (clamp : Z -> Z) (body : M unit)
  : M (Z * list msg * list msg) :=
  fun a =>
    match body (mkAcc init [] [] (reads a)) with
    | Ok (_, a') => Ok ((clamp (score a'), signals a', risks a'), a')
    | Raise e => Raise e
    end.

(** [return 12, [s], r] before any other statement. *)
Definition early (s : Z) (sg rk : list msg) : M (Z * list msg * list msg) :=
  ret (s, sg, rk).

Definition start : acc := mkAcc 0 [] [] [].

(** [min(score, 25)] and [max(score, 0)], the two final clamps. *)
Definition clamp25 (s : Z) : Z := Z.min s 25.
Definition floor0 (s : Z) : Z := Z.max s 0.

End Scoring.
Export Scoring.

(** stdpp's monad notations: [x ← m; k] and [m;; k]. *)
#[global] Instance M_ret : MRet M := @ret.
#[global] Instance M_bind : MBind M := fun A B k m => bind m k.
Notation "'txt' s" := (Msg s []) (at level 10, s at level 9).

(* ================================================================== *)
(** ** What an agent returns                                             *)
(* ================================================================== *)

Module Agent.

Inductive Rec := BUY | HOLD | SELL.

(** The dimension-specific fields of a result dict.  The display-only
    rounded floats of the quant agent ([key_metrics]) are left out. *)
Inductive extra_fields :=
| TechExtra (current_price rsi macd bb_position volume_ratio : fl)
| QuantExtra (sector industry : pyval) (peer_comparison : string)
| QualExtra (sector industry : pyval) (moat_rating : string)
| NewsExtra (sentiment_trend : string) (news_count : nat).

(** The dict built at the end of [analyze].  [key_risks] is the
    ['risk_flags'] entry of the technical and quant agents and the
    ['key_risks'] entry of the other two. *)
Record agent_result := mkResult {
  agent_id : string;
  agent_name : string;
  symbol : string;
  name : string;
  analysis_date : string;
  total_score : Z;
  breakdown : list (string * Z);
  key_signals : list msg;
  key_risks : list msg;
  recommendation : Rec;
  extra : extra_fields
}.

(** [analyze] returns either the three-key error dict or a result. *)
Inductive analysis :=
| Failed (error symbol name : string)
| Scored (r : agent_result).

(** The DimensionScore part of a result: sub-scores, total, signals,
    risks. *)
Definition dimension_score (r : agent_result)
  : list (string * Z) * Z * list msg * list msg :=
  (breakdown r, total_score r, key_signals r, key_risks r).

Definition sub_scores (r : agent_result) : list Z := (breakdown r).*2.

Definition sum_list (xs : list Z) : Z := foldr Z.add 0 xs.

Definition fetch_failed (symbol name : string) : analysis :=
  Failed "Failed to fetch data" symbol name.

End Agent.
Export Agent.

(* ================================================================== *)
(** ** agents/technical_agent.py                                         *)
(* ================================================================== *)

Module Technical.

(** One row of [self.data] after [calculate_indicators]: the price
    columns and the indicator columns.  The indicator formulas belong
    to the indicator provider; the scorer reads their values. *)
Record row := mkRow {
  Open : fl; High : fl; Low : fl; Close : fl; Volume : fl;
  MA5 : fl; MA20 : fl; MA60 : fl;
  RSI : fl;
  MACD : fl; MACD_Signal : fl; MACD_Hist : fl;
  BB_Middle : fl; BB_Upper : fl; BB_Lower : fl;
  BB_Width : fl; BB_Position : fl;
  Volume_MA20 : fl; Volume_Ratio : fl;
  OBV : fl
}.

Definition columns (r : row) : list fl :=
  [Open r; High r; Low r; Close r; Volume r; MA5 r; MA20 r; MA60 r; RSI r;
   MACD r; MACD_Signal r; MACD_Hist r; BB_Middle r; BB_Upper r; BB_Lower r;
   BB_Width r; BB_Position r; Volume_MA20 r; Volume_Ratio r; OBV r].

(** [df.dropna()]: rows with a NaN in any column are removed. *)
Definition dropna (df : list row) : list row :=
  List.filter (fun r => forallb (fun x => negb (is_nan x)) (columns r)) df.

Definition no_data : M (Z * list msg * list msg) :=
  early 12 [txt "데이터 부족"] [txt "충분한 거래일 데이터 없음"].

(** *** analyze_price_trend *)

(** [latest['MA5'] > latest['MA20'] and df.iloc[-2]['MA5'] <= df.iloc[-2]['MA20']] *)
Definition ma_golden (df : list row) (latest : row) : M bool :=
  if fgt (MA5 latest) (MA20 latest)
  then prev ← lift (iloc_neg df 2); ret (fle (MA5 prev) (MA20 prev))
  else ret false.

(** 1. moving-average alignment *)
Definition pt_alignment (latest : row) : M unit :=
  let ma_aligned :=
    fgt (MA5 latest) (MA20 latest) && fgt (MA20 latest) (MA60 latest) in
  if ma_aligned then
    add 10;; signal (txt "정배열 (5>20>60)")
  else if fgt (MA5 latest) (MA20 latest) then
    add 6;; signal (txt "단기 정배열 (5>20)")
  else if flt (MA5 latest) (MA20 latest) && flt (MA20 latest) (MA60 latest) then
    add 2;; risk (txt "역배열 (5<20<60)")
  else
    risk (txt "이동평균선 혼조").

Definition pt_golden (golden : bool) : M unit :=
  if golden then add 3;; signal (txt "골든크로스 발생") else skip.

(** 2. price against the moving averages *)
Definition pt_price (latest : row) : M unit :=
  let price := Close latest in
  (if fgt price (MA5 latest) then add 3;; signal (txt "현재가 > 5일선") else skip);;
  (if fgt price (MA20 latest) then add 3;; signal (txt "현재가 > 20일선") else skip);;
  (if fgt price (MA60 latest) then add 2;; signal (txt "현재가 > 60일선") else skip);;
  (if flt price (MA60 latest) then risk (txt "현재가 60일선 아래") else skip).

(** 3. trend strength *)
Definition pt_slope (df : list row) (latest : row) : M unit :=
  r5 ← lift (iloc_neg df 5);
  let ma20_slope :=
    fmul (np_div (fsub (MA20 latest) (MA20 r5)) (MA20 latest)) (of_Z 100) in
  if fgt ma20_slope (of_Z 2) then
    add 7;; signal (Msg "강한 상승추세 ({:.1f}%)" [PyFloat ma20_slope])
  else if fgt ma20_slope (Fin (1#2)) then
    add 4;; signal (Msg "상승추세 ({:.1f}%)" [PyFloat ma20_slope])
  else if fgt ma20_slope (Fin (-1#2)) then
    add 2;; signal (txt "횡보")
  else
    risk (Msg "하락추세 ({:.1f}%)" [PyFloat ma20_slope]).

Definition price_trend_body (df : list row) : M unit :=
  latest ← lift (iloc_neg df 1);
  golden ← ma_golden df latest;
  pt_alignment latest;;
  pt_golden golden;;
  pt_price latest;;
  pt_slope df latest.

Definition analyze_price_trend (data : list row) : M (Z * list msg * list msg) :=
  let df := dropna data in
  if (length df <? 60)%nat then no_data
  else method 0 clamp25 (price_trend_body df).

(** *** analyze_momentum *)

(** 1. RSI *)
Definition mo_rsi (latest : row) : M unit :=
  let rsi := RSI latest in
  if flt (of_Z 50) rsi && flt rsi (of_Z 70) then
    add 8;; signal (Msg "RSI 양호 ({:.1f})" [PyFloat rsi])
  else if fge rsi (of_Z 70) then
    add 4;; signal (Msg "RSI 과매수 ({:.1f})" [PyFloat rsi]);;
    risk (txt "RSI 과매수 구간")
  else if fgt rsi (of_Z 30) then
    add 4;; signal (Msg "RSI 회복중 ({:.1f})" [PyFloat rsi])
  else
    risk (Msg "RSI 과매도 ({:.1f})" [PyFloat rsi]).

(** 2. MACD *)
Definition mo_macd (latest prev : row) : M unit :=
  let macd_bull := fgt (MACD latest) (MACD_Signal latest) in
  let macd_cross := macd_bull && fle (MACD prev) (MACD_Signal prev) in
  let macd_positive := fgt (MACD latest) (of_Z 0) in
  if macd_cross then
    add 10;; signal (txt "MACD 골든크로스")
  else if macd_bull && macd_positive then
    add 8;; signal (txt "MACD 상승세")
  else if macd_bull then
    add 5;; signal (txt "MACD 매수신호")
  else if macd_positive then
    add 3;; signal (txt "MACD 0선 위")
  else
    risk (txt "MACD 약세").

(** 3. MACD histogram *)
Definition mo_hist (latest prev : row) : M unit :=
  let hist_growing := fgt (MACD_Hist latest) (MACD_Hist prev) in
  if hist_growing && fgt (MACD_Hist latest) (of_Z 0) then
    add 7;; signal (txt "MACD 모멘텀 강화")
  else if hist_growing then
    add 4;; signal (txt "MACD 모멘텀 개선")
  else if fgt (MACD_Hist latest) (of_Z 0) then
    add 3;; signal (txt "MACD 양수")
  else skip.

Definition momentum_body (df : list row) : M unit :=
  latest ← lift (iloc_neg df 1);
  prev ← lift (iloc_neg df 2);
  mo_rsi latest;;
  mo_macd latest prev;;
  mo_hist latest prev.

Definition analyze_momentum (data : list row) : M (Z * list msg * list msg) :=
  let df := dropna data in
  if (length df <? 26)%nat then no_data
  else method 0 clamp25 (momentum_body df).

(** *** analyze_bollinger *)

(** 1. band position *)
Definition bb_position_band (bb_pos : fl) : M unit :=
  if fle (Fin (4#10)) bb_pos && fle bb_pos (Fin (6#10)) then
    add 10;; signal (Msg "중립구간 (%B: {:.2f})" [PyFloat bb_pos])
  else if fle (Fin (2#10)) bb_pos && flt bb_pos (Fin (4#10)) then
    add 8;; signal (Msg "하단접근 (%B: {:.2f})" [PyFloat bb_pos])
  else if flt (Fin (6#10)) bb_pos && fle bb_pos (Fin (8#10)) then
    add 7;; signal (Msg "상단접근 (%B: {:.2f})" [PyFloat bb_pos])
  else if fgt bb_pos (Fin (8#10)) then
    add 4;; signal (Msg "상단돌파 (%B: {:.2f})" [PyFloat bb_pos]);;
    risk (txt "상단 밴드 돌파")
  else
    add 3;; signal (Msg "하단아래 (%B: {:.2f})" [PyFloat bb_pos]);;
    risk (txt "하단 밴드 이탈").

(** 2. band width (squeeze) *)
Definition bb_squeeze (bb_width prev_width avg_width : fl) : M unit :=
  let is_squeeze := flt bb_width (fmul avg_width (Fin (6#10))) in
  let was_squeeze := flt prev_width (fmul avg_width (Fin (6#10))) in
  if is_squeeze && negb was_squeeze then
    add 8;; signal (txt "볼린저 스퀴즈 진입 (폭발예고)")
  else if is_squeeze then
    add 6;; signal (txt "볼린저 스퀴즈 지속")
  else if fgt bb_width (fmul avg_width (Fin (15#10))) then
    add 4;; signal (txt "밴드 확장중")
  else
    add 5;; signal (txt "정상 밴드폭").

(** 3. band direction *)
Definition bb_direction (latest prev : row) (bb_pos : fl) : M unit :=
  let bb_trend := fgt (BB_Middle latest) (BB_Middle prev) in
  if bb_trend && fgt bb_pos (Fin (1#2)) then
    add 7;; signal (txt "상승밴드 + 상단")
  else if bb_trend then
    add 5;; signal (txt "상승밴드")
  else if fgt bb_pos (Fin (1#2)) then
    add 3;; signal (txt "하락밴드 + 상단")
  else
    risk (txt "하락밴드 + 하단").

Definition bollinger_body (df : list row) : M unit :=
  latest ← lift (iloc_neg df 1);
  prev ← lift (iloc_neg df 2);
  let bb_pos := BB_Position latest in
  let bb_width := BB_Width latest in
  let avg_width := series_mean (map BB_Width df) in
  bb_position_band bb_pos;;
  bb_squeeze bb_width (BB_Width prev) avg_width;;
  bb_direction latest prev bb_pos.

Definition analyze_bollinger (data : list row) : M (Z * list msg * list msg) :=
  let df := dropna data in
  if (length df <? 20)%nat then no_data
  else method 0 clamp25 (bollinger_body df).

(** *** analyze_volume *)

(** 1. volume ratio *)
Definition vo_ratio (vol_ratio : fl) : M unit :=
  if fge vol_ratio (of_Z 2) then
    add 10;; signal (Msg "거래량 폭발 ({:.1f}x)" [PyFloat vol_ratio])
  else if fge vol_ratio (Fin (15#10)) then
    add 8;; signal (Msg "거래량 증가 ({:.1f}x)" [PyFloat vol_ratio])
  else if fge vol_ratio (of_Z 1) then
    add 6;; signal (Msg "평균 이상 ({:.1f}x)" [PyFloat vol_ratio])
  else if fge vol_ratio (Fin (7#10)) then
    add 3;; signal (Msg "평균 미만 ({:.1f}x)" [PyFloat vol_ratio])
  else
    risk (Msg "거래량 부진 ({:.1f}x)" [PyFloat vol_ratio]).

(** 2. volume trend *)
Definition vo_trend (vol_trend : fl) : M unit :=
  if fgt vol_trend (Fin (13#10)) then
    add 8;; signal (txt "거래량 증가추세")
  else if fgt vol_trend (Fin (11#10)) then
    add 5;; signal (txt "거래량 양호")
  else if fgt vol_trend (Fin (9#10)) then
    add 3;; signal (txt "거래량 유지")
  else
    risk (txt "거래량 감소추세").

(** 3. OBV *)
Definition vo_obv (latest r5 : row) : M unit :=
  let obv_trend := fgt (OBV latest) (OBV r5) in
  let price_trend := fgt (Close latest) (Close r5) in
  if obv_trend && price_trend then
    add 7;; signal (txt "OBV + 가격 동반상승")
  else if obv_trend then
    add 5;; signal (txt "OBV 상승 (가격선행)")
  else if price_trend then
    add 3;; signal (txt "가격상승 (OBV 미확인)");;
    risk (txt "OBV 다이버전스 의심")
  else
    risk (txt "OBV 하락").

Definition volume_body (df : list row) : M unit :=
  latest ← lift (iloc_neg df 1);
  let recent := tail 5 df in
  let vol_ratio := Volume_Ratio latest in
  vo_ratio vol_ratio;;
  let vol_trend :=
    np_div (series_mean (map Volume recent))
           (series_mean (tail 20 (map Volume df))) in
  vo_trend vol_trend;;
  r5 ← lift (iloc_neg df 5);
  vo_obv latest r5.

Definition analyze_volume (data : list row) : M (Z * list msg * list msg) :=
  let df := dropna data in
  if (length df <? 20)%nat then no_data
  else method 0 clamp25 (volume_body df).

(** *** analyze *)

(** [fetched] is what [fetch_data] and [calculate_indicators] leave in
    [self.data]: [None] when the download raised, otherwise the frame
    (an empty frame makes [fetch_data] return [False]).  [now] is
    [datetime.now().isoformat()]. *)
Definition analyze (symbol name : string) (fetched : option (list row))
    (now : string) : M analysis :=
  match fetched with
  | None | Some [] => ret (fetch_failed symbol name)
  | Some data =>
      '(price_score, price_signals, price_risks) ← analyze_price_trend data;
      '(momentum_score, momentum_signals, momentum_risks) ← analyze_momentum data;
      '(bollinger_score, bollinger_signals, bollinger_risks) ← analyze_bollinger data;
      '(volume_score, volume_signals, volume_risks) ← analyze_volume data;
      let total_score :=
        price_score + momentum_score + bollinger_score + volume_score in
      let all_signals :=
        price_signals ++ momentum_signals ++ bollinger_signals ++ volume_signals in
      let all_risks :=
        price_risks ++ momentum_risks ++ bollinger_risks ++ volume_risks in
      let recommendation :=
        if total_score >=? 70 then BUY
        else if total_score >=? 50 then HOLD
        else SELL in
      last ← lift (iloc_neg data 1);
      ret (Scored {|
        agent_id := "TECH_001";
        agent_name := "Technical Analyst";
        symbol := symbol;
        name := name;
        analysis_date := now;
        total_score := total_score;
        breakdown := [("price_trend", price_score); ("momentum", momentum_score);
                      ("bollinger", bollinger_score); ("volume", volume_score)];
        key_signals := take 5 all_signals;
        key_risks := take 3 all_risks;
        recommendation := recommendation;
        extra := TechExtra (Close last) (RSI last) (MACD last)
                           (BB_Position last) (Volume_Ratio last)
      |})
  end.

End Technical.

(* ================================================================== *)
(** ** agents/quant_agent.py                                             *)
(* ================================================================== *)

Module Quant.

Section WithInfo.

(** Python's [float(s)] on a string ([None]: it raises [ValueError]). *)
Context (float_of_str : string -> option fl).

(** [self.info], as [fetch_data] stored it ([ticker.info or {}]). *)
Context (info : gmap string pyval).

(** [get_metric]: a missing key, [None] and a float NaN give the
    default; anything else goes through [float(value)]. *)
Definition get_metric (key : string) (default : fl) : M fl :=
  let value := match info !! key with Some v => v | None => PyFloat default end in
  r ← lift (match value with
            | PyNone => Ok default
            | PyFloat x => if is_nan x then Ok default else Ok x
            | PyInt z => Ok (of_Z z)
            | PyStr s => match float_of_str s with
                         | Some x => Ok x
                         | None => Raise ValueError
                         end
            end);
  log_read key (PyFloat r);;
  ret r.

Definition pct (x : fl) : fl := fmul x (of_Z 100).

(** *** analyze_profitability *)

Definition pr_roe : M unit :=
  r ← get_metric "returnOnEquity" (of_Z 0);
  let roe := pct r in
  if fge roe (of_Z 20) then
    add 8;; signal (Msg "ROE 우수 ({:.1f}%)" [PyFloat roe])
  else if fge roe (of_Z 15) then
    add 6;; signal (Msg "ROE 양호 ({:.1f}%)" [PyFloat roe])
  else if fge roe (of_Z 10) then
    add 4;; signal (Msg "ROE 보통 ({:.1f}%)" [PyFloat roe])
  else if fgt roe (of_Z 0) then
    add 2;; signal (Msg "ROE 낮음 ({:.1f}%)" [PyFloat roe])
  else
    risk (Msg "ROE 부진 ({:.1f}%)" [PyFloat roe]).

Definition pr_roa : M unit :=
  r ← get_metric "returnOnAssets" (of_Z 0);
  let roa := pct r in
  if fge roa (of_Z 10) then
    add 5;; signal (Msg "ROA 우수 ({:.1f}%)" [PyFloat roa])
  else if fge roa (of_Z 5) then
    add 3;; signal (Msg "ROA 양호 ({:.1f}%)" [PyFloat roa])
  else if fgt roa (of_Z 0) then
    add 1
  else
    risk (Msg "ROA 부진 ({:.1f}%)" [PyFloat roa]).

Definition pr_op_margin : M unit :=
  r ← get_metric "operatingMargins" (of_Z 0);
  let op_margin := pct r in
  if fge op_margin (of_Z 20) then
    add 6;; signal (Msg "영업이익률 우수 ({:.1f}%)" [PyFloat op_margin])
  else if fge op_margin (of_Z 10) then
    add 4;; signal (Msg "영업이익률 양호 ({:.1f}%)" [PyFloat op_margin])
  else if fge op_margin (of_Z 5) then
    add 2;; signal (Msg "영업이익률 보통 ({:.1f}%)" [PyFloat op_margin])
  else if fgt op_margin (of_Z 0) then
    add 1
  else
    risk (Msg "영업이익률 부진 ({:.1f}%)" [PyFloat op_margin]).

Definition pr_net_margin : M unit :=
  r ← get_metric "profitMargins" (of_Z 0);
  let net_margin := pct r in
  if fge net_margin (of_Z 15) then
    add 6;; signal (Msg "순이익률 우수 ({:.1f}%)" [PyFloat net_margin])
  else if fge net_margin (of_Z 8) then
    add 4;; signal (Msg "순이익률 양호 ({:.1f}%)" [PyFloat net_margin])
  else if fge net_margin (of_Z 3) then
    add 2
  else if fgt net_margin (of_Z 0) then
    add 1
  else
    risk (Msg "순이익률 적자 ({:.1f}%)" [PyFloat net_margin]).

Definition analyze_profitability : M (Z * list msg * list msg) :=
  method 0 clamp25 (pr_roe;; pr_roa;; pr_op_margin;; pr_net_margin).

(** *** analyze_growth *)

Definition gr_revenue : M unit :=
  r ← get_metric "revenueGrowth" (of_Z 0);
  let revenue_growth := pct r in
  if fge revenue_growth (of_Z 30) then
    add 10;; signal (Msg "매출 고성장 ({:.1f}%)" [PyFloat revenue_growth])
  else if fge revenue_growth (of_Z 15) then
    add 8;; signal (Msg "매출 성장 ({:.1f}%)" [PyFloat revenue_growth])
  else if fge revenue_growth (of_Z 5) then
    add 5;; signal (Msg "매출 안정적 ({:.1f}%)" [PyFloat revenue_growth])
  else if fgt revenue_growth (of_Z 0) then
    add 2
  else
    risk (Msg "매출 감소 ({:.1f}%)" [PyFloat revenue_growth]).

Definition gr_earnings : M unit :=
  r ← get_metric "earningsGrowth" (of_Z 0);
  let earnings_growth := pct r in
  if fge earnings_growth (of_Z 30) then
    add 8;; signal (Msg "이익 고성장 ({:.1f}%)" [PyFloat earnings_growth])
  else if fge earnings_growth (of_Z 15) then
    add 6;; signal (Msg "이익 성장 ({:.1f}%)" [PyFloat earnings_growth])
  else if fge earnings_growth (of_Z 5) then
    add 3
  else if fgt earnings_growth (of_Z 0) then
    add 1
  else
    risk (Msg "이익 감소 ({:.1f}%)" [PyFloat earnings_growth]).

Definition gr_eps : M unit :=
  r ← get_metric "earningsQuarterlyGrowth" (of_Z 0);
  let eps_growth := pct r in
  if fge eps_growth (of_Z 25) then
    add 7;; signal (Msg "EPS 고성장 ({:.1f}%)" [PyFloat eps_growth])
  else if fge eps_growth (of_Z 10) then
    add 5;; signal (Msg "EPS 성장 ({:.1f}%)" [PyFloat eps_growth])
  else if fgt eps_growth (of_Z 0) then
    add 2
  else
    risk (Msg "EPS 감소 ({:.1f}%)" [PyFloat eps_growth]).

Definition analyze_growth : M (Z * list msg * list msg) :=
  method 0 clamp25 (gr_revenue;; gr_earnings;; gr_eps).

(** *** analyze_stability *)

Definition st_debt : M unit :=
  debt_to_equity ← get_metric "debtToEquity" (of_Z 100);
  if fle debt_to_equity (of_Z 50) then
    add 10;; signal (Msg "부채비율 우수 ({:.1f}%)" [PyFloat debt_to_equity])
  else if fle debt_to_equity (of_Z 100) then
    add 7;; signal (Msg "부채비율 양호 ({:.1f}%)" [PyFloat debt_to_equity])
  else if fle debt_to_equity (of_Z 150) then
    add 4;; signal (Msg "부채비율 보통 ({:.1f}%)" [PyFloat debt_to_equity])
  else if fle debt_to_equity (of_Z 200) then
    add 2;; risk (Msg "부채비율 높음 ({:.1f}%)" [PyFloat debt_to_equity])
  else
    risk (Msg "부채비율 과다 ({:.1f}%)" [PyFloat debt_to_equity]).

Definition st_current : M unit :=
  current_ratio ← get_metric "currentRatio" (of_Z 1);
  if fge current_ratio (of_Z 2) then
    add 8;; signal (Msg "유동비율 우수 ({:.2f})" [PyFloat current_ratio])
  else if fge current_ratio (Fin (15#10)) then
    add 6;; signal (Msg "유동비율 양호 ({:.2f})" [PyFloat current_ratio])
  else if fge current_ratio (of_Z 1) then
    add 3
  else
    risk (Msg "유동비율 부족 ({:.2f})" [PyFloat current_ratio]).

Definition st_cashflow : M unit :=
  operating_cf ← get_metric "operatingCashflow" (of_Z 0);
  total_revenue ← get_metric "totalRevenue" (of_Z 1);
  cf_margin ← (if fgt total_revenue (of_Z 0)
               then q ← lift (py_div operating_cf total_revenue); ret (pct q)
               else ret (of_Z 0));
  if fge cf_margin (of_Z 15) then
    add 7;; signal (Msg "현금창출 우수 ({:.1f}%)" [PyFloat cf_margin])
  else if fge cf_margin (of_Z 8) then
    add 5;; signal (Msg "현금창출 양호 ({:.1f}%)" [PyFloat cf_margin])
  else if fgt cf_margin (of_Z 0) then
    add 2
  else
    risk (Msg "현금흐름 부진 ({:.1f}%)" [PyFloat cf_margin]).

Definition analyze_stability : M (Z * list msg * list msg) :=
  method 0 clamp25 (st_debt;; st_current;; st_cashflow).

(** *** analyze_valuation *)

Definition va_per : M unit :=
  pe_ratio ← get_metric "trailingPE" (of_Z 20);
  forward_pe ← get_metric "forwardPE" pe_ratio;
  if fle (of_Z 8) pe_ratio && fle pe_ratio (of_Z 15) then
    add 8;; signal (Msg "PER 매우매력 ({:.1f})" [PyFloat pe_ratio])
  else if flt pe_ratio (of_Z 8) then
    add 6;; signal (Msg "PER 저평가 의심 ({:.1f})" [PyFloat pe_ratio])
  else if fle pe_ratio (of_Z 20) then
    add 5;; signal (Msg "PER 적정 ({:.1f})" [PyFloat pe_ratio])
  else if fle pe_ratio (of_Z 30) then
    add 2;; risk (Msg "PER 다소높음 ({:.1f})" [PyFloat pe_ratio])
  else
    risk (Msg "PER 과고평가 ({:.1f})" [PyFloat pe_ratio]).

Definition va_pbr : M unit :=
  pb_ratio ← get_metric "priceToBook" (of_Z 2);
  if fle pb_ratio (of_Z 1) then
    add 6;; signal (Msg "PBR 저평가 ({:.2f})" [PyFloat pb_ratio])
  else if fle pb_ratio (Fin (15#10)) then
    add 5;; signal (Msg "PBR 매력 ({:.2f})" [PyFloat pb_ratio])
  else if fle pb_ratio (Fin (25#10)) then
    add 3
  else if fle pb_ratio (of_Z 4) then
    add 1;; risk (Msg "PBR 높음 ({:.2f})" [PyFloat pb_ratio])
  else
    risk (Msg "PBR 과고 ({:.2f})" [PyFloat pb_ratio]).

Definition va_peg : M unit :=
  peg ← get_metric "pegRatio" (of_Z 2);
  if flt (of_Z 0) peg && fle peg (of_Z 1) then
    add 6;; signal (Msg "PEG 우수 ({:.2f})" [PyFloat peg])
  else if fle peg (Fin (15#10)) then
    add 4;; signal (Msg "PEG 양호 ({:.2f})" [PyFloat peg])
  else if fle peg (of_Z 2) then
    add 2
  else
    risk (Msg "PEG 높음 ({:.2f})" [PyFloat peg]).

Definition va_ev : M unit :=
  ev_ebitda ← get_metric "enterpriseToEbitda" (of_Z 12);
  if fle ev_ebitda (of_Z 6) then
    add 5;; signal (Msg "EV/EBITDA 매력 ({:.1f})" [PyFloat ev_ebitda])
  else if fle ev_ebitda (of_Z 10) then
    add 4;; signal (Msg "EV/EBITDA 적정 ({:.1f})" [PyFloat ev_ebitda])
  else if fle ev_ebitda (of_Z 15) then
    add 2
  else
    risk (Msg "EV/EBITDA 높음 ({:.1f})" [PyFloat ev_ebitda]).

Definition analyze_valuation : M (Z * list msg * list msg) :=
  method 0 clamp25 (va_per;; va_pbr;; va_peg;; va_ev).

(** *** get_peer_comparison *)

Definition info_get (key : string) (default : pyval) : pyval :=
  match info !! key with Some v => v | None => default end.

(** [sum(self.scores.values()) if self.scores else 0] *)
Definition get_peer_comparison (scores : gmap string Z) : string :=
  let total_score := map_fold (fun _ v s => v + s) 0 scores in
  if total_score >=? 80 then "상위"
  else if total_score >=? 60 then "중상위"
  else if total_score >=? 40 then "중위"
  else "하위".

(** *** analyze *)

(** [fetch_ok] is the boolean [fetch_data] returned; [self.scores]
    starts empty, as [__init__] leaves it. *)
Definition analyze (symbol name : string) (fetch_ok : bool) (now : string)
  : M analysis :=
  if negb fetch_ok then ret (fetch_failed symbol name)
  else
    '(profit_score, profit_signals, profit_risks) ← analyze_profitability;
    let scores := <["profitability" := profit_score]> (∅ : gmap string Z) in
    '(growth_score, growth_signals, growth_risks) ← analyze_growth;
    let scores := <["growth" := growth_score]> scores in
    '(stability_score, stability_signals, stability_risks) ← analyze_stability;
    let scores := <["stability" := stability_score]> scores in
    '(valuation_score, valuation_signals, valuation_risks) ← analyze_valuation;
    let scores := <["valuation" := valuation_score]> scores in
    let total_score :=
      profit_score + growth_score + stability_score + valuation_score in
    let all_signals :=
      profit_signals ++ growth_signals ++ stability_signals ++ valuation_signals in
    let all_risks :=
      profit_risks ++ growth_risks ++ stability_risks ++ valuation_risks in
    let recommendation :=
      if total_score >=? 70 then BUY
      else if total_score >=? 50 then HOLD
      else SELL in
    let peer_comparison := get_peer_comparison scores in
    ret (Scored {|
      agent_id := "QUANT_001";
      agent_name := "Quant Analyst";
      symbol := symbol;
      name := name;
      analysis_date := now;
      total_score := total_score;
      breakdown := [("profitability", profit_score); ("growth", growth_score);
                    ("stability", stability_score); ("valuation", valuation_score)];
      key_signals := take 5 all_signals;
      key_risks := take 3 all_risks;
      recommendation := recommendation;
      extra := QuantExtra (info_get "sector" (PyStr "Unknown"))
                          (info_get "industry" (PyStr "Unknown"))
                          peer_comparison
    |}).

End WithInfo.

End Quant.

(* ================================================================== *)
(** ** agents/qualitative_agent.py                                       *)
(* ================================================================== *)

Module Qualitative.

Section WithInfo.

Context (info : gmap string pyval).

(** [get_info]: [self.info.get(key, default)], returned as it is. *)
Definition get_info (key : string) (default : pyval) : M pyval :=
  let value := match info !! key with Some v => v | None => default end in
  log_read key value;;
  ret value.

(** A value used where Python needs a number (a comparison with a
    number, [* 100], a float format). *)
Definition num (v : pyval) : M fl := lift (as_num v).

(** [kw in v.lower()] *)
Definition lower_has (kw : string) (v : pyval) : M bool :=
  s ← lift (py_lower v); ret (contains kw s).

(** [a or b] with [b] evaluated only when [a] is false. *)
Definition or_else (a b : M bool) : M bool :=
  x ← a; if (x : bool) then ret true else b.

(** [a and b] with [b] evaluated only when [a] is true. *)
Definition and_then (a b : M bool) : M bool :=
  x ← a; if (x : bool) then b else ret false.

Definition trillion : fl := of_Z 1000000000000.

(** *** analyze_business_model *)

(** 1. market position and size *)
Definition bm_market_cap : M unit :=
  market_cap ← get_info "marketCap" (PyInt 0);
  mc ← num market_cap;
  let shown := PyFloat (np_div mc trillion) in
  if fge mc (of_Z 100000000000000) then
    add 8;; signal (Msg "시장지배적 기업 ({:.1f}조)" [shown])
  else if fge mc (of_Z 50000000000000) then
    add 7;; signal (Msg "대형 기업 ({:.1f}조)" [shown])
  else if fge mc (of_Z 10000000000000) then
    add 5;; signal (Msg "중대형 기업 ({:.1f}조)" [shown])
  else if fge mc (of_Z 1000000000000) then
    add 3;; signal (Msg "중형 기업 ({:.1f}조)" [shown])
  else
    add 1;; risk (txt "소형 기업 (규모 리스크)").

(** 2. diversification *)
Definition bm_diversification : M unit :=
  sector ← get_info "sector" (PyStr "");
  industry ← get_info "industry" (PyStr "");
  let diversified_sectors := ["Conglomerates"; "Industrials"; "Technology"] in
  if in_strs sector diversified_sectors then
    add 6;; signal (Msg "다각화된 사업 ({})" [sector])
  else
    semi ← or_else (lower_has "semiconductor" industry)
                   (lower_has "electronics" industry);
    if (semi : bool) then
      add 5;; signal (txt "핵심 부품 사업")
    else
      bank ← or_else (lower_has "bank" industry) (lower_has "financial" industry);
      if (bank : bool) then
        add 5;; signal (txt "금융 프랜차이즈")
      else
        add 3;; signal (Msg "전문 사업 ({})" [industry]).

(** 3. revenue model *)
Definition bm_margin : M unit :=
  v ← get_info "grossMargins" (PyInt 0);
  g ← num v;
  let gross_margin := fmul g (of_Z 100) in
  if fge gross_margin (of_Z 50) then
    add 7;; signal (Msg "고부가가치 비즈니스 ({:.1f}%)" [PyFloat gross_margin])
  else if fge gross_margin (of_Z 30) then
    add 5;; signal (Msg "양호한 마진 ({:.1f}%)" [PyFloat gross_margin])
  else if fge gross_margin (of_Z 15) then
    add 3;; signal (Msg "표준 마진 ({:.1f}%)" [PyFloat gross_margin])
  else
    add 1;; risk (Msg "낮은 마진 ({:.1f}%)" [PyFloat gross_margin]).

(** 4. R&D *)
Definition bm_rd : M unit :=
  v ← get_info "revenuePerShare" (PyInt 0);
  rd_ratio ← num v;
  if fgt rd_ratio (of_Z 0) then add 2;; signal (txt "R&D 활동 확인") else skip.

Definition analyze_business_model : M (Z * list msg * list msg) :=
  method 0 clamp25 (bm_market_cap;; bm_diversification;; bm_margin;; bm_rd).

(** *** analyze_management *)

(** 1. shareholder return *)
Definition mg_dividend (dividend_yield : fl) : M unit :=
  if fge dividend_yield (of_Z 3) then
    add 10;; signal (Msg "고배당 ({:.2f}%)" [PyFloat dividend_yield])
  else if fge dividend_yield (of_Z 2) then
    add 8;; signal (Msg "배당 우수 ({:.2f}%)" [PyFloat dividend_yield])
  else if fge dividend_yield (of_Z 1) then
    add 5;; signal (Msg "배당 양호 ({:.2f}%)" [PyFloat dividend_yield])
  else if fgt dividend_yield (of_Z 0) then
    add 3;; signal (Msg "배당 있음 ({:.2f}%)" [PyFloat dividend_yield])
  else
    risk (txt "배당 없음").

(** 2. buy-backs *)
Definition mg_payout (payout_ratio : fl) : M unit :=
  if fgt payout_ratio (of_Z 0) && flt payout_ratio (of_Z 60) then
    add 5;; signal (txt "여력있는 배당성향")
  else if fge payout_ratio (of_Z 60) then
    add 3;; signal (txt "높은 배당성향")
  else skip.

(** 3. governance *)
Definition mg_governance : M unit :=
  v ← get_info "heldPercentInsiders" (PyInt 0);
  i ← num v;
  let held_by_insiders := fmul i (of_Z 100) in
  v ← get_info "heldPercentInstitutions" (PyInt 0);
  i ← num v;
  let held_by_institutions := fmul i (of_Z 100) in
  (if fle (of_Z 10) held_by_insiders && fle held_by_insiders (of_Z 40) then
     add 3;; signal (Msg "적정 남부 지분 ({:.1f}%)" [PyFloat held_by_insiders])
   else skip);;
  (if fge held_by_institutions (of_Z 30) then
     add 3;; signal (Msg "기관 투자 활발 ({:.1f}%)" [PyFloat held_by_institutions])
   else if flt held_by_institutions (of_Z 10) then
     risk (txt "기관 관심 저조")
   else skip).

(** 4. culture and reputation *)
Definition mg_employees : M unit :=
  employees ← get_info "fullTimeEmployees" (PyInt 0);
  n ← num employees;
  if fgt n (of_Z 10000) then
    add 4;; signal (Msg "대규모 고용 ({:,}명)" [employees])
  else if fgt n (of_Z 1000) then
    add 2;; signal (Msg "중견 고용 ({:,}명)" [employees])
  else skip.

Definition management_body : M unit :=
  dividend_rate ← get_info "dividendRate" (PyInt 0);
  v ← get_info "dividendYield" (PyInt 0);
  y ← num v;
  let dividend_yield := fmul y (of_Z 100) in
  v ← get_info "payoutRatio" (PyInt 0);
  p ← num v;
  let payout_ratio := fmul p (of_Z 100) in
  mg_dividend dividend_yield;;
  mg_payout payout_ratio;;
  mg_governance;;
  mg_employees.

Definition analyze_management : M (Z * list msg * list msg) :=
  method 0 clamp25 management_body.

(** *** analyze_industry_outlook *)

(** 1. industry growth *)
Definition io_growth (sector : pyval) : M unit :=
  let growth_sectors := ["Technology"; "Healthcare"; "Communication Services"] in
  let stable_sectors := ["Financial Services"; "Consumer Cyclical"] in
  let defensive_sectors := ["Consumer Defensive"; "Utilities"] in
  if in_strs sector growth_sectors then
    add 10;; signal (Msg "고성장 산업 ({})" [sector])
  else if in_strs sector stable_sectors then
    add 7;; signal (Msg "성숙 산업 ({})" [sector])
  else if in_strs sector defensive_sectors then
    add 5;; signal (Msg "방어적 산업 ({})" [sector])
  else
    add 4;; signal (Msg "기타 산업 ({})" [sector]).

(** [any(ti in industry for ti in tech_industries)]: [in] needs a
    string on its right. *)
Definition any_in (names : list string) (industry : pyval) : M bool :=
  match industry with
  | PyStr s => ret (existsb (fun ti => contains ti s) names)
  | _ => lift (Raise TypeError)
  end.

(** 2. technology level *)
Definition io_tech (industry : pyval) : M unit :=
  let tech_industries :=
    ["Semiconductors"; "Software"; "Internet Content"; "Biotechnology"] in
  t ← any_in tech_industries industry;
  if (t : bool) then
    add 8;; signal (Msg "첨단기술 산업 ({})" [industry])
  else
    e ← lower_has "electronics" industry;
    if (e : bool) then
      add 6;; signal (Msg "전자기술 산업 ({})" [industry])
    else
      b ← lower_has "bank" industry;
      if (b : bool) then
        add 4;; signal (txt "핀테크 전환 중")
      else
        add 3;; signal (Msg "전통 산업 ({})" [industry]).

(** 3. market position *)
Definition io_beta : M unit :=
  v ← get_info "beta" (PyFloat (of_Z 1));
  beta ← num v;
  if fge beta (Fin (12#10)) then
    add 7;; signal (Msg "성장주 특성 (베타 {:.2f})" [PyFloat beta])
  else if fge beta (Fin (9#10)) then
    add 5;; signal (Msg "시장 수익률 (베타 {:.2f})" [PyFloat beta])
  else if fge beta (Fin (7#10)) then
    add 4;; signal (Msg "방어적 (베타 {:.2f})" [PyFloat beta])
  else
    add 2;; signal (Msg "저변동성 (베타 {:.2f})" [PyFloat beta]).

Definition industry_outlook_body : M unit :=
  sector ← get_info "sector" (PyStr "");
  industry ← get_info "industry" (PyStr "");
  io_growth sector;;
  io_tech industry;;
  io_beta.

Definition analyze_industry_outlook : M (Z * list msg * list msg) :=
  method 0 clamp25 industry_outlook_body.

(** *** analyze_risk_factors: penalties subtracted from 25 *)

(** 1. volatility *)
Definition rf_beta : M unit :=
  v ← get_info "beta" (PyFloat (of_Z 1));
  beta ← num v;
  if fge beta (Fin (15#10)) then
    add (-8);; risk (Msg "고변동성 (베타 {:.2f})" [PyFloat beta])
  else if fge beta (Fin (12#10)) then
    add (-5);; risk (Msg "변동성 높음 (베타 {:.2f})" [PyFloat beta])
  else if fge beta (of_Z 1) then
    add (-2);; signal (Msg "시장 수준 변동성 (베타 {:.2f})" [PyFloat beta])
  else
    signal (Msg "안정적 (베타 {:.2f})" [PyFloat beta]).

(** 2. leverage *)
Definition rf_debt : M unit :=
  v ← get_info "debtToEquity" (PyInt 0);
  debt_to_equity ← num v;
  if fge debt_to_equity (of_Z 200) then
    add (-7);; risk (Msg "높은 부채비율 ({:.1f}%)" [PyFloat debt_to_equity])
  else if fge debt_to_equity (of_Z 100) then
    add (-4);; risk (Msg "부채 주의 ({:.1f}%)" [PyFloat debt_to_equity])
  else if fgt debt_to_equity (of_Z 0) then
    signal (Msg "부채 관리 양호 ({:.1f}%)" [PyFloat debt_to_equity])
  else skip.

(** 3. revenue *)
Definition rf_revenue : M unit :=
  v ← get_info "revenueGrowth" (PyInt 0);
  revenue_growth ← num v;
  let shown := PyFloat (fmul revenue_growth (of_Z 100)) in
  if flt revenue_growth (Fin (-1#10)) then
    add (-6);; risk (Msg "매출 감소 ({:.1f}%)" [shown])
  else if flt revenue_growth (of_Z 0) then
    add (-3);; risk (Msg "매출 정체 ({:.1f}%)" [shown])
  else
    signal (txt "매출 성장 중").

(** 4. liquidity *)
Definition rf_liquidity : M unit :=
  v ← get_info "currentRatio" (PyFloat (of_Z 1));
  current_ratio ← num v;
  if flt current_ratio (Fin (8#10)) then
    add (-4);; risk (Msg "유동성 위험 ({:.2f})" [PyFloat current_ratio])
  else if flt current_ratio (of_Z 1) then
    add (-2);; risk (Msg "유동성 부족 ({:.2f})" [PyFloat current_ratio])
  else
    signal (Msg "유동성 양호 ({:.2f})" [PyFloat current_ratio]).

Definition analyze_risk_factors : M (Z * list msg * list msg) :=
  method 25 floor0 (rf_beta;; rf_debt;; rf_revenue;; rf_liquidity).

(** *** get_moat_rating *)

Definition num_ge (v : pyval) (c : fl) : M bool := x ← num v; ret (fge x c).
Definition num_gt (v : pyval) (c : fl) : M bool := x ← num v; ret (fgt x c).

Definition get_moat_rating : M string :=
  gross_margin ← get_info "grossMargins" (PyInt 0);
  operating_margin ← get_info "operatingMargins" (PyInt 0);
  market_cap ← get_info "marketCap" (PyInt 0);
  wide ← and_then (num_ge gross_margin (Fin (1#2)))
            (and_then (num_ge operating_margin (Fin (2#10)))
                      (num_gt market_cap (of_Z 50000000000000)));
  if (wide : bool) then ret "Wide"
  else
    narrow ← and_then (num_ge gross_margin (Fin (3#10)))
                      (num_ge operating_margin (Fin (1#10)));
    if (narrow : bool) then ret "Narrow" else ret "None".

(** *** analyze *)

Definition analyze (symbol name : string) (fetch_ok : bool) (now : string)
  : M analysis :=
  if negb fetch_ok then ret (fetch_failed symbol name)
  else
    get_info "sector" (PyStr "N/A");;
    get_info "industry" (PyStr "N/A");;
    '(business_score, business_signals, business_risks) ← analyze_business_model;
    '(management_score, management_signals, management_risks) ← analyze_management;
    '(industry_score, industry_signals, industry_risks) ← analyze_industry_outlook;
    '(risk_score, risk_signals, risk_risks) ← analyze_risk_factors;
    let total_score :=
      business_score + management_score + industry_score + risk_score in
    let all_signals :=
      business_signals ++ management_signals ++ industry_signals ++ risk_signals in
    let all_risks :=
      business_risks ++ management_risks ++ industry_risks ++ risk_risks in
    let recommendation :=
      if total_score >=? 70 then BUY
      else if total_score >=? 50 then HOLD
      else SELL in
    moat_rating ← get_moat_rating;
    sector ← get_info "sector" (PyStr "Unknown");
    industry ← get_info "industry" (PyStr "Unknown");
    ret (Scored {|
      agent_id := "QUAL_001";
      agent_name := "Qualitative Analyst";
      symbol := symbol;
      name := name;
      analysis_date := now;
      total_score := total_score;
      breakdown := [("business_model", business_score);
                    ("management", management_score);
                    ("industry_outlook", industry_score);
                    ("risk_factors", risk_score)];
      key_signals := take 5 all_signals;
      key_risks := take 3 all_risks;
      recommendation := recommendation;
      extra := QualExtra sector industry moat_rating
    |}).

End WithInfo.

End Qualitative.

(* ================================================================== *)
(** ** agents/news_agent.py                                              *)
(* ================================================================== *)

Module News.

(** One row of [self.price_data]: the two columns the agent reads. *)
Record bar := mkBar { Close : fl; Volume : fl }.

Section WithData.

(** pandas' [Series.std()] (sample standard deviation). *)
Context (series_std : list fl -> fl).

(** [self.news] ([ticker.news or []]) and [self.price_data]. *)
Context (news : list (gmap string pyval)).
Context (price_data : option (list bar)).

Definition item_get (item : gmap string pyval) (key : string) (default : pyval)
  : pyval :=
  match item !! key with Some v => v | None => default end.

Definition positive_keywords : list string :=
  ["상승"; "호재"; "성장"; "돌파"; "강세"; "매수"; "upgrade"; "beat"; "growth";
   "surge"; "rally"; "strong"].

Definition negative_keywords : list string :=
  ["하락"; "악재"; "감소"; "하락세"; "매도"; "downgrade"; "miss"; "decline";
   "drop"; "weak"; "concern"].

(** [sum(1 for kw in kws if kw in text)] *)
Definition hits (kws : list string) (text : string) : Z :=
  Z.of_nat (length (List.filter (fun kw => contains kw text) kws)).

(** *** analyze_news_sentiment *)

(** One turn of the loop over [recent_news]; the state is
    [(positive_count, negative_count, neutral_count)]. *)
Definition classify_item (counts : Z * Z * Z) (item : gmap string pyval)
  : M (Z * Z * Z) :=
  let '(positive_count, negative_count, neutral_count) := counts in
  title ← lift (py_lower (item_get item "title" (PyStr "")));
  content ← lift (py_lower (item_get item "summary" (PyStr "")));
  let text := (title +:+ " " +:+ content)%string in
  let pos_score := hits positive_keywords text in
  let neg_score := hits negative_keywords text in
  if pos_score >? neg_score then
    ret (positive_count + 1, negative_count, neutral_count)
  else if neg_score >? pos_score then
    ret (positive_count, negative_count + 1, neutral_count)
  else
    ret (positive_count, negative_count, neutral_count + 1).

Fixpoint for_items {S} (step : S -> gmap string pyval -> M S) (s : S)
    (items : list (gmap string pyval)) : M S :=
  match items with
  | [] => ret s
  | item :: rest => s' ← step s item; for_items step s' rest
  end.

Definition ratio (n d : Z) : M fl :=
  lift (py_div (of_Z n) (of_Z d)).

Definition ns_ratio_band (positive_count negative_count total : Z) : M unit :=
  if total >? 0 then
    positive_ratio ← ratio positive_count total;
    negative_ratio ← ratio negative_count total;
    let pos_pct := PyFloat (fmul positive_ratio (of_Z 100)) in
    let neg_pct := PyFloat (fmul negative_ratio (of_Z 100)) in
    if fge positive_ratio (Fin (5#10)) then
      add 25;; signal (Msg "긍정 뉴스 우세 ({:.0f}%)" [pos_pct])
    else if fge positive_ratio (Fin (4#10)) then
      add 20;; signal (Msg "긍정 뉴스 많음 ({:.0f}%)" [pos_pct])
    else if fge positive_ratio (Fin (3#10)) then
      add 15;; signal (Msg "뉴스 중립-긍정 ({:.0f}%)" [pos_pct])
    else if fge positive_ratio (Fin (2#10)) then
      add 8;; signal (Msg "부정 뉴스 우세 ({:.0f}%)" [neg_pct])
    else
      add 3;; risk (Msg "부정 뉴스 다수 ({:.0f}%)" [neg_pct])
  else skip.

Definition ns_volume : M unit :=
  let n := PyInt (Z.of_nat (length news)) in
  if (10 <=? length news)%nat then signal (Msg "뉴스 활발 ({}개)" [n])
  else if (5 <=? length news)%nat then signal (Msg "뉴스 적정 ({}개)" [n])
  else risk (Msg "뉴스 부족 ({}개)" [n]).

Definition news_sentiment_body : M unit :=
  let recent_news := take 20 news in
  '(positive_count, negative_count, neutral_count) ←
    for_items classify_item (0, 0, 0) recent_news;
  let total := positive_count + negative_count + neutral_count in
  ns_ratio_band positive_count negative_count total;;
  ns_volume.

Definition analyze_news_sentiment : M (Z * list msg * list msg) :=
  match news with
  | [] => early 12 [txt "뉴스 데이터 없음"] []
  | _ => method 0 clamp25 news_sentiment_body
  end.

(** *** analyze_social_media *)

(** [Series.pct_change()] *)
Fixpoint pct_change_from (prev : fl) (xs : list fl) : list fl :=
  match xs with
  | [] => []
  | x :: rest => fsub (np_div x prev) (of_Z 1) :: pct_change_from x rest
  end.

Definition pct_change (xs : list fl) : list fl :=
  match xs with
  | [] => []
  | x :: rest => NaN :: pct_change_from x rest
  end.

Definition sm_interest (volume_ratio : fl) : M unit :=
  if fge volume_ratio (of_Z 2) then
    add 15;; signal (Msg "높은 관심도 (거래량 {:.1f}x)" [PyFloat volume_ratio])
  else if fge volume_ratio (Fin (15#10)) then
    add 12;; signal (Msg "관심 증가 (거래량 {:.1f}x)" [PyFloat volume_ratio])
  else if fge volume_ratio (of_Z 1) then
    add 8;; signal (Msg "평균 관심도 (거래량 {:.1f}x)" [PyFloat volume_ratio])
  else
    add 4;; risk (Msg "관심 감소 (거래량 {:.1f}x)" [PyFloat volume_ratio]).

Definition sm_volatility (volatility : fl) : M unit :=
  if fge volatility (of_Z 5) then
    add 10;; signal (Msg "높은 변동성 ({:.1f}%) - 활발한 논의" [PyFloat volatility])
  else if fge volatility (of_Z 3) then
    add 7;; signal (Msg "증가된 변동성 ({:.1f}%)" [PyFloat volatility])
  else if fge volatility (of_Z 1) then
    add 5;; signal (Msg "정상 변동성 ({:.1f}%)" [PyFloat volatility])
  else
    add 2;; risk (Msg "낮은 변동성 ({:.1f}%) - 관심 저조" [PyFloat volatility]).

Definition social_media_body (pd : list bar) : M unit :=
  let recent_volume := series_mean (tail 5 (map Volume pd)) in
  let avg_volume := series_mean (map Volume pd) in
  let volume_ratio :=
    if fgt avg_volume (of_Z 0) then np_div recent_volume avg_volume else of_Z 1 in
  sm_interest volume_ratio;;
  let recent_returns := tail 5 (pct_change (map Close pd)) in
  let volatility := fmul (series_std recent_returns) (of_Z 100) in
  sm_volatility volatility.

Definition analyze_social_media : M (Z * list msg * list msg) :=
  match price_data with
  | None => early 12 [txt "소셜 데이터 없음"] []
  | Some pd =>
      if (length pd <? 5)%nat then early 12 [txt "소셜 데이터 없음"] []
      else method 0 clamp25 (social_media_body pd)
  end.

(** *** analyze_event_risk: penalties subtracted from 25 *)

Definition event_keywords : list (string * list string) :=
  [("earnings", ["실적"; "earnings"; "EPS"; "revenue"; "분기"; "연간"]);
   ("dividend", ["배당"; "dividend"; "주주환원"]);
   ("meeting", ["주총"; "주주총회"; "shareholder meeting"]);
   ("offering", ["유상증자"; "무상증자"; "공모"; "offering"]);
   ("lawsuit", ["소송"; "lawsuit"; "fine"; "penalty"; "제재"]);
   ("executive", ["CEO"; "임원"; "퇴임"; "취임"; "executive"])].

(** [{k: 0 for k in event_keywords}] *)
Definition event_counts0 : gmap string Z :=
  list_to_map (map (fun kv => (kv.1, 0)) event_keywords).

(** The inner loop over [event_keywords.items()] for one title. *)
Definition count_title (title : string) (counts : gmap string Z) : gmap string Z :=
  foldl (fun m kv =>
           if existsb (fun kw => contains kw title) kv.2
           then alter (fun n => n + 1) kv.1 m
           else m)
        counts event_keywords.

Definition count_item (counts : gmap string Z) (item : gmap string pyval)
  : M (gmap string Z) :=
  title ← lift (py_lower (item_get item "title" (PyStr "")));
  ret (count_title title counts).

(** [event_counts[k]] *)
Definition count_of (counts : gmap string Z) (k : string) : M Z :=
  lift (match counts !! k with Some n => Ok n | None => Raise KeyError end).

Definition er_earnings (n : Z) : M unit :=
  if n >=? 2 then add (-3);; risk (txt "실적 발표 임박")
  else if n >? 0 then signal (txt "실적 관련 뉴스")
  else skip.

Definition er_notes (dividend meeting : Z) : M unit :=
  (if dividend >? 0 then signal (txt "배당 관련 소식") else skip);;
  (if meeting >? 0 then signal (txt "주주총회 일정") else skip).

Definition er_offering (n : Z) : M unit :=
  if n >=? 2 then add (-8);; risk (txt "증자 가능성")
  else if n >? 0 then add (-3);; risk (txt "증자 관련 소문")
  else skip.

Definition er_lawsuit (n : Z) : M unit :=
  if n >=? 2 then add (-10);; risk (txt "법적 리스크 다수")
  else if n >? 0 then add (-5);; risk (txt "법적 리스크")
  else skip.

Definition er_executive (n : Z) : M unit :=
  if n >=? 2 then add (-4);; risk (txt "임원 변동")
  else if n >? 0 then signal (txt "경영진 소식")
  else skip.

Definition er_no_risk : M unit :=
  rk ← get_risks;
  match rk with
  | [] => signal (txt "특별한 이벤트 리스크 없음")
  | _ => skip
  end.

Definition event_risk_body : M unit :=
  event_counts ← for_items count_item event_counts0 (take 15 news);
  n ← count_of event_counts "earnings"; er_earnings n;;
  d ← count_of event_counts "dividend";
  m ← count_of event_counts "meeting"; er_notes d m;;
  n ← count_of event_counts "offering"; er_offering n;;
  n ← count_of event_counts "lawsuit"; er_lawsuit n;;
  n ← count_of event_counts "executive"; er_executive n;;
  er_no_risk.

Definition analyze_event_risk : M (Z * list msg * list msg) :=
  method 25 floor0 event_risk_body.

(** *** analyze_momentum_signals *)

(** [(a / b - 1) * 100] on numpy floats *)
Definition change_pct (a b : fl) : fl :=
  fmul (fsub (np_div a b) (of_Z 1)) (of_Z 100).

Definition ms_short (returns_5d : fl) : M unit :=
  let shown := PyFloat returns_5d in
  if fge returns_5d (of_Z 10) then
    add 10;; signal (Msg "강한 단기 상승 ({:+.1f}%)" [shown])
  else if fge returns_5d (of_Z 5) then
    add 8;; signal (Msg "단기 상승 ({:+.1f}%)" [shown])
  else if fge returns_5d (of_Z 0) then
    add 5;; signal (Msg "단기 보합~상승 ({:+.1f}%)" [shown])
  else if fge returns_5d (of_Z (-5)) then
    add 2;; risk (Msg "단기 하락 ({:+.1f}%)" [shown])
  else
    risk (Msg "강한 단기 하락 ({:+.1f}%)" [shown]).

Definition ms_medium (returns_20d : fl) : M unit :=
  let shown := PyFloat returns_20d in
  if fge returns_20d (of_Z 20) then
    add 8;; signal (Msg "강한 중기 상승 ({:+.1f}%)" [shown])
  else if fge returns_20d (of_Z 10) then
    add 6;; signal (Msg "중기 상승 ({:+.1f}%)" [shown])
  else if fge returns_20d (of_Z 0) then
    add 4;; signal (Msg "중기 보합~상승 ({:+.1f}%)" [shown])
  else if fge returns_20d (of_Z (-10)) then
    add 2;; risk (Msg "중기 하락 ({:+.1f}%)" [shown])
  else
    risk (Msg "강한 중기 하락 ({:+.1f}%)" [shown]).

Definition ms_volume (volume_change returns_5d : fl) : M unit :=
  let shown := PyFloat volume_change in
  if fge volume_change (of_Z 50) && fgt returns_5d (of_Z 0) then
    add 7;; signal (Msg "거래량 동반 상승 ({:+.0f}%)" [shown])
  else if fge volume_change (of_Z 20) && fgt returns_5d (of_Z 0) then
    add 5;; signal (Msg "거래량 증가 상승 ({:+.0f}%)" [shown])
  else if fge volume_change (of_Z 0) then
    add 3
  else if flt returns_5d (of_Z 0) then
    add 1;; risk (Msg "거래량 감소 하락 ({:+.0f}%)" [shown])
  else skip.

Definition momentum_signals_body (pd : list bar) : M unit :=
  let closes := map Close pd in
  let volumes := map Volume pd in
  c1 ← lift (iloc_neg closes 1);
  c5 ← lift (iloc_neg closes 5);
  let returns_5d := change_pct c1 c5 in
  c1 ← lift (iloc_neg closes 1);
  c20 ← lift (iloc_neg closes 20);
  let returns_20d := change_pct c1 c20 in
  ms_short returns_5d;;
  ms_medium returns_20d;;
  let recent_volume := series_mean (tail 5 volumes) in
  let prev_volume := series_mean (take 5 (tail 10 volumes)) in
  let volume_change :=
    if fgt prev_volume (of_Z 0) then change_pct recent_volume prev_volume
    else of_Z 0 in
  ms_volume volume_change returns_5d.

Definition analyze_momentum_signals : M (Z * list msg * list msg) :=
  match price_data with
  | None => early 12 [txt "데이터 부족"] []
  | Some pd =>
      if (length pd <? 10)%nat then early 12 [txt "데이터 부족"] []
      else method 0 clamp25 (momentum_signals_body pd)
  end.

(** *** get_sentiment_trend *)

Definition get_sentiment_trend : M string :=
  match price_data with
  | None => ret "Unknown"
  | Some pd =>
      if (length pd <? 10)%nat then ret "Unknown"
      else
        let closes := map Close pd in
        c1 ← lift (iloc_neg closes 1);
        c5 ← lift (iloc_neg closes 5);
        let returns_5d := fsub (np_div c1 c5) (of_Z 1) in
        c1 ← lift (iloc_neg closes 1);
        c20 ← lift (iloc_neg closes 20);
        let returns_20d := fsub (np_div c1 c20) (of_Z 1) in
        if fgt returns_5d (Fin (5#100)) && fgt returns_20d (of_Z 0) then
          ret "Improving"
        else if flt returns_5d (Fin (-5#100)) && flt returns_20d (of_Z 0) then
          ret "Declining"
        else ret "Stable"
  end.

(** *** analyze *)

(** [len(self.price_data)] in the progress print. *)
Definition len_price_data : M nat :=
  lift (match price_data with
        | Some pd => Ok (length pd)
        | None => Raise TypeError
        end).

Definition analyze (symbol name : string) (fetch_ok : bool) (now : string)
  : M analysis :=
  if negb fetch_ok then ret (fetch_failed symbol name)
  else
    len_price_data;;
    '(news_score, news_signals, news_risks) ← analyze_news_sentiment;
    '(social_score, social_signals, social_risks) ← analyze_social_media;
    '(event_score, event_signals, event_risks) ← analyze_event_risk;
    '(momentum_score, momentum_signals, momentum_risks) ← analyze_momentum_signals;
    let total_score := news_score + social_score + event_score + momentum_score in
    let all_signals :=
      news_signals ++ social_signals ++ event_signals ++ momentum_signals in
    let all_risks := news_risks ++ social_risks ++ event_risks ++ momentum_risks in
    let recommendation :=
      if total_score >=? 70 then BUY
      else if total_score >=? 50 then HOLD
      else SELL in
    sentiment_trend ← get_sentiment_trend;
    ret (Scored {|
      agent_id := "NEWS_001";
      agent_name := "News Sentiment Analyst";
      symbol := symbol;
      name := name;
      analysis_date := now;
      total_score := total_score;
      breakdown := [("news_sentiment", news_score);
                    ("social_media", social_score);
                    ("event_risk", event_score);
                    ("momentum_signals", momentum_score)];
      key_signals := take 5 all_signals;
      key_risks := take 3 all_risks;
      recommendation := recommendation;
      extra := NewsExtra sentiment_trend (length news)
    |}).

End WithData.

End News.

(* ================================================================== *)
(** ** Level-1 aggregation                                               *)
(* ================================================================== *)

Module Level1.

(** [r.get('total_score', 0)] and [r.get('recommendation', 'HOLD')] on
    what [analyze] returned: the error dict has neither key. *)
Definition get_total_score (r : analysis) : Z :=
  match r with Scored x => total_score x | Failed _ _ _ => 0 end.

Definition get_recommendation (r : analysis) : Rec :=
  match r with Scored x => recommendation x | Failed _ _ _ => HOLD end.

Definition Rec_eqb (a b : Rec) : bool :=
  match a, b with
  | BUY, BUY | HOLD, HOLD | SELL, SELL => true
  | _, _ => false
  end.

(** [recs.count(x)] *)
Definition count (x : Rec) (recs : list Rec) : Z :=
  Z.of_nat (length (List.filter (Rec_eqb x) recs)).

(** Python's [round(x, 1)] on an exactly known value: to the nearest
    tenth, ties to the even tenth. *)
Definition round_half_even (q : Q) : Z :=
  let n := Qnum q in
  let d := Z.pos (Qden q) in
  let f := n / d in
  let r := n mod d in
  match (2 * r ?= d) with
  | Lt => f
  | Gt => f + 1
  | Eq => if Z.even f then f else f + 1
  end.

Definition round1 (q : Q) : Q := Qmake (round_half_even (q * 10)) 10.

(** [sum(scores) / len(scores)] *)
Definition mean (scores : list Z) : Q :=
  inject_Z (sum_list scores) / inject_Z (Z.of_nat (length scores)).

(** *** agents/test_level1_all.py: run_all_level1_agents *)

Record summary := mkSummary {
  average_score : Q;
  consensus : string;
  buy_votes : Z;
  hold_votes : Z;
  sell_votes : Z;
  total_agents : Z
}.

(** One entry of [results['agents']]: the score and the recommendation
    (the per-agent display fields are left out). *)
Definition entry : Type := Z * Rec.

Definition entry_of (r : analysis) : entry :=
  (get_total_score r, get_recommendation r).

(** The consensus ladder of lines 97-104. *)
Definition consensus_of (buy_count sell_count : Z) : string :=
  if buy_count >=? 3 then "STRONG BUY"
  else if buy_count >=? 2 then "BUY"
  else if sell_count >=? 2 then "SELL"
  else "HOLD".

Definition summarize (agents : list (string * entry)) : summary :=
  let scores := map (fun a => a.2.1) agents in
  let avg_score := match scores with [] => 0%Q | _ => mean scores end in
  let recommendations := map (fun a => a.2.2) agents in
  let buy_count := count BUY recommendations in
  let hold_count := count HOLD recommendations in
  let sell_count := count SELL recommendations in
  {| average_score := round1 avg_score;
     consensus := consensus_of buy_count sell_count;
     buy_votes := buy_count;
     hold_votes := hold_count;
     sell_votes := sell_count;
     total_agents := 4 |}.

(** The four [analyze()] calls in their order; an exception raised by
    one of them leaves the function (there is no handler). *)
Definition run_all_level1_agents (tech quant qual news : result analysis)
  : result (list (string * entry) * summary) :=
  match tech with Raise e => Raise e | Ok tech_result =>
  match quant with Raise e => Raise e | Ok quant_result =>
  match qual with Raise e => Raise e | Ok qual_result =>
  match news with Raise e => Raise e | Ok news_result =>
    let agents :=
      [("TECH_001", entry_of tech_result); ("QUANT_001", entry_of quant_result);
       ("QUAL_001", entry_of qual_result); ("NEWS_001", entry_of news_result)] in
    Ok (agents, summarize agents)
  end end end end.

(** *** The per-stock result dict of the three batch runners *)

Record stock_result := mkStockResult {
  sr_symbol : string;
  sr_name : string;
  sr_date : string;
  sr_agents : list (string * entry);
  sr_avg_score : option Q;
  sr_consensus : option string;
  sr_status : string;
  sr_error : option exn
}.

Record stock := mkStock { stock_symbol : string; stock_name : string }.

(** The body of the [try]: the agents run in order and each one's
    entry is stored in [result['agents']] before the next runs; the
    first exception stops the run and keeps what was stored. *)
Fixpoint run_agents (runs : list (string * result analysis))
    (agents : list (string * entry)) : list (string * entry) * option exn :=
  match runs with
  | [] => (agents, None)
  | (key, Raise e) :: _ => (agents, Some e)
  | (key, Ok r) :: rest => run_agents rest (agents ++ [(key, entry_of r)])
  end.

Definition keyed (tech quant qual news : result analysis)
  : list (string * result analysis) :=
  [("TECH", tech); ("QUANT", quant); ("QUAL", qual); ("NEWS", news)].

(** The one-line consensus of daily_level1_fdr.py:202 and
    daily_level1_fullmarket.py:147. *)
Definition consensus_fdr (buy_count : Z) : string :=
  if buy_count >=? 3 then "STRONG BUY"
  else if buy_count >=? 2 then "BUY"
  else "HOLD".

(** daily_level1_batch.py: analyze_stock *)
Definition analyze_stock (s : stock) (now : string)
    (tech quant qual news : result analysis) : stock_result :=
  match run_agents (keyed tech quant qual news) [] with
  | (agents, None) =>
      let scores := map (fun a => a.2.1) agents in
      {| sr_symbol := stock_symbol s; sr_name := stock_name s; sr_date := now;
         sr_agents := agents;
         sr_avg_score := Some (round1 (mean scores));
         sr_consensus := None;
         sr_status := "success"; sr_error := None |}
  | (agents, Some e) =>
      {| sr_symbol := stock_symbol s; sr_name := stock_name s; sr_date := now;
         sr_agents := agents;
         sr_avg_score := None;
         sr_consensus := None;
         sr_status := "error"; sr_error := Some e |}
  end.

(** daily_level1_fdr.py: Level1BatchRunnerFDR.analyze_stock, and
    daily_level1_fullmarket.py: analyze_stock (the same body; the
    [market] and [sector] labels are left out). *)
Definition analyze_stock_fdr (s : stock) (now : string)
    (tech quant qual news : result analysis) : stock_result :=
  match run_agents (keyed tech quant qual news) [] with
  | (agents, None) =>
      let scores := map (fun a => a.2.1) agents in
      let recs := map (fun a => a.2.2) agents in
      let buy_count := count BUY recs in
      {| sr_symbol := stock_symbol s; sr_name := stock_name s; sr_date := now;
         sr_agents := agents;
         sr_avg_score := Some (round1 (mean scores));
         sr_consensus := Some (consensus_fdr buy_count);
         sr_status := "success"; sr_error := None |}
  | (agents, Some e) =>
      {| sr_symbol := stock_symbol s; sr_name := stock_name s; sr_date := now;
         sr_agents := agents;
         sr_avg_score := None;
         sr_consensus := None;
         sr_status := "error"; sr_error := Some e |}
  end.

(** *** daily_level1_batch.py: main *)

(** What the four agents do for a stock when they are run. *)
Record outcomes := mkOutcomes {
  o_tech : result analysis;
  o_quant : result analysis;
  o_qual : result analysis;
  o_news : result analysis
}.

Record batch_summary := mkBatch {
  b_date : string;
  b_total : nat;
  b_success : nat;
  b_results : list stock_result
}.

(** The [for] loop: [results.append(analyze_stock(stock))]. *)
Fixpoint batch_loop (world : stock -> outcomes) (now : string)
    (stocks : list stock) (results : list stock_result) : list stock_result :=
  match stocks with
  | [] => results
  | s :: rest =>
      let w := world s in
      let result := analyze_stock s now (o_tech w) (o_quant w) (o_qual w) (o_news w) in
      batch_loop world now rest (results ++ [result])
  end.

(** [main]: the artifact handed to [json.dump]. *)
Definition main (world : stock -> outcomes) (now : string) (stocks : list stock)
  : batch_summary :=
  let results := batch_loop world now stocks [] in
  {| b_date := now;
     b_total := length stocks;
     b_success :=
       length (List.filter (fun r => String.eqb (sr_status r) "success") results);
     b_results := results |}.

End Level1.

(* ================================================================== *)
(** ** daily_level1_fullmarket.py: run_full_analysis                     *)
(* ================================================================== *)

Module FullMarket.
Import Level1.

(** One dict of [EXTENDED_STOCK_LIST]: [symbol], [name], [sector]; the
    key [market] is absent until [run_full_analysis] tags the stock. *)
Record listed := mkListed {
  l_symbol : string;
  l_name : string;
  l_sector : option string;
  l_market : option string
}.

(** [d.get(key, default)] *)
Definition get_or (v : option string) (default : string) : string :=
  match v with Some s => s | None => default end.

(** [xs[:n]]: a negative [n] counts from the end. *)
Definition slice_to {A} (n : Z) (xs : list A) : list A :=
  if (n <? 0)%Z then take (length xs - Z.to_nat (- n)) xs
  else take (Z.to_nat n) xs.

(** [xs[:count] if count else xs]: [None] and [0] are both falsy. *)
Definition select {A} (count : option Z) (xs : list A) : list A :=
  match count with
  | None => xs
  | Some n => if (n =? 0)%Z then xs else slice_to n xs
  end.

(** [s['market'] = market] *)
Definition tag (market : string) (s : listed) : listed :=
  {| l_symbol := l_symbol s; l_name := l_name s; l_sector := l_sector s;
     l_market := Some market |}.

(** The result dict of [analyze_stock]: the labels, and the part it
    shares with daily_level1_fdr.py. *)
Record market_result := mkMarketResult {
  mr_market : string;
  mr_sector : string;
  mr_result : stock_result
}.

Definition analyze_stock (world : stock -> outcomes) (now : string)
    (s : listed) : market_result :=
  let symbol := l_symbol s in
  let name := l_name s in
  let market := get_or (l_market s) "KOSPI" in
  let w := world (mkStock symbol name) in
  {| mr_market := market;
     mr_sector := get_or (l_sector s) "Unknown";
     mr_result := analyze_stock_fdr (mkStock symbol name) now
                    (o_tech w) (o_quant w) (o_qual w) (o_news w) |}.

Record final := mkFinal {
  f_date : string;
  f_total : Z;
  f_success : Z;
  f_failed : Z;
  f_kospi_count : Z;
  f_kosdaq_count : Z;
  f_results : list market_result
}.

(** [len(xs)] *)
Definition len {A} (xs : list A) : Z := Z.of_nat (length xs).

(** [run_full_analysis]; [kospi] and [kosdaq] are the two lists of
    [EXTENDED_STOCK_LIST] (distinct dict objects, so tagging one list
    does not touch the other). *)
Definition run_full_analysis (kospi kosdaq : list listed)
    (world : stock -> outcomes) (now : string)
    (kospi_count kosdaq_count : option Z) : final :=
  let kospi_stocks := map (tag "KOSPI") (select kospi_count kospi) in
  let kosdaq_stocks := map (tag "KOSDAQ") (select kosdaq_count kosdaq) in
  let stocks := kospi_stocks ++ kosdaq_stocks in
  let results :=
    foldl (fun results stock => results ++ [analyze_stock world now stock])
          [] stocks in
  let success_results :=
    List.filter (fun r => String.eqb (sr_status (mr_result r)) "success")
                results in
  {| f_date := now;
     f_total := len stocks;
     f_success := len success_results;
     f_failed := len stocks - len success_results;
     f_kospi_count := len kospi_stocks;
     f_kosdaq_count := len kosdaq_stocks;
     f_results := results |}.

End FullMarket.

(* ================================================================== *)
(** ** investment_agent_group.py: InvestmentAgentGroup                   *)
(* ================================================================== *)

Module AgentGroup.

(** One agent dict of the configuration, with the eight keys that
    [_load_or_create_config] writes for every agent. *)
Record agent_dict := mkAgentDict {
  ad_id : string;
  ad_name : string;
  ad_role : string;
  ad_specialty : string;
  ad_level : Z;
  ad_weight : Q;
  ad_status : string;
  ad_prompt_template : string
}.

Record level_data := mkLevel {
  ld_description : string;
  ld_agents : list agent_dict
}.

(** [self.agents['levels']]: a dict, iterated in insertion order. *)
Definition levels : Type := list (string * level_data).

(** The inner loop: the first agent of the level with that id. *)
Fixpoint find_agent (agents : list agent_dict) (agent_id : string)
  : option agent_dict :=
  match agents with
  | [] => None
  | agent :: rest =>
      if String.eqb (ad_id agent) agent_id then Some agent
      else find_agent rest agent_id
  end.

(** [get_agent]: [None] stands for the empty dict [{}] that the method
    returns when no agent has the id. *)
Fixpoint get_agent (lv : levels) (agent_id : string) : option agent_dict :=
  match lv with
  | [] => None
  | (_, level_data) :: rest =>
      match find_agent (ld_agents level_data) agent_id with
      | Some agent => Some agent
      | None => get_agent rest agent_id
      end
  end.

(** The five fields [list_all_agents] copies. *)
Record agent_info := mkAgentInfo {
  ai_id : string;
  ai_name : string;
  ai_role : string;
  ai_level : Z;
  ai_status : string
}.

Definition info_of (agent : agent_dict) : agent_info :=
  {| ai_id := ad_id agent; ai_name := ad_name agent; ai_role := ad_role agent;
     ai_level := ad_level agent; ai_status := ad_status agent |}.

Fixpoint list_all_agents (lv : levels) : list agent_info :=
  match lv with
  | [] => []
  | (_, level_data) :: rest =>
      map info_of (ld_agents level_data) ++ list_all_agents rest
  end.

(** [dict.get(key)] on the insertion-ordered dict. *)
Fixpoint lookup_level (lv : levels) (key : string) : option level_data :=
  match lv with
  | [] => None
  | (k, level_data) :: rest =>
      if String.eqb k key then Some level_data else lookup_level rest key
  end.

(** [f'level_{level}_{...}'] *)
Definition level_key (level : Z) : string :=
  "level_" +:+ pretty level +:+ "_"
    +:+ (if (level =? 1)%Z then "analysts"
         else if (level =? 2)%Z then "managers" else "pm").

Definition get_level_agents (lv : levels) (level : Z) : list agent_dict :=
  match lookup_level lv (level_key level) with
  | Some level_data => ld_agents level_data
  | None => []
  end.

(** The agent ids the orchestration code names, level by level. *)
Definition level1_agents : list string :=
  ["TECH_001"; "QUANT_001"; "QUAL_001"; "NEWS_001"].
Definition level2_agents : list string := ["SECTOR_001"; "MACRO_001"].
Definition pm_agent : string := "PM_001".

End AgentGroup.

(* ================================================================== *)
(** ** agent_orchestrator.py: AgentOrchestrator                          *)
(* ================================================================== *)

Module Orchestrator.
Import AgentGroup.

Definition nl : string := String (ascii_of_nat 10) EmptyString.

(** A byte that continues a UTF-8 character. *)
Definition is_continuation (c : ascii) : bool :=
  ((128 <=? nat_of_ascii c) && (nat_of_ascii c <? 192))%nat.

(** [s[:n]] on a [str]: the first [n] characters of the UTF-8 text. *)
Fixpoint take_chars (n : nat) (s : string) : string :=
  match s with
  | EmptyString => EmptyString
  | String c rest =>
      if is_continuation c then String c (take_chars n rest)
      else match n with
           | O => EmptyString
           | S n' => String c (take_chars n' rest)
           end
  end.

Section WithConfig.

(** [self.config['levels']], as loaded from the configuration file. *)
Context (config : levels).

(** [_get_agent_info]: the same two loops as [get_agent]; [None] is
    the [{}] it returns when the id is unknown. *)
Definition get_agent_info (agent_id : string) : option agent_dict :=
  get_agent config agent_id.

(** [agent['name']] and the like on what [_get_agent_info] returned:
    the empty dict has no key. *)
Definition field {A} (agent : option agent_dict) (f : agent_dict -> A)
  : result A :=
  match agent with
  | Some a => Ok (f a)
  | None => Raise KeyError
  end.

(** [get_agent_prompt]: the loops with [break], then the f-string. *)
Definition get_agent_prompt (agent_id symbol name : string) : string :=
  match get_agent config agent_id with
  | None => ""
  | Some agent =>
      ad_prompt_template agent +:+ nl +:+ nl +:+ "---" +:+ nl +:+ nl
      +:+ "**분석 대상 종목**" +:+ nl
      +:+ "- 종목코드: " +:+ symbol +:+ nl
      +:+ "- 종목명: " +:+ name +:+ nl +:+ nl
      +:+ "**당신의 역할**: " +:+ ad_role agent +:+ nl
      +:+ "**전문 분야**: " +:+ ad_specialty agent +:+ nl +:+ nl
      +:+ "현재 시장 데이터와 종목 정보를 바탕으로 분석을 수행하고, 0-100점의 점수와 함께 상세한 근거를 제시하세요."
      +:+ nl +:+ nl
      +:+ "출력은 반드시 JSON 형식으로 제공하세요."
  end.

(** [prompt[:200] + '...'] *)
Definition preview (prompt : string) : string :=
  take_chars 200 prompt +:+ "...".

(** The entry of one Level-1 agent; [o1_result] is the [None] stored
    under 'result'. *)
Record level1_entry := mkLevel1Entry {
  o1_agent_name : string;
  o1_agent_role : string;
  o1_prompt : string;
  o1_status : string;
  o1_result : option pyval
}.

Record level2_entry := mkLevel2Entry {
  o2_agent_name : string;
  o2_agent_role : string;
  o2_level1_input : list (string * level1_entry);
  o2_prompt : string;
  o2_status : string;
  o2_result : option pyval
}.

Record level3_entry := mkLevel3Entry {
  o3_agent_name : string;
  o3_agent_role : string;
  o3_level1_input : list (string * level1_entry);
  o3_level2_input : list (string * level2_entry);
  o3_prompt : string;
  o3_status : string;
  o3_result : option pyval
}.

(** The loop of [run_level1_analysis]; [results[agent_id] = ...] adds
    a key, the ids being distinct. *)
Fixpoint level1_loop (symbol name : string) (ids : list string)
    (results : list (string * level1_entry))
  : result (list (string * level1_entry)) :=
  match ids with
  | [] => Ok results
  | agent_id :: rest =>
      let agent := get_agent_info agent_id in
      match field agent ad_name with
      | Raise e => Raise e
      | Ok _ =>
          let prompt := get_agent_prompt agent_id symbol name in
          match field agent ad_name with
          | Raise e => Raise e
          | Ok agent_name =>
              match field agent ad_role with
              | Raise e => Raise e
              | Ok agent_role =>
                  level1_loop symbol name rest
                    (results ++ [(agent_id,
                       {| o1_agent_name := agent_name;
                          o1_agent_role := agent_role;
                          o1_prompt := preview prompt;
                          o1_status := "pending";
                          o1_result := None |})])
              end
          end
      end
  end.

Definition run_level1_analysis (symbol name : string)
  : result (list (string * level1_entry)) :=
  level1_loop symbol name level1_agents [].

Fixpoint level2_loop (symbol name : string)
    (level1_results : list (string * level1_entry)) (ids : list string)
    (results : list (string * level2_entry))
  : result (list (string * level2_entry)) :=
  match ids with
  | [] => Ok results
  | agent_id :: rest =>
      let agent := get_agent_info agent_id in
      match field agent ad_name with
      | Raise e => Raise e
      | Ok _ =>
          let prompt := get_agent_prompt agent_id symbol name in
          match field agent ad_name with
          | Raise e => Raise e
          | Ok agent_name =>
              match field agent ad_role with
              | Raise e => Raise e
              | Ok agent_role =>
                  level2_loop symbol name level1_results rest
                    (results ++ [(agent_id,
                       {| o2_agent_name := agent_name;
                          o2_agent_role := agent_role;
                          o2_level1_input := level1_results;
                          o2_prompt := preview prompt;
                          o2_status := "pending";
                          o2_result := None |})])
              end
          end
      end
  end.

Definition run_level2_analysis (symbol name : string)
    (level1_results : list (string * level1_entry))
  : result (list (string * level2_entry)) :=
  level2_loop symbol name level1_results level2_agents [].

Definition run_level3_decision (symbol name : string)
    (level1_results : list (string * level1_entry))
    (level2_results : list (string * level2_entry))
  : result (list (string * level3_entry)) :=
  let agent_id := pm_agent in
  let agent := get_agent_info agent_id in
  match field agent ad_name with
  | Raise e => Raise e
  | Ok _ =>
      let prompt := get_agent_prompt agent_id symbol name in
      match field agent ad_name with
      | Raise e => Raise e
      | Ok agent_name =>
          match field agent ad_role with
          | Raise e => Raise e
          | Ok agent_role =>
              Ok [(agent_id,
                   {| o3_agent_name := agent_name;
                      o3_agent_role := agent_role;
                      o3_level1_input := level1_results;
                      o3_level2_input := level2_results;
                      o3_prompt := preview prompt;
                      o3_status := "pending";
                      o3_result := None |})]
          end
      end
  end.

Record final_result := mkFinalResult {
  fr_analysis_id : string;
  fr_symbol : string;
  fr_name : string;
  fr_timestamp : string;
  fr_level_1 : list (string * level1_entry);
  fr_level_2 : list (string * level2_entry);
  fr_level_3 : list (string * level3_entry);
  fr_status : string
}.

(** [run_full_analysis]; [stamp] is [datetime.now().strftime(...)] and
    [now] is [datetime.now().isoformat()]. *)
Definition run_full_analysis (symbol name stamp now : string)
  : result final_result :=
  match run_level1_analysis symbol name with
  | Raise e => Raise e
  | Ok level1_results =>
      match run_level2_analysis symbol name level1_results with
      | Raise e => Raise e
      | Ok level2_results =>
          match run_level3_decision symbol name level1_results level2_results with
          | Raise e => Raise e
          | Ok level3_results =>
              Ok {| fr_analysis_id := "ANALYSIS_" +:+ stamp;
                    fr_symbol := symbol;
                    fr_name := name;
                    fr_timestamp := now;
                    fr_level_1 := level1_results;
                    fr_level_2 := level2_results;
                    fr_level_3 := level3_results;
                    fr_status := "completed" |}
          end
      end
  end.

End WithConfig.

End Orchestrator.

(* ================================================================== *)
(** ** agent_spawner.py: AgentSpawner                                    *)
(* ================================================================== *)

Module Spawner.
Import AgentGroup.

Section WithGroup.

(** [self.group.agents['levels']]. *)
Context (config : levels).

(** [_build_agent_prompt]: an f-string around the agent's template,
    kept as the four values substituted into its fixed text ([today]
    is [datetime.now().strftime('%Y년 %m월 %d일')]). *)
Record built_prompt := mkPrompt {
  bp_base_prompt : string;
  bp_symbol : string;
  bp_name : string;
  bp_today : string
}.

Definition build_agent_prompt (agent : agent_dict) (symbol name today : string)
  : built_prompt :=
  {| bp_base_prompt := ad_prompt_template agent;
     bp_symbol := symbol; bp_name := name; bp_today := today |}.

(** What [spawn_agent] returns: the error dict, or the spawn config. *)
Inductive spawn :=
| NotFound (error : msg)
| SpawnConfig (agent_id agent_name symbol name : string) (prompt : built_prompt)
              (timestamp status : string).

Definition spawn_agent (agent_id symbol name today now : string) : spawn :=
  match get_agent config agent_id with
  | None => NotFound (Msg "Agent {agent_id} not found" [PyStr agent_id])
  | Some agent =>
      SpawnConfig agent_id (ad_name agent) symbol name
                  (build_agent_prompt agent symbol name today) now "spawned"
  end.

(** [run_level1_parallel]: one [spawn_agent] per id, appended in order. *)
Definition run_level1_parallel (symbol name today now : string) : list spawn :=
  foldl (fun spawned agent_id =>
           spawned ++ [spawn_agent agent_id symbol name today now])
        [] level1_agents.

(** One row of [context['level1_summary']]. *)
Record summary_row := mkSummaryRow {
  row_agent : string;
  row_symbol : string;
  row_status : string
}.

(** [{'agent': r['agent_name'], 'symbol': r['symbol'], 'status':
    r['status']}]: the error dict has none of the three keys. *)
Definition summary_of (r : spawn) : result summary_row :=
  match r with
  | NotFound _ => Raise KeyError
  | SpawnConfig _ agent_name symbol _ _ _ status =>
      Ok {| row_agent := agent_name; row_symbol := symbol;
            row_status := status |}
  end.

(** The list comprehension over [level1_results]. *)
Fixpoint level1_summary (level1_results : list spawn)
  : result (list summary_row) :=
  match level1_results with
  | [] => Ok []
  | r :: rest =>
      match summary_of r with
      | Raise e => Raise e
      | Ok row =>
          match level1_summary rest with
          | Raise e => Raise e
          | Ok rows => Ok (row :: rows)
          end
      end
  end.

(** A spawn dict to which [config['context'] = context] was added. *)
Record with_context := mkWithContext {
  wc_spawn : spawn;
  wc_context : list summary_row
}.

Fixpoint level2_loop (symbol name today now : string)
    (level1_results : list spawn) (ids : list string)
    (spawned : list with_context) : result (list with_context) :=
  match ids with
  | [] => Ok spawned
  | agent_id :: rest =>
      match level1_summary level1_results with
      | Raise e => Raise e
      | Ok context =>
          let config := spawn_agent agent_id symbol name today now in
          level2_loop symbol name today now level1_results rest
            (spawned ++ [{| wc_spawn := config; wc_context := context |}])
      end
  end.

Definition run_level2_parallel (symbol name today now : string)
    (level1_results : list spawn) : result (list with_context) :=
  level2_loop symbol name today now level1_results level2_agents [].

(** A spawn dict to which [config['inputs'] = {...}] was added. *)
Record with_inputs := mkWithInputs {
  wi_spawn : spawn;
  wi_level1_count : Z;
  wi_level2_count : Z
}.

Definition run_level3_final (symbol name today now : string)
    (level1_results : list spawn) (level2_results : list with_context)
  : with_inputs :=
  {| wi_spawn := spawn_agent pm_agent symbol name today now;
     wi_level1_count := Z.of_nat (length level1_results);
     wi_level2_count := Z.of_nat (length level2_results) |}.

Record pipeline_result := mkPipeline {
  pl_pipeline_id : string;
  pl_symbol : string;
  pl_name : string;
  pl_started_at : string;
  pl_level1 : list spawn;
  pl_level1_spawned : Z;
  pl_level2 : list with_context;
  pl_level2_spawned : Z;
  pl_level3 : with_inputs;
  pl_level3_spawned : Z;
  pl_total_agents : Z;
  pl_status : string
}.

(** [run_full_pipeline]; [stamp] is the [strftime] of the pipeline id. *)
Definition run_full_pipeline (symbol name today stamp now : string)
  : result pipeline_result :=
  let level1_spawned := run_level1_parallel symbol name today now in
  match run_level2_parallel symbol name today now level1_spawned with
  | Raise e => Raise e
  | Ok level2_spawned =>
      let level3_spawned :=
        run_level3_final symbol name today now level1_spawned level2_spawned in
      Ok {| pl_pipeline_id := "PIPE_" +:+ stamp;
            pl_symbol := symbol;
            pl_name := name;
            pl_started_at := now;
            pl_level1 := level1_spawned;
            pl_level1_spawned := Z.of_nat (length level1_spawned);
            pl_level2 := level2_spawned;
            pl_level2_spawned := Z.of_nat (length level2_spawned);
            pl_level3 := level3_spawned;
            pl_level3_spawned := 1;
            pl_total_agents :=
              Z.of_nat (length level1_spawned)
              + Z.of_nat (length level2_spawned) + 1;
            pl_status := "pipeline_initialized" |}
  end.

End WithGroup.

End Spawner.

(* ================================================================== *)
(** ** Level 3: the Decision Synthesizer                                 *)
(* ================================================================== *)

Module Synth.

Inductive classification := Long | Neutral | Short.

(** Modelled from the spec: the Level-3 Decision Synthesizer has no
    implementation in the repository.  investment_agent_group.py only
    holds the PM_001 prompt text that states the rule (weights 50/30/20;
    Long at 70 and above, Short at 40 and below), and
    agent_orchestrator.py's [run_level3_decision] returns a record with
    status [pending] and result [None].  The blend below is the one of
    section 4.3 of the specification. *)
Definition composite (level1_average level2_average pm_judgment_adjustment : Q) : Q :=
  (5 # 10) * level1_average + (3 # 10) * level2_average
  + (2 # 10) * pm_judgment_adjustment.

(** Modelled from the spec: the classification bands of section 4.3,
    which are also the ones quoted in the PM_001 prompt. *)
Definition classify (c : Q) : classification :=
  if Qle_bool 70 c then Long
  else if Qle_bool c 40 then Short
  else Neutral.

(** Modelled from the spec: [synthesize] of section 4.3, reduced to the
    classification it exposes. *)
Definition synthesize (level1_average level2_average pm_judgment_adjustment : Q)
  : classification :=
  classify (composite level1_average level2_average pm_judgment_adjustment).

End Synth.

(* ================================================================== *)
(** ** The four scorers, side by side                                    *)
(* ================================================================== *)

Module Scorers.

Inductive scorer := TECH | QUANT | QUAL | NEWS.

(** [produces k r]: some run of scorer [k]'s [analyze], on some input
    and from some agent state, returned the result dict [r]. *)
Definition produces (k : scorer) (r : agent_result) : Prop :=
  match k with
  | TECH =>
      exists symbol name fetched now a a',
        Technical.analyze symbol name fetched now a = Ok (Scored r, a')
  | QUANT =>
      exists float_of_str info symbol name fetch_ok now a a',
        Quant.analyze float_of_str info symbol name fetch_ok now a
          = Ok (Scored r, a')
  | QUAL =>
      exists info symbol name fetch_ok now a a',
        Qualitative.analyze info symbol name fetch_ok now a = Ok (Scored r, a')
  | NEWS =>
      exists series_std news price_data symbol name fetch_ok now a a',
        News.analyze series_std news price_data symbol name fetch_ok now a
          = Ok (Scored r, a')
  end.

(** [Agent(symbol, name).analyze()]: a call on a freshly built agent. *)
Definition call {A} (m : M A) : result A :=
  match m start with
  | Ok (x, _) => Ok x
  | Raise e => Raise e
  end.

(** The mapping reads a fresh agent performed during [m]. *)
Definition reads_of {A} (m : M A) : list (string * pyval) :=
  match m start with
  | Ok (_, a) => reads a
  | Raise _ => []
  end.

End Scorers.
Export Scorers.

(* ================================================================== *)
(** ** Sample inputs                                                     *)
(* ================================================================== *)

Module Samples.

(** [Series.rolling(n).mean()] at row [i]: NaN until [n] rows are
    available. *)
Definition rolling_mean (n : nat) (xs : list fl) (i : nat) : fl :=
  if (n <=? i + 1)%nat then series_mean (take n (drop (i + 1 - n) xs)) else NaN.

(** 125 closing prices: a flat market around 100, a two-day dip to 80
    and a four-day recovery to 150 (no daily move above 25%). *)
Definition spike_closes : list fl :=
  map of_Z (flat_map (fun _ => [99; 101]) (seq 0 59)
            ++ [99; 80; 80; 100; 110; 120; 150]).

(** The indicator frame of [spike_closes]: the three moving averages
    and the Bollinger middle band are the rolling means of the closes;
    the columns [analyze_price_trend] does not read hold finite
    placeholder values. *)
Definition spike_row (i : nat) : Technical.row :=
  let c := match spike_closes !! i with Some x => x | None => NaN end in
  {| Technical.Open := c; Technical.High := c; Technical.Low := c;
     Technical.Close := c; Technical.Volume := of_Z 1000000;
     Technical.MA5 := rolling_mean 5 spike_closes i;
     Technical.MA20 := rolling_mean 20 spike_closes i;
     Technical.MA60 := rolling_mean 60 spike_closes i;
     Technical.RSI := of_Z 60;
     Technical.MACD := of_Z 1; Technical.MACD_Signal := of_Z 0;
     Technical.MACD_Hist := of_Z 1;
     Technical.BB_Middle := rolling_mean 20 spike_closes i;
     Technical.BB_Upper := of_Z 160; Technical.BB_Lower := of_Z 60;
     Technical.BB_Width := of_Z 1; Technical.BB_Position := Fin (9#10);
     Technical.Volume_MA20 := of_Z 1000000; Technical.Volume_Ratio := of_Z 1;
     Technical.OBV := of_Z 0 |}.

Definition spike_frame : list Technical.row := map spike_row (seq 0 125).

(** A symbol for which the data provider has next to nothing: ten days
    of prices, an empty [info] mapping, no news, an empty price
    history. *)
Definition sparse_symbol : string := "000000.KS".
Definition sparse_name : string := "sparse".
Definition sample_now : string := "2026-01-05T09:00:00".
Definition no_float : string -> option fl := fun _ => None.
Definition flat_std : list fl -> fl := fun _ => of_Z 0.

Definition sparse_tech : result analysis :=
  call (Technical.analyze sparse_symbol sparse_name
          (Some (take 10 spike_frame)) sample_now).

Definition sparse_quant : result analysis :=
  call (Quant.analyze no_float ∅ sparse_symbol sparse_name true sample_now).

Definition sparse_qual : result analysis :=
  call (Qualitative.analyze ∅ sparse_symbol sparse_name true sample_now).

Definition sparse_news : result analysis :=
  call (News.analyze flat_std [] (Some []) sparse_symbol sparse_name true
          sample_now).

(** The three-key error dict of an agent whose download failed. *)
Definition failed_agent : result analysis :=
  Ok (fetch_failed sparse_symbol sparse_name).

(** An [info] mapping that holds the key [marketCap] with value
    [None], as yfinance reports a field it has no figure for. *)
Definition info_market_cap_none : gmap string pyval :=
  {[ "marketCap" := PyNone ]}.

End Samples.

(* ================================================================== *)
(** * Properties                                                         *)
(* ================================================================== *)

(** ** How a computation moves the score *)

Module ScoreLogic.

(** [adds lo hi m]: whenever [m] returns, it has moved [score] by an
    amount between [lo] and [hi]. *)
Definition adds {A} (lo hi : Z) (m : M A) : Prop :=
  forall a x a', m a = Ok (x, a') -> score a + lo <= score a' <= score a + hi.

Lemma bind_ok {A B} (m : M A) (k : A -> M B) a y a2 :
  (m ≫= k) a = Ok (y, a2) ->
  exists x a1, m a = Ok (x, a1) /\ k x a1 = Ok (y, a2).
Proof.
  unfold mbind, M_bind, bind. destruct (m a) as [[x a1]|e]; [|discriminate].
  intros H. exists x, a1. split; [reflexivity|exact H].
Qed.

Lemma adds_ret {A} (x : A) : adds 0 0 (mret x).
Proof. intros a y a' H. inversion H; subst. lia. Qed.

Lemma adds_ret' {A} (x : A) : adds 0 0 (ret x).
Proof. exact (adds_ret x). Qed.

Lemma adds_skip : adds 0 0 skip.
Proof. exact (adds_ret tt). Qed.

Lemma adds_lift {A} (r : result A) : adds 0 0 (lift r).
Proof. intros a y a' H. unfold lift in H. destruct r; inversion H; subst. lia. Qed.

Lemma adds_add n : adds n n (add n).
Proof. intros a y a' H. inversion H; subst. cbn. lia. Qed.

Lemma adds_signal m : adds 0 0 (signal m).
Proof. intros a y a' H. inversion H; subst. cbn. lia. Qed.

Lemma adds_risk m : adds 0 0 (risk m).
Proof. intros a y a' H. inversion H; subst. cbn. lia. Qed.

Lemma adds_log_read k v : adds 0 0 (log_read k v).
Proof. intros a y a' H. inversion H; subst. cbn. lia. Qed.

Lemma adds_get_risks : adds 0 0 get_risks.
Proof. intros a y a' H. inversion H; subst. lia. Qed.

Lemma adds_bind {A B} l1 h1 l2 h2 (m : M A) (k : A -> M B) :
  adds l1 h1 m -> (forall x, adds l2 h2 (k x)) ->
  adds (l1 + l2) (h1 + h2) (m ≫= k).
Proof.
  intros Hm Hk a y a2 H.
  apply bind_ok in H as (x & a1 & H1 & H2).
  apply Hm in H1. apply Hk in H2. lia.
Qed.

Lemma adds_if {A} l1 h1 l2 h2 (b : bool) (t e : M A) :
  adds l1 h1 t -> adds l2 h2 e ->
  adds (Z.min l1 l2) (Z.max h1 h2) (if b then t else e).
Proof.
  intros Ht He a y a' H. destruct b; [apply Ht in H | apply He in H]; lia.
Qed.

Lemma adds_weaken {A} lo hi lo' hi' (m : M A) :
  adds lo hi m -> lo' <= lo -> hi <= hi' -> adds lo' hi' m.
Proof. intros Hm Hl Hh a y a' H. apply Hm in H. lia. Qed.

(** A syntax-directed search for the bounds of a computation. *)
Create HintDb blocks.

Ltac infer_adds :=
  lazymatch goal with
  | |- adds _ _ (_ ≫= _) =>
      eapply adds_bind; [infer_adds | intros; infer_adds]
  | |- adds _ _ (if ?b then _ else _) =>
      first [eapply adds_if | destruct b]; infer_adds
  | |- adds _ _ (let _ := _ in _) => cbv zeta; infer_adds
  | |- adds _ _ (mret _) => apply adds_ret
  | |- adds _ _ (ret _) => apply adds_ret'
  | |- adds _ _ skip => apply adds_skip
  | |- adds _ _ (lift _) => apply adds_lift
  | |- adds _ _ (add _) => apply adds_add
  | |- adds _ _ (signal _) => apply adds_signal
  | |- adds _ _ (risk _) => apply adds_risk
  | |- adds _ _ (log_read _ _) => apply adds_log_read
  | |- adds _ _ get_risks => apply adds_get_risks
  | |- adds _ _ (match ?x with _ => _ end) => destruct x; infer_adds
  | |- _ => first [ solve [eauto with blocks] | progress autounfold with blocks; infer_adds ]
  end.

Ltac bounds := eapply adds_weaken; [infer_adds | vm_compute; discriminate ..].

(** What a method returns, given the bounds of its body. *)
Lemma method_range init clamp body lo hi a r a' :
  adds lo hi body ->
  method init clamp body a = Ok (r, a') ->
  r.1.1 = clamp (score a') /\ init + lo <= score a' <= init + hi.
Proof.
  intros Hb H. unfold method in H.
  destruct (body _) as [[x a1]|e] eqn:E; [|discriminate].
  inversion H; subst. apply Hb in E. cbn in *. split; [reflexivity|lia].
Qed.

(** A sub-dimension score is an integer between 0 and 25. *)
Definition sub_score_ok (m : M (Z * list msg * list msg)) : Prop :=
  forall a r a', m a = Ok (r, a') -> 0 <= r.1.1 <= 25.

Lemma early_ok sg rk : sub_score_ok (early 12 sg rk).
Proof. intros a r a' H. inversion H; subst. cbn. lia. Qed.

Lemma method_min_ok body hi :
  adds 0 hi body -> sub_score_ok (method 0 clamp25 body).
Proof.
  intros Hb a r a' H. apply (method_range _ _ _ _ _ _ _ _ Hb) in H as [-> ?].
  unfold clamp25. lia.
Qed.

Lemma method_max_ok body lo :
  -25 <= lo -> adds lo 0 body -> sub_score_ok (method 25 floor0 body).
Proof.
  intros Hlo Hb a r a' H. apply (method_range _ _ _ _ _ _ _ _ Hb) in H as [-> ?].
  unfold floor0. lia.
Qed.

(** [returns m]: [m] never raises. *)
Definition returns {A} (m : M A) : Prop :=
  forall a, exists x a', m a = Ok (x, a').

Lemma returns_ret {A} (x : A) : returns (mret x).
Proof. intros a. exists x, a. reflexivity. Qed.

Lemma returns_ret' {A} (x : A) : returns (ret x).
Proof. exact (returns_ret x). Qed.

Lemma returns_lift_ok {A} (x : A) : returns (lift (Ok x)).
Proof. intros a. exists x, a. reflexivity. Qed.

Lemma returns_add n : returns (add n).
Proof. intros a. eexists _, _. reflexivity. Qed.

Lemma returns_signal m : returns (signal m).
Proof. intros a. eexists _, _. reflexivity. Qed.

Lemma returns_risk m : returns (risk m).
Proof. intros a. eexists _, _. reflexivity. Qed.

Lemma returns_log_read k v : returns (log_read k v).
Proof. intros a. eexists _, _. reflexivity. Qed.

Lemma returns_get_risks : returns get_risks.
Proof. intros a. eexists _, _. reflexivity. Qed.

Lemma returns_bind {A B} (m : M A) (k : A -> M B) :
  returns m -> (forall x, returns (k x)) -> returns (m ≫= k).
Proof.
  intros Hm Hk a. destruct (Hm a) as (x & a1 & E).
  destruct (Hk x a1) as (y & a2 & E2). exists y, a2.
  unfold mbind, M_bind, bind. rewrite E. exact E2.
Qed.

Lemma returns_if {A} (b : bool) (t e : M A) :
  returns t -> returns e -> returns (if b then t else e).
Proof. destruct b; auto. Qed.

Lemma returns_method init clamp body :
  returns body -> returns (method init clamp body).
Proof.
  intros Hb a. destruct (Hb (mkAcc init [] [] (reads a))) as ([] & a1 & E).
  eexists _, _. unfold method. rewrite E. reflexivity.
Qed.

Lemma iloc_neg_ok {A} (xs : list A) (k : nat) :
  (1 <= k <= length xs)%nat -> exists x, iloc_neg xs k = Ok x.
Proof.
  intros Hk. unfold iloc_neg.
  destruct (Nat.leb_spec k (length xs)) as [_|?]; [|lia].
  destruct (lookup_lt_is_Some_2 xs (length xs - k)%nat) as [x ->]; [lia|].
  exists x. reflexivity.
Qed.

Ltac infer_returns :=
  lazymatch goal with
  | |- returns (_ ≫= _) =>
      apply returns_bind; [infer_returns | intros; infer_returns]
  | |- returns (if ?b then _ else _) =>
      first [apply returns_if | destruct b]; infer_returns
  | |- returns (let _ := _ in _) => cbv zeta; infer_returns
  | |- returns (mret _) => apply returns_ret
  | |- returns (ret _) => apply returns_ret'
  | |- returns skip => apply returns_ret
  | |- returns (lift (Ok _)) => apply returns_lift_ok
  | |- returns (lift (iloc_neg ?xs ?k)) =>
      let x := fresh "x" in
      destruct (iloc_neg_ok xs k) as [x ->];
      [rewrite ?length_map; cbn; lia | apply returns_lift_ok]
  | |- returns (add _) => apply returns_add
  | |- returns (signal _) => apply returns_signal
  | |- returns (risk _) => apply returns_risk
  | |- returns (log_read _ _) => apply returns_log_read
  | |- returns get_risks => apply returns_get_risks
  | |- returns (method _ _ _) => apply returns_method; infer_returns
  | |- returns (match ?x with _ => _ end) => destruct x; infer_returns
  | |- _ => first [ solve [eauto with blocks]
                  | progress autounfold with blocks; infer_returns ]
  end.

End ScoreLogic.
Import ScoreLogic.

(** ** The technical agent *)

Module TechnicalProps.
Import Technical.

#[export] Hint Unfold ma_golden pt_alignment pt_golden pt_price pt_slope
  mo_rsi mo_macd mo_hist bb_position_band bb_squeeze bb_direction
  vo_ratio vo_trend vo_obv : blocks.

Lemma price_trend_adds df : adds 0 28 (price_trend_body df).
Proof. unfold price_trend_body. bounds. Qed.

Lemma momentum_adds df : adds 0 25 (momentum_body df).
Proof. unfold momentum_body. bounds. Qed.

Lemma bollinger_adds df : adds 3 25 (bollinger_body df).
Proof. unfold bollinger_body. bounds. Qed.

Lemma volume_adds df : adds 0 25 (volume_body df).
Proof. unfold volume_body. bounds. Qed.

(** The four sub-dimension methods return a score in [0, 25]. *)
Lemma analyze_price_trend_ok data : sub_score_ok (analyze_price_trend data).
Proof.
  unfold analyze_price_trend. cbv zeta. destruct (_ <? _)%nat.
  - apply early_ok.
  - exact (method_min_ok _ _ (price_trend_adds _)).
Qed.

Lemma analyze_momentum_ok data : sub_score_ok (analyze_momentum data).
Proof.
  unfold analyze_momentum. cbv zeta. destruct (_ <? _)%nat.
  - apply early_ok.
  - exact (method_min_ok _ _ (momentum_adds _)).
Qed.

Lemma analyze_bollinger_ok data : sub_score_ok (analyze_bollinger data).
Proof.
  unfold analyze_bollinger. cbv zeta. destruct (_ <? _)%nat.
  - apply early_ok.
  - refine (method_min_ok _ 25 _).
    eapply adds_weaken; [apply bollinger_adds | lia ..].
Qed.

Lemma analyze_volume_ok data : sub_score_ok (analyze_volume data).
Proof.
  unfold analyze_volume. cbv zeta. destruct (_ <? _)%nat.
  - apply early_ok.
  - exact (method_min_ok _ _ (volume_adds _)).
Qed.

(** None of them raises: the length guards make every [iloc] valid. *)
Lemma price_trend_body_returns df :
  (60 <= length df)%nat -> returns (price_trend_body df).
Proof. intros H. unfold price_trend_body. infer_returns. Qed.

Lemma momentum_body_returns df :
  (26 <= length df)%nat -> returns (momentum_body df).
Proof. intros H. unfold momentum_body. infer_returns. Qed.

Lemma bollinger_body_returns df :
  (20 <= length df)%nat -> returns (bollinger_body df).
Proof. intros H. unfold bollinger_body. infer_returns. Qed.

Lemma volume_body_returns df :
  (20 <= length df)%nat -> returns (volume_body df).
Proof. intros H. unfold volume_body. infer_returns. Qed.

Lemma analyze_price_trend_returns data : returns (analyze_price_trend data).
Proof.
  unfold analyze_price_trend. cbv zeta.
  destruct (Nat.ltb_spec (length (dropna data)) 60).
  - apply returns_ret.
  - apply returns_method, price_trend_body_returns. lia.
Qed.

Lemma analyze_momentum_returns data : returns (analyze_momentum data).
Proof.
  unfold analyze_momentum. cbv zeta.
  destruct (Nat.ltb_spec (length (dropna data)) 26).
  - apply returns_ret.
  - apply returns_method, momentum_body_returns. lia.
Qed.

Lemma analyze_bollinger_returns data : returns (analyze_bollinger data).
Proof.
  unfold analyze_bollinger. cbv zeta.
  destruct (Nat.ltb_spec (length (dropna data)) 20).
  - apply returns_ret.
  - apply returns_method, bollinger_body_returns. lia.
Qed.

Lemma analyze_volume_returns data : returns (analyze_volume data).
Proof.
  unfold analyze_volume. cbv zeta.
  destruct (Nat.ltb_spec (length (dropna data)) 20).
  - apply returns_ret.
  - apply returns_method, volume_body_returns. lia.
Qed.

End TechnicalProps.

(** ** What every result dict satisfies *)

Module ResultLogic.

(** total = sum of the four sub-scores, each in [0, 25], total in
    [0, 100]. *)
Definition score_invariant (r : agent_result) : Prop :=
  total_score r = sum_list (sub_scores r)
  /\ length (sub_scores r) = 4%nat
  /\ Forall (fun s => 0 <= s <= 25) (sub_scores r)
  /\ 0 <= total_score r <= 100.

(** The threshold ladder, read off a result. *)
Definition ladder_ok (r : agent_result) : Prop :=
  (recommendation r = BUY <-> 70 <= total_score r)
  /\ (recommendation r = HOLD <-> 50 <= total_score r < 70)
  /\ (recommendation r = SELL <-> total_score r < 50).

Definition result_ok (r : agent_result) : Prop :=
  score_invariant r /\ ladder_ok r.

Lemma ladder_cases (t : Z) (rec : Rec) :
  rec = (if t >=? 70 then BUY else if t >=? 50 then HOLD else SELL) ->
  (rec = BUY <-> 70 <= t) /\ (rec = HOLD <-> 50 <= t < 70)
  /\ (rec = SELL <-> t < 50).
Proof.
  intros ->.
  destruct (Z.geb_spec t 70); [|destruct (Z.geb_spec t 50)];
    repeat split; intros; try discriminate; try lia; reflexivity.
Qed.

(** The dict every [analyze] builds from four sub-scores. *)
Lemma built_ok (r : agent_result) n1 n2 n3 n4 s1 s2 s3 s4 :
  0 <= s1 <= 25 -> 0 <= s2 <= 25 -> 0 <= s3 <= 25 -> 0 <= s4 <= 25 ->
  breakdown r = [(n1, s1); (n2, s2); (n3, s3); (n4, s4)] ->
  total_score r = s1 + s2 + s3 + s4 ->
  recommendation r =
    (if total_score r >=? 70 then BUY
     else if total_score r >=? 50 then HOLD else SELL) ->
  result_ok r.
Proof.
  intros H1 H2 H3 H4 Hb Ht Hr. split.
  - unfold score_invariant, sub_scores. rewrite Hb, Ht. cbn.
    repeat split; try lia. repeat constructor; lia.
  - apply ladder_cases, Hr.
Qed.

End ResultLogic.
Import ResultLogic.

Module TechnicalResult.
Import Technical TechnicalProps.

Lemma technical_result_ok symbol name fetched now a r a' :
  analyze symbol name fetched now a = Ok (Scored r, a') -> result_ok r.
Proof.
  unfold analyze. intros H. destruct fetched as [[|r0 data]|]; try discriminate H.
  set (d := r0 :: data) in *. clearbody d.
  apply bind_ok in H as ([[s1 ?] ?] & a1 & E1 & H).
  apply bind_ok in H as ([[s2 ?] ?] & a2 & E2 & H).
  apply bind_ok in H as ([[s3 ?] ?] & a3 & E3 & H).
  apply bind_ok in H as ([[s4 ?] ?] & a4 & E4 & H).
  apply bind_ok in H as (last & a5 & E5 & H).
  apply analyze_price_trend_ok in E1. apply analyze_momentum_ok in E2.
  apply analyze_bollinger_ok in E3. apply analyze_volume_ok in E4.
  cbn in E1, E2, E3, E4. inversion H; subst r.
  eapply built_ok with (s1:=s1) (s2:=s2) (s3:=s3) (s4:=s4);
    [assumption .. | reflexivity | reflexivity | reflexivity].
Qed.

(** [analyze] itself never raises. *)
Lemma technical_analyze_returns symbol name fetched now :
  returns (analyze symbol name fetched now).
Proof.
  unfold analyze. destruct fetched as [[|r0 data]|]; try apply returns_ret.
  set (d := r0 :: data). assert (Hd : (1 <= length d)%nat) by (cbn; lia).
  clearbody d.
  apply returns_bind; [apply analyze_price_trend_returns|intros [[? ?] ?]].
  apply returns_bind; [apply analyze_momentum_returns|intros [[? ?] ?]].
  apply returns_bind; [apply analyze_bollinger_returns|intros [[? ?] ?]].
  apply returns_bind; [apply analyze_volume_returns|intros [[? ?] ?]].
  cbv zeta. infer_returns.
Qed.

End TechnicalResult.

(** ** The quant agent *)

Module QuantProps.
Import Quant.

#[export] Hint Unfold get_metric pct pr_roe pr_roa pr_op_margin pr_net_margin
  gr_revenue gr_earnings gr_eps st_debt st_current st_cashflow
  va_per va_pbr va_peg va_ev : blocks.

Section WithInfo.
Context (float_of_str : string -> option fl) (info : gmap string pyval).

Lemma profitability_adds :
  adds 0 25 (pr_roe float_of_str info;; pr_roa float_of_str info;;
             pr_op_margin float_of_str info;; pr_net_margin float_of_str info).
Proof. bounds. Qed.

Lemma growth_adds :
  adds 0 25 (gr_revenue float_of_str info;; gr_earnings float_of_str info;;
             gr_eps float_of_str info).
Proof. bounds. Qed.

Lemma stability_adds :
  adds 0 25 (st_debt float_of_str info;; st_current float_of_str info;;
             st_cashflow float_of_str info).
Proof. bounds. Qed.

Lemma valuation_adds :
  adds 0 25 (va_per float_of_str info;; va_pbr float_of_str info;;
             va_peg float_of_str info;; va_ev float_of_str info).
Proof. bounds. Qed.

Lemma quant_result_ok symbol name fetch_ok now a r a' :
  analyze float_of_str info symbol name fetch_ok now a = Ok (Scored r, a') ->
  result_ok r.
Proof.
  unfold analyze. intros H. destruct fetch_ok; cbn [negb] in H; [|discriminate H].
  apply bind_ok in H as ([[s1 ?] ?] & a1 & E1 & H).
  apply bind_ok in H as ([[s2 ?] ?] & a2 & E2 & H).
  apply bind_ok in H as ([[s3 ?] ?] & a3 & E3 & H).
  apply bind_ok in H as ([[s4 ?] ?] & a4 & E4 & H).
  apply (method_min_ok _ _ profitability_adds) in E1.
  apply (method_min_ok _ _ growth_adds) in E2.
  apply (method_min_ok _ _ stability_adds) in E3.
  apply (method_min_ok _ _ valuation_adds) in E4.
  cbn in E1, E2, E3, E4. inversion H; subst r.
  eapply built_ok with (s1:=s1) (s2:=s2) (s3:=s3) (s4:=s4);
    [assumption .. | reflexivity | reflexivity | reflexivity].
Qed.

End WithInfo.
End QuantProps.

(** ** The qualitative agent *)

Module QualitativeProps.
Import Qualitative.

#[export] Hint Unfold get_info num lower_has or_else and_then
  bm_market_cap bm_diversification bm_margin bm_rd
  mg_dividend mg_payout mg_governance mg_employees management_body
  io_growth any_in io_tech io_beta industry_outlook_body
  rf_beta rf_debt rf_revenue rf_liquidity : blocks.

Section WithInfo.
Context (info : gmap string pyval).

Lemma business_model_adds :
  adds 0 25 (bm_market_cap info;; bm_diversification info;;
             bm_margin info;; bm_rd info).
Proof. bounds. Qed.

Lemma management_adds : adds 0 25 (management_body info).
Proof. bounds. Qed.

Lemma industry_outlook_adds : adds 0 25 (industry_outlook_body info).
Proof. bounds. Qed.

Lemma risk_factors_adds :
  adds (-25) 0 (rf_beta info;; rf_debt info;; rf_revenue info;; rf_liquidity info).
Proof. bounds. Qed.

Lemma qualitative_result_ok symbol name fetch_ok now a r a' :
  analyze info symbol name fetch_ok now a = Ok (Scored r, a') -> result_ok r.
Proof.
  unfold analyze. intros H. destruct fetch_ok; cbn [negb] in H; [|discriminate H].
  apply bind_ok in H as (? & ? & _ & H).
  apply bind_ok in H as (? & ? & _ & H).
  apply bind_ok in H as ([[s1 ?] ?] & a1 & E1 & H).
  apply bind_ok in H as ([[s2 ?] ?] & a2 & E2 & H).
  apply bind_ok in H as ([[s3 ?] ?] & a3 & E3 & H).
  apply bind_ok in H as ([[s4 ?] ?] & a4 & E4 & H).
  apply bind_ok in H as (moat & a5 & _ & H).
  apply bind_ok in H as (sector & a6 & _ & H).
  apply bind_ok in H as (industry & a7 & _ & H).
  apply (method_min_ok _ _ business_model_adds) in E1.
  apply (method_min_ok _ _ management_adds) in E2.
  apply (method_min_ok _ _ industry_outlook_adds) in E3.
  apply (method_max_ok _ (-25)) in E4; [|lia|apply risk_factors_adds].
  cbn in E1, E2, E3, E4. inversion H; subst r.
  eapply built_ok with (s1:=s1) (s2:=s2) (s3:=s3) (s4:=s4);
    [assumption .. | reflexivity | reflexivity | reflexivity].
Qed.

End WithInfo.
End QualitativeProps.

(** ** The news agent *)

Module NewsProps.
Import News.

Lemma for_items_adds {S} (step : S -> gmap string pyval -> M S) :
  (forall s item, adds 0 0 (step s item)) ->
  forall items s, adds 0 0 (for_items step s items).
Proof.
  intros Hs items. induction items as [|item rest IH]; intros s; cbn.
  - apply adds_ret.
  - change 0 with (0 + 0). apply adds_bind; [apply Hs|intros; apply IH].
Qed.

#[export] Hint Unfold ratio classify_item count_item count_of
  ns_ratio_band ns_volume sm_interest sm_volatility
  er_earnings er_notes er_offering er_lawsuit er_executive er_no_risk
  ms_short ms_medium ms_volume : blocks.

Lemma classify_item_adds counts item : adds 0 0 (classify_item counts item).
Proof. bounds. Qed.

Lemma count_item_adds counts item : adds 0 0 (count_item counts item).
Proof. bounds. Qed.

#[local] Hint Resolve for_items_adds classify_item_adds count_item_adds : blocks.

Section WithData.
Context (series_std : list fl -> fl).
Context (news : list (gmap string pyval)) (price_data : option (list bar)).

Lemma news_sentiment_adds : adds 0 25 (news_sentiment_body news).
Proof. unfold news_sentiment_body. bounds. Qed.

Lemma social_media_adds pd : adds 0 25 (social_media_body series_std pd).
Proof. unfold social_media_body. bounds. Qed.

Lemma event_risk_adds : adds (-25) 0 (event_risk_body news).
Proof. unfold event_risk_body. bounds. Qed.

Lemma momentum_signals_adds pd : adds 0 25 (momentum_signals_body pd).
Proof. unfold momentum_signals_body. bounds. Qed.

Lemma analyze_news_sentiment_ok : sub_score_ok (analyze_news_sentiment news).
Proof.
  unfold analyze_news_sentiment. destruct news eqn:E.
  - apply early_ok.
  - rewrite <- E. exact (method_min_ok _ _ news_sentiment_adds).
Qed.

Lemma analyze_social_media_ok :
  sub_score_ok (analyze_social_media series_std price_data).
Proof.
  unfold analyze_social_media. destruct price_data as [pd|]; [|apply early_ok].
  destruct (_ <? _)%nat; [apply early_ok|].
  exact (method_min_ok _ _ (social_media_adds pd)).
Qed.

Lemma analyze_event_risk_ok : sub_score_ok (analyze_event_risk news).
Proof.
  unfold analyze_event_risk.
  apply (method_max_ok _ (-25)); [lia|apply event_risk_adds].
Qed.

Lemma analyze_momentum_signals_ok :
  sub_score_ok (analyze_momentum_signals price_data).
Proof.
  unfold analyze_momentum_signals. destruct price_data as [pd|]; [|apply early_ok].
  destruct (_ <? _)%nat; [apply early_ok|].
  exact (method_min_ok _ _ (momentum_signals_adds pd)).
Qed.

Lemma news_result_ok symbol name fetch_ok now a r a' :
  analyze series_std news price_data symbol name fetch_ok now a
    = Ok (Scored r, a') ->
  result_ok r.
Proof.
  unfold analyze. intros H. destruct fetch_ok; cbn [negb] in H; [|discriminate H].
  apply bind_ok in H as (? & ? & _ & H).
  apply bind_ok in H as ([[s1 ?] ?] & a1 & E1 & H).
  apply bind_ok in H as ([[s2 ?] ?] & a2 & E2 & H).
  apply bind_ok in H as ([[s3 ?] ?] & a3 & E3 & H).
  apply bind_ok in H as ([[s4 ?] ?] & a4 & E4 & H).
  apply bind_ok in H as (trend & a5 & _ & H).
  apply analyze_news_sentiment_ok in E1. apply analyze_social_media_ok in E2.
  apply analyze_event_risk_ok in E3. apply analyze_momentum_signals_ok in E4.
  cbn in E1, E2, E3, E4. inversion H; subst r.
  eapply built_ok with (s1:=s1) (s2:=s2) (s3:=s3) (s4:=s4);
    [assumption .. | reflexivity | reflexivity | reflexivity].
Qed.

End WithData.
End NewsProps.

(** ** Claims about the four scorers *)

Module ScorerClaims.
Import Samples.

Lemma produces_result_ok k r : produces k r -> result_ok r.
Proof.
  destruct k; cbn.
  - intros (symbol & name & fetched & now & a & a' & H).
    exact (TechnicalResult.technical_result_ok _ _ _ _ _ _ _ H).
  - intros (f & info & symbol & name & ok & now & a & a' & H).
    exact (QuantProps.quant_result_ok _ _ _ _ _ _ _ _ _ H).
  - intros (info & symbol & name & ok & now & a & a' & H).
    exact (QualitativeProps.qualitative_result_ok _ _ _ _ _ _ _ _ H).
  - intros (std & news & pd & symbol & name & ok & now & a & a' & H).
    exact (NewsProps.news_result_ok _ _ _ _ _ _ _ _ _ _ H).
Qed.

Lemma sparse_quant_produced :
  exists r, sparse_quant = Ok (Scored r) /\ produces QUANT r.
Proof.
  eexists. split; [vm_compute; reflexivity|].
  cbn. exists no_float, ∅, sparse_symbol, sparse_name, true, sample_now.
  eexists start, _. vm_compute. reflexivity.
Defined.

Lemma sparse_qual_produced :
  exists r, sparse_qual = Ok (Scored r) /\ produces QUAL r.
Proof.
  eexists. split; [vm_compute; reflexivity|].
  cbn. exists ∅, sparse_symbol, sparse_name, true, sample_now.
  eexists start, _. vm_compute. reflexivity.
Defined.

(** C2. Every result dict returned by any of the four scorers carries
    the recommendation given by one ladder on its total: BUY exactly
    when total >= 70, HOLD exactly when 50 <= total < 70, SELL exactly
    when total < 50; the totals 100, 69, 50, 49 and 0 map to BUY, HOLD,
    HOLD, SELL and SELL; and two results with the same total, from
    whichever two scorers, carry the same recommendation. *)
Theorem recommendation_ladder (k1 k2 : scorer) (r1 r2 : agent_result) :
  produces k1 r1 -> produces k2 r2 ->
  0 <= total_score r1 <= 100
  /\ (recommendation r1 = BUY <-> 70 <= total_score r1)
  /\ (recommendation r1 = HOLD <-> 50 <= total_score r1 < 70)
  /\ (recommendation r1 = SELL <-> total_score r1 < 50)
  /\ (total_score r1 = 100 -> recommendation r1 = BUY)
  /\ (total_score r1 = 69 -> recommendation r1 = HOLD)
  /\ (total_score r1 = 50 -> recommendation r1 = HOLD)
  /\ (total_score r1 = 49 -> recommendation r1 = SELL)
  /\ (total_score r1 = 0 -> recommendation r1 = SELL)
  /\ (total_score r1 = total_score r2 -> recommendation r1 = recommendation r2).
Proof.
  intros H1 H2.
  apply produces_result_ok in H1 as [(_ & _ & _ & Hrange) (Hb & Hh & Hs)].
  apply produces_result_ok in H2 as [_ (Hb2 & Hh2 & Hs2)].
  repeat split; try tauto; try lia.
  - intros E. apply Hb. lia.
  - intros E. apply Hh. lia.
  - intros E. apply Hh. lia.
  - intros E. apply Hs. lia.
  - intros E. apply Hs. lia.
  - intros E. destruct (recommendation r1), (recommendation r2);
      try reflexivity; exfalso.
    all: repeat match goal with
         | H : _ <-> _ |- _ => destruct H
         end.
    all: repeat match goal with
         | H : ?x = ?x -> _ |- _ => specialize (H eq_refl)
         end; lia.
Qed.

Lemma recommendation_ladder_witness :
  exists r1 r2,
    sparse_quant = Ok (Scored r1) /\ sparse_qual = Ok (Scored r2)
    /\ (recommendation r1 = SELL <-> total_score r1 < 50)
    /\ (total_score r1 = total_score r2 -> recommendation r1 = recommendation r2).
Proof.
  destruct sparse_quant_produced as (r1 & E1 & P1).
  destruct sparse_qual_produced as (r2 & E2 & P2).
  exists r1, r2. split; [exact E1|]. split; [exact E2|].
  pose proof (recommendation_ladder QUANT QUAL r1 r2 P1 P2) as H.
  split; [apply H | apply H].
Defined.

(** C3. Every result dict returned by any of the four scorers has four
    sub-scores, each between 0 and 25, a total equal to their sum, and
    therefore a total between 0 and 100. *)
Theorem dimension_score_invariant (k : scorer) (r : agent_result) :
  produces k r ->
  total_score r = sum_list (sub_scores r)
  /\ length (sub_scores r) = 4%nat
  /\ Forall (fun s => 0 <= s <= 25) (sub_scores r)
  /\ 0 <= total_score r <= 100.
Proof. intros H. apply produces_result_ok in H as [H _]. exact H. Qed.

Lemma dimension_score_invariant_witness :
  exists r, sparse_qual = Ok (Scored r)
            /\ total_score r = sum_list (sub_scores r)
            /\ Forall (fun s => 0 <= s <= 25) (sub_scores r).
Proof.
  destruct sparse_qual_produced as (r & E & P).
  exists r. split; [exact E|].
  pose proof (dimension_score_invariant QUAL r P) as H.
  split; apply H.
Defined.

End ScorerClaims.

(** ** Missing and [None] fields *)

Module MissingFields.
Import Samples.

(** The defaults as the claim about the empty mapping lists them:
    six named keys, and 0 for every other metric. *)
Definition claimed_default (key : string) : fl :=
  if String.eqb key "debtToEquity" then of_Z 100
  else if String.eqb key "currentRatio" then of_Z 1
  else if String.eqb key "trailingPE" then of_Z 20
  else if String.eqb key "priceToBook" then of_Z 2
  else if String.eqb key "pegRatio" then of_Z 2
  else if String.eqb key "enterpriseToEbitda" then of_Z 12
  else of_Z 0.

(** The claim's reading of the empty mapping: every read returns the
    listed default. *)
Definition reads_as_claimed (reads : list (string * pyval)) : Prop :=
  Forall (fun kv => kv.2 = PyFloat (claimed_default kv.1)) reads.

(** On a mapping without the key, [get_metric] returns its default. *)
Lemma get_metric_missing f info key default a :
  info !! key = None -> is_nan default = false ->
  Quant.get_metric f info key default a
    = Ok (default, mkAcc (score a) (signals a) (risks a)
                         (reads a ++ [(key, PyFloat default)])).
Proof.
  intros E Hn. unfold Quant.get_metric. rewrite E. cbn. rewrite Hn. reflexivity.
Qed.

(** On a mapping that holds the key with [None], so does it. *)
Lemma get_metric_none f info key default a :
  info !! key = Some PyNone ->
  Quant.get_metric f info key default a
    = Ok (default, mkAcc (score a) (signals a) (risks a)
                         (reads a ++ [(key, PyFloat default)])).
Proof. intros E. unfold Quant.get_metric. rewrite E. reflexivity. Qed.

(** [get_info] hands a stored [None] back to its caller. *)
Lemma get_info_none info key default a :
  info !! key = Some PyNone ->
  exists a', Qualitative.get_info info key default a = Ok (PyNone, a').
Proof. intros E. unfold Qualitative.get_info. rewrite E. eexists. reflexivity. Qed.

(** C10, as stated, fails: on the empty mapping the read of
    [totalRevenue] returns 1, not 0. *)
Lemma quant_empty_reads_not_as_claimed :
  ~ reads_as_claimed
      (reads_of (Quant.analyze no_float ∅ sparse_symbol sparse_name true sample_now)).
Proof.
  unfold reads_as_claimed. rewrite Forall_forall. intros H.
  specialize (H ("totalRevenue", PyFloat (of_Z 1))).
  assert (Hin : ("totalRevenue", PyFloat (of_Z 1)) ∈
            reads_of (Quant.analyze no_float ∅ sparse_symbol sparse_name true
                        sample_now)).
  { vm_compute. repeat first [apply list_elem_of_here | apply list_elem_of_further]. }
  specialize (H Hin). vm_compute in H. discriminate H.
Qed.

(** C10, amended. On the empty mapping the quant agent's sixteen reads
    return, in order, the defaults written in the code: 100 for
    debtToEquity, 1 for currentRatio, 1 for totalRevenue, 20 for
    trailingPE and for forwardPE (whose default is the trailingPE just
    read), 2 for priceToBook and pegRatio, 12 for enterpriseToEbitda and
    0 for the other eight; the sub-scores are profitability 0, growth
    0, stability 10, valuation 12, the total is 22 and the
    recommendation is SELL. *)
Theorem quant_empty_info (float_of_str : string -> option fl)
    (symbol name now : string) :
  exists r a',
    Quant.analyze float_of_str ∅ symbol name true now start = Ok (Scored r, a')
    /\ reads a' =
         [("returnOnEquity", PyFloat (of_Z 0));
          ("returnOnAssets", PyFloat (of_Z 0));
          ("operatingMargins", PyFloat (of_Z 0));
          ("profitMargins", PyFloat (of_Z 0));
          ("revenueGrowth", PyFloat (of_Z 0));
          ("earningsGrowth", PyFloat (of_Z 0));
          ("earningsQuarterlyGrowth", PyFloat (of_Z 0));
          ("debtToEquity", PyFloat (of_Z 100));
          ("currentRatio", PyFloat (of_Z 1));
          ("operatingCashflow", PyFloat (of_Z 0));
          ("totalRevenue", PyFloat (of_Z 1));
          ("trailingPE", PyFloat (of_Z 20));
          ("forwardPE", PyFloat (of_Z 20));
          ("priceToBook", PyFloat (of_Z 2));
          ("pegRatio", PyFloat (of_Z 2));
          ("enterpriseToEbitda", PyFloat (of_Z 12))]
    /\ breakdown r = [("profitability", 0); ("growth", 0);
                      ("stability", 10); ("valuation", 12)]
    /\ total_score r = 22
    /\ recommendation r = SELL.
Proof.
  eexists _, _. split; [vm_compute; reflexivity|].
  vm_compute. repeat split.
Qed.

(** C5 on the qualitative agent: with [marketCap] present and [None],
    the first comparison of [analyze_business_model] raises
    [TypeError], and so does [analyze]. *)
Theorem qualitative_none_raises (symbol name now : string) :
  Qualitative.analyze info_market_cap_none symbol name true now start
    = Raise TypeError
  /\ Qualitative.analyze_business_model info_market_cap_none start
    = Raise TypeError.
Proof. split; vm_compute; reflexivity. Qed.

(** The same mapping does not trouble the quant agent, whose
    [get_metric] tests for [None]. *)
Lemma quant_none_scored (symbol name now : string) :
  exists r,
    call (Quant.analyze no_float {[ "debtToEquity" := PyNone ]} symbol name true now)
      = Ok (Scored r)
    /\ total_score r = 22.
Proof. eexists. split; vm_compute; reflexivity. Qed.

(** A missing key does not trouble the qualitative agent either. *)
Lemma qualitative_missing_scored (symbol name now : string) :
  exists r,
    call (Qualitative.analyze ∅ symbol name true now) = Ok (Scored r)
    /\ breakdown r = [("business_model", 5); ("management", 0);
                      ("industry_outlook", 12); ("risk_factors", 23)].
Proof. eexists. split; vm_compute; reflexivity. Qed.

(** A news item whose [title] is present and [None] stops the news
    agent in the same way: [None] has no [lower]. *)
Lemma news_title_none_raises (symbol name now : string) :
  call (News.analyze flat_std [{[ "title" := PyNone ]}] (Some []) symbol name
          true now)
    = Raise AttributeError.
Proof. vm_compute. reflexivity. Qed.

End MissingFields.

(** ** Level-1 aggregation *)

Module Level1Claims.
Import Level1 Samples.

(** The ladder of test_level1_all.py, band by band. *)
Lemma consensus_of_ladder (buy_count sell_count : Z) :
  (consensus_of buy_count sell_count = "STRONG BUY" <-> 3 <= buy_count)
  /\ (consensus_of buy_count sell_count = "BUY" <-> buy_count = 2)
  /\ (consensus_of buy_count sell_count = "SELL"
      <-> buy_count < 2 /\ 2 <= sell_count)
  /\ (consensus_of buy_count sell_count = "HOLD"
      <-> buy_count < 2 /\ sell_count < 2).
Proof.
  unfold consensus_of.
  destruct (Z.geb_spec buy_count 3); [|destruct (Z.geb_spec buy_count 2);
    [|destruct (Z.geb_spec sell_count 2)]];
    repeat split; intros; try discriminate; try lia; reflexivity.
Qed.

(** The one-line consensus of the two market runners never says SELL. *)
Lemma consensus_fdr_never_sell (buy_count : Z) : consensus_fdr buy_count <> "SELL".
Proof.
  unfold consensus_fdr.
  destruct (buy_count >=? 3); [|destruct (buy_count >=? 2)]; discriminate.
Qed.

(** C1 on the market runners: for the sparse symbol the four agents
    vote (buy 0, hold 1, sell 3); run_all_level1_agents answers SELL and
    the analyze_stock of daily_level1_fdr.py and
    daily_level1_fullmarket.py answers HOLD. *)
Theorem fdr_consensus_misses_sell :
  (exists agents s,
     run_all_level1_agents sparse_tech sparse_quant sparse_qual sparse_news
       = Ok (agents, s)
     /\ buy_votes s = 0 /\ hold_votes s = 1 /\ sell_votes s = 3
     /\ consensus s = "SELL")
  /\ sr_consensus
       (analyze_stock_fdr (mkStock sparse_symbol sparse_name) sample_now
          sparse_tech sparse_quant sparse_qual sparse_news)
     = Some "HOLD".
Proof.
  split; [eexists _, _; split; [vm_compute; reflexivity|]|];
    vm_compute; repeat split.
Qed.

(** Rounding to the nearest integer moves a value by at most a half. *)
Lemma round_half_even_close (n : Z) (d : positive) :
  Z.abs (2 * (round_half_even (n # d) * Z.pos d - n)) <= Z.pos d.
Proof.
  unfold round_half_even. cbn [Qnum Qden].
  set (D := Z.pos d). assert (HD : 0 < D) by (unfold D; lia).
  pose proof (Z.div_mod n D ltac:(lia)) as Hdm.
  pose proof (Z.mod_pos_bound n D HD) as Hr.
  destruct (Z.compare_spec (2 * (n mod D)) D) as [E|E|E];
    [destruct (Z.even (n / D))|..]; nia.
Qed.

(** [round1] of the mean of four integer scores, in tenths. *)
Lemma round1_mean4 (a b c d : Z) :
  exists k, round1 (mean [a; b; c; d]) = (k # 10)%Q
            /\ Z.abs (4 * k - 10 * (a + b + c + d)) <= 2.
Proof.
  unfold round1, mean. eexists. split; [reflexivity|].
  change (inject_Z (Z.of_nat (length [a; b; c; d]))) with (4 # 1)%Q.
  cbn [sum_list foldr].
  unfold Qdiv, Qmult, Qinv, inject_Z. cbn [Qnum Qden].
  change (1 * 4 * 1)%positive with 4%positive.
  pose proof (round_half_even_close ((a + (b + (c + (d + 0)))) * 1 * 10) 4) as H.
  lia.
Qed.

(** The number of error dicts among the agents' answers. *)
Definition failures (xs : list analysis) : Z :=
  Z.of_nat (length (List.filter
                      (fun x => match x with Failed _ _ _ => true | _ => false end)
                      xs)).

(** C4, as stated, fails: with three agents failed and the news agent
    at 61, the average is 15.2, not 61, and the three failed agents are
    counted as three HOLD votes. *)
Lemma three_failed_average_is_a_quarter :
  exists agents s r,
    run_all_level1_agents failed_agent failed_agent failed_agent sparse_news
      = Ok (agents, s)
    /\ sparse_news = Ok (Scored r)
    /\ total_score r = 61
    /\ average_score s = (152 # 10)%Q
    /\ ~ (average_score s == inject_Z (total_score r))%Q
    /\ hold_votes s = 4.
Proof.
  eexists _, _, _. split; [vm_compute; reflexivity|].
  split; [vm_compute; reflexivity|].
  vm_compute. repeat split. intros H. discriminate H.
Qed.

(** C4, amended. Whatever the four agents returned, the level summary
    averages over all four of them: a failed agent is not left out but
    counts with score 0 and as a HOLD vote.  The reported average is
    the mean of the four scores rounded to one decimal (within 0.05 of
    it), the three vote counts add up to 4, and every failed agent is
    among the HOLD votes.  With three agents failed and one succeeded
    the average is a quarter of that agent's total, rounded to one
    decimal. *)
Theorem level1_average_counts_every_agent :
  (forall t q l n : analysis,
     exists agents s k,
       run_all_level1_agents (Ok t) (Ok q) (Ok l) (Ok n) = Ok (agents, s)
       /\ average_score s = (k # 10)%Q
       /\ Z.abs (4 * k - 10 * (get_total_score t + get_total_score q
                               + get_total_score l + get_total_score n)) <= 2
       /\ buy_votes s + hold_votes s + sell_votes s = 4
       /\ failures [t; q; l; n] <= hold_votes s)
  /\ (forall e1 s1 n1 e2 s2 n2 e3 s3 n3 r,
        exists agents s k,
          run_all_level1_agents (Ok (Failed e1 s1 n1)) (Ok (Failed e2 s2 n2))
            (Ok (Failed e3 s3 n3)) (Ok (Scored r)) = Ok (agents, s)
          /\ average_score s = (k # 10)%Q
          /\ Z.abs (4 * k - 10 * total_score r) <= 2
          /\ 3 <= hold_votes s).
Proof.
  assert (G : forall t q l n : analysis,
     exists agents s k,
       run_all_level1_agents (Ok t) (Ok q) (Ok l) (Ok n) = Ok (agents, s)
       /\ average_score s = (k # 10)%Q
       /\ Z.abs (4 * k - 10 * (get_total_score t + get_total_score q
                               + get_total_score l + get_total_score n)) <= 2
       /\ buy_votes s + hold_votes s + sell_votes s = 4
       /\ failures [t; q; l; n] <= hold_votes s).
  { intros t q l n.
    destruct (round1_mean4 (get_total_score t) (get_total_score q)
                (get_total_score l) (get_total_score n)) as (k & Ek & Hk).
    eexists _, _, k. split; [reflexivity|].
    split; [exact Ek|]. split; [exact Hk|].
    unfold summarize, failures. cbn [buy_votes hold_votes sell_votes map snd fst].
    unfold entry_of, get_recommendation.
    destruct t as [? ? ?|[]], q as [? ? ?|[]], l as [? ? ?|[]], n as [? ? ?|[]];
      cbn [recommendation];
      repeat match goal with r : Rec |- _ => destruct r end;
      vm_compute; split; first [reflexivity | discriminate]. }
  split; [exact G|].
  intros e1 s1 n1 e2 s2 n2 e3 s3 n3 r.
  destruct (G (Failed e1 s1 n1) (Failed e2 s2 n2) (Failed e3 s3 n3) (Scored r))
    as (agents & s & k & E & Ek & Hk & _ & Hf).
  exists agents, s, k. split; [exact E|]. split; [exact Ek|].
  cbn [get_total_score] in Hk. split; [lia|].
  unfold failures in Hf. cbn in Hf. lia.
Qed.

(** The first exception among a stock's four agents, in running
    order. *)
Definition first_raise (w : outcomes) : option exn :=
  match o_tech w, o_quant w, o_qual w, o_news w with
  | Raise e, _, _, _ => Some e
  | Ok _, Raise e, _, _ => Some e
  | Ok _, Ok _, Raise e, _ => Some e
  | Ok _, Ok _, Ok _, Raise e => Some e
  | Ok _, Ok _, Ok _, Ok _ => None
  end.

Lemma analyze_stock_status (s : stock) (now : string) (w : outcomes) :
  let r := analyze_stock s now (o_tech w) (o_quant w) (o_qual w) (o_news w) in
  sr_symbol r = stock_symbol s
  /\ sr_error r = first_raise w
  /\ sr_status r = match first_raise w with
                    | Some _ => "error"
                    | None => "success"
                    end.
Proof.
  unfold analyze_stock, first_raise, keyed.
  destruct (o_tech w), (o_quant w), (o_qual w), (o_news w); cbn; auto.
Qed.

Lemma batch_loop_map world now stocks results :
  batch_loop world now stocks results =
  results ++ map (fun s => let w := world s in
                           analyze_stock s now (o_tech w) (o_quant w)
                                         (o_qual w) (o_news w)) stocks.
Proof.
  revert results. induction stocks as [|s rest IH]; intros results; cbn.
  - rewrite app_nil_r. reflexivity.
  - rewrite IH, <- app_assoc. reflexivity.
Qed.

(** C7. The batch run of daily_level1_batch.py hands [json.dump] a
    summary with one result per stock, in the order of the stock list.
    Each stock's result is what [analyze_stock] makes of that stock's
    own four agent runs alone; its status is 'error', with the
    exception recorded, exactly when one of its agents raised, and
    'success' otherwise; the stocks after a failing one are analyzed
    all the same. *)
Theorem batch_contains_failures (world : stock -> outcomes) (now : string)
    (stocks : list stock) :
  let final := main world now stocks in
  b_total final = length stocks
  /\ length (b_results final) = length stocks
  /\ b_results final =
       map (fun s => let w := world s in
                     analyze_stock s now (o_tech w) (o_quant w) (o_qual w)
                                   (o_news w)) stocks
  /\ Forall2 (fun s r =>
                sr_symbol r = stock_symbol s
                /\ sr_error r = first_raise (world s)
                /\ sr_status r = match first_raise (world s) with
                                  | Some _ => "error"
                                  | None => "success"
                                  end)
             stocks (b_results final).
Proof.
  cbn zeta. unfold main. cbn [b_total b_results].
  rewrite batch_loop_map. cbn [app].
  split; [reflexivity|]. split; [apply length_map|]. split; [reflexivity|].
  induction stocks as [|s rest IH]; cbn [map]; constructor.
  - apply (analyze_stock_status s now (world s)).
  - exact IH.
Qed.

End Level1Claims.

(** ** The clamp of the technical sub-scores *)

Module TechnicalClaims.
Import Technical TechnicalProps Samples.

(** On [spike_frame] the closing prices are [spike_closes], the three
    moving-average columns are their rolling means, and 66 of the 125
    rows are complete. *)
Lemma spike_frame_columns :
  map Close spike_frame = spike_closes
  /\ map MA5 spike_frame = map (rolling_mean 5 spike_closes) (seq 0 125)
  /\ map MA20 spike_frame = map (rolling_mean 20 spike_closes) (seq 0 125)
  /\ map MA60 spike_frame = map (rolling_mean 60 spike_closes) (seq 0 125)
  /\ length (dropna spike_frame) = 66%nat.
Proof. repeat split; vm_compute; reflexivity. Qed.

(** C8. The code departs from the claim in [analyze_price_trend] only.
    Its first section is commented "0-10" points, but the golden-cross
    bonus of 3 is added on top of the alignment band of 10, so the
    section gives up to 13 and the method accumulates up to
    13 + 8 + 7 = 28.  On [spike_frame] (a flat market, a two-day dip
    and a four-day recovery) the section gives 13, the ladders add up
    to 28, and the final [min(score, 25)] turns 28 into the returned
    25: there the clamp changes the sub-score.  The other two sections
    of the method hold their commented budgets of 8 and 7 on every
    frame, and the three sibling methods [analyze_momentum],
    [analyze_bollinger] and [analyze_volume] do what the claim says:
    on every frame their ladders have accumulated at most 25 before the
    clamp, which returns their score unchanged. *)
Theorem price_trend_overshoots_its_budget :
  (exists latest golden a1 a' r a2,
     iloc_neg (dropna spike_frame) 1 = Ok latest
     /\ ma_golden (dropna spike_frame) latest start = Ok (golden, start)
     /\ (pt_alignment latest;; pt_golden golden) start = Ok (tt, a1)
     /\ score a1 = 13
     /\ price_trend_body (dropna spike_frame) start = Ok (tt, a')
     /\ score a' = 28
     /\ clamp25 (score a') <> score a'
     /\ analyze_price_trend spike_frame start = Ok (r, a2)
     /\ r.1.1 = 25)
  /\ (forall latest golden, adds 0 13 (pt_alignment latest;; pt_golden golden))
  /\ (forall latest, adds 0 8 (pt_price latest))
  /\ (forall df latest, adds 0 7 (pt_slope df latest))
  /\ (forall df rd x a',
        price_trend_body df (mkAcc 0 [] [] rd) = Ok (x, a') ->
        0 <= score a' <= 28
        /\ (clamp25 (score a') <> score a' <-> 25 < score a'))
  /\ (forall df rd x a',
        momentum_body df (mkAcc 0 [] [] rd) = Ok (x, a') ->
        0 <= score a' <= 25 /\ clamp25 (score a') = score a')
  /\ (forall df rd x a',
        bollinger_body df (mkAcc 0 [] [] rd) = Ok (x, a') ->
        0 <= score a' <= 25 /\ clamp25 (score a') = score a')
  /\ (forall df rd x a',
        volume_body df (mkAcc 0 [] [] rd) = Ok (x, a') ->
        0 <= score a' <= 25 /\ clamp25 (score a') = score a').
Proof.
  split.
  { eexists _, _, _, _, _, _.
    split; [vm_compute; reflexivity|]. split; [vm_compute; reflexivity|].
    split; [vm_compute; reflexivity|]. split; [reflexivity|].
    split; [vm_compute; reflexivity|]. split; [reflexivity|].
    split; [discriminate|]. split; [vm_compute; reflexivity|reflexivity]. }
  split; [intros latest golden; bounds|].
  split; [intros latest; bounds|].
  split; [intros df latest; bounds|].
  split; [|split; [|split]].
  - intros df rd x a' H. apply price_trend_adds in H. cbn in H.
    unfold clamp25. lia.
  - intros df rd x a' H. apply momentum_adds in H. cbn in H.
    unfold clamp25. lia.
  - intros df rd x a' H. apply bollinger_adds in H. cbn in H.
    unfold clamp25. lia.
  - intros df rd x a' H. apply volume_adds in H. cbn in H.
    unfold clamp25. lia.
Qed.

End TechnicalClaims.

(** ** The Level-3 rule *)

Module SynthClaims.
Import Synth.

Lemma classify_bands (c : Q) :
  (classify c = Long <-> (70 <= c)%Q)
  /\ (classify c = Neutral <-> (40 < c)%Q /\ (c < 70)%Q)
  /\ (classify c = Short <-> (c <= 40)%Q).
Proof.
  unfold classify.
  destruct (Qle_bool 70 c) eqn:E1.
  - apply Qle_bool_iff in E1. repeat split; try discriminate; intros H.
    + exact E1.
    + destruct H as [_ H]. exfalso. apply (Qlt_not_le _ _ H), E1.
    + exfalso. assert (Hc : (70 <= 40)%Q) by (eapply Qle_trans; eassumption).
      apply Hc. reflexivity.
  - assert (H1 : (c < 70)%Q).
    { apply Qnot_le_lt. intros H. apply Qle_bool_iff in H. congruence. }
    destruct (Qle_bool c 40) eqn:E2.
    + apply Qle_bool_iff in E2. repeat split; try discriminate; intros H.
      * exfalso. apply (Qlt_not_le _ _ H1), H.
      * destruct H as [H _]. exfalso. apply (Qlt_not_le _ _ H), E2.
      * exact E2.
    + assert (H2 : (40 < c)%Q).
      { apply Qnot_le_lt. intros H. apply Qle_bool_iff in H. congruence. }
      repeat split; try discriminate; try assumption; intros H.
      * exfalso. apply (Qlt_not_le _ _ H1), H.
      * exfalso. apply (Qlt_not_le _ _ H2), H.
Qed.

(** C6. The composite is 0.5 times the Level-1 average plus 0.3 times
    the Level-2 average plus 0.2 times the judgment term; the symbol is
    Long exactly when composite >= 70, Neutral exactly when
    40 < composite < 70 and Short exactly when composite <= 40; with
    72.5, 60 and 50 the composite is 64.25 and the class is Neutral. *)
Theorem synthesizer_bands (level1_average level2_average judgment : Q) :
  let c := composite level1_average level2_average judgment in
  (c == (1 # 2) * level1_average + (3 # 10) * level2_average
        + (1 # 5) * judgment)%Q
  /\ (synthesize level1_average level2_average judgment = Long <-> (70 <= c)%Q)
  /\ (synthesize level1_average level2_average judgment = Neutral
      <-> (40 < c)%Q /\ (c < 70)%Q)
  /\ (synthesize level1_average level2_average judgment = Short <-> (c <= 40)%Q)
  /\ (composite (725 # 10) 60 50 == 6425 # 100)%Q
  /\ synthesize (725 # 10) 60 50 = Neutral.
Proof.
  cbv zeta. split.
  - unfold composite. ring.
  - unfold synthesize.
    destruct (classify_bands (composite level1_average level2_average judgment))
      as (HL & HN & HS).
    split; [exact HL|]. split; [exact HN|]. split; [exact HS|].
    split; reflexivity.
Qed.

End SynthClaims.

(** ** Determinism *)

Module Determinism.
Import TechnicalProps QuantProps QualitativeProps NewsProps.

(** Two agent states with the same method locals. *)
Definition sim (a b : acc) : Prop :=
  score a = score b /\ signals a = signals b /\ risks a = risks b.

(** [blind m]: from states with the same locals, [m] raises the same
    exception or returns the same value and leaves the same locals. *)
Definition blind {A} (m : M A) : Prop :=
  forall a b, sim a b ->
    match m a, m b with
    | Ok (x, a'), Ok (y, b') => x = y /\ sim a' b'
    | Raise e1, Raise e2 => e1 = e2
    | _, _ => False
    end.

(** [related R m1 m2]: from any two states, [m1] and [m2] raise the
    same exception or return values related by [R]. *)
Definition related {A B} (R : A -> B -> Prop) (m1 : M A) (m2 : M B) : Prop :=
  forall a b,
    match m1 a, m2 b with
    | Ok (x, _), Ok (y, _) => R x y
    | Raise e1, Raise e2 => e1 = e2
    | _, _ => False
    end.

Lemma sim_refl_locals s sg rk r1 r2 : sim (mkAcc s sg rk r1) (mkAcc s sg rk r2).
Proof. repeat split. Qed.

Lemma blind_ret {A} (x : A) : blind (mret x).
Proof. intros a b H. cbn. auto. Qed.

Lemma blind_ret' {A} (x : A) : blind (ret x).
Proof. exact (blind_ret x). Qed.

Lemma blind_lift {A} (r : result A) : blind (lift r).
Proof. intros a b H. unfold lift. destruct r; auto. Qed.

Lemma blind_add n : blind (add n).
Proof. intros a b (H1 & H2 & H3). cbn. unfold sim. cbn. rewrite H1. auto. Qed.

Lemma blind_signal m : blind (signal m).
Proof. intros a b (H1 & H2 & H3). cbn. unfold sim. cbn. rewrite H2. auto. Qed.

Lemma blind_risk m : blind (risk m).
Proof. intros a b (H1 & H2 & H3). cbn. unfold sim. cbn. rewrite H3. auto. Qed.

Lemma blind_log_read k v : blind (log_read k v).
Proof. intros a b (H1 & H2 & H3). cbn. unfold sim. cbn. auto. Qed.

Lemma blind_get_risks : blind get_risks.
Proof. intros a b (H1 & H2 & H3). cbn. unfold sim. auto. Qed.

Lemma blind_bind {A B} (m : M A) (k : A -> M B) :
  blind m -> (forall x, blind (k x)) -> blind (m ≫= k).
Proof.
  intros Hm Hk a b Hab. specialize (Hm a b Hab).
  unfold mbind, M_bind, bind.
  destruct (m a) as [[x a']|e1], (m b) as [[y b']|e2]; try contradiction.
  - destruct Hm as [-> Hs]. exact (Hk y a' b' Hs).
  - exact Hm.
Qed.

Lemma blind_for_items {S} (step : S -> gmap string pyval -> M S) :
  (forall s item, blind (step s item)) ->
  forall items s, blind (News.for_items step s items).
Proof.
  intros Hs items. induction items as [|item rest IH]; intros s; cbn.
  - apply blind_ret.
  - apply blind_bind; [apply Hs|intros; apply IH].
Qed.

Ltac infer_blind :=
  lazymatch goal with
  | |- blind (_ ≫= _) => apply blind_bind; [infer_blind | intros; infer_blind]
  | |- blind (if ?b then _ else _) => destruct b; infer_blind
  | |- blind (let _ := _ in _) => cbv zeta; infer_blind
  | |- blind (mret _) => apply blind_ret
  | |- blind (ret _) => apply blind_ret'
  | |- blind skip => apply blind_ret
  | |- blind (lift _) => apply blind_lift
  | |- blind (add _) => apply blind_add
  | |- blind (signal _) => apply blind_signal
  | |- blind (risk _) => apply blind_risk
  | |- blind (log_read _ _) => apply blind_log_read
  | |- blind get_risks => apply blind_get_risks
  | |- blind (match ?x with _ => _ end) => destruct x; infer_blind
  | |- blind (News.for_items _ _ _) =>
      apply blind_for_items; intros; infer_blind
  | |- _ => progress autounfold with blocks; infer_blind
  end.

Lemma related_ret {A B} (R : A -> B -> Prop) x y :
  R x y -> related R (mret x) (mret y).
Proof. intros H a b. exact H. Qed.

Lemma related_lift {A} (r : result A) : related eq (lift r) (lift r).
Proof. intros a b. unfold lift. destruct r; reflexivity. Qed.

Lemma related_log_read k v : related eq (log_read k v) (log_read k v).
Proof. intros a b. reflexivity. Qed.

Lemma related_bind {A B C} (R : B -> C -> Prop) (m : M A)
    (k1 : A -> M B) (k2 : A -> M C) :
  related eq m m -> (forall x, related R (k1 x) (k2 x)) ->
  related R (m ≫= k1) (m ≫= k2).
Proof.
  intros Hm Hk a b. specialize (Hm a b). unfold mbind, M_bind, bind.
  destruct (m a) as [[x a']|e1], (m b) as [[y b']|e2]; try contradiction.
  - subst y. apply Hk.
  - exact Hm.
Qed.

Lemma related_method init clamp body :
  blind body -> related eq (method init clamp body) (method init clamp body).
Proof.
  intros Hb a b. unfold method.
  specialize (Hb (mkAcc init [] [] (reads a)) (mkAcc init [] [] (reads b))
                 (sim_refl_locals _ _ _ _ _)).
  destruct (body _) as [[x a']|e1], (body _) as [[y b']|e2]; try contradiction.
  - destruct Hb as (_ & H1 & H2 & H3). rewrite H1, H2, H3. reflexivity.
  - exact Hb.
Qed.

#[export] Hint Unfold Technical.analyze_price_trend Technical.analyze_momentum
  Technical.analyze_bollinger Technical.analyze_volume Technical.no_data
  Technical.price_trend_body Technical.momentum_body Technical.bollinger_body
  Technical.volume_body
  Quant.analyze_profitability Quant.analyze_growth Quant.analyze_stability
  Quant.analyze_valuation
  Qualitative.analyze_business_model Qualitative.analyze_management
  Qualitative.analyze_industry_outlook Qualitative.analyze_risk_factors
  Qualitative.get_moat_rating Qualitative.num_ge Qualitative.num_gt
  News.analyze_news_sentiment News.analyze_social_media News.analyze_event_risk
  News.analyze_momentum_signals News.get_sentiment_trend News.len_price_data
  News.news_sentiment_body News.social_media_body News.event_risk_body
  News.momentum_signals_body early : blocks.

Ltac infer_related :=
  cbv beta;
  lazymatch goal with
  | |- related _ (?m ≫= _) (?m ≫= _) =>
      apply related_bind; [infer_related | intros; infer_related]
  | |- related _ (if ?b then _ else _) (if ?b then _ else _) =>
      destruct b; infer_related
  | |- related _ (let _ := _ in _) _ => cbv zeta; infer_related
  | |- related _ (mret _) (mret _) => apply related_ret; reflexivity
  | |- related _ (ret _) (ret _) => apply related_ret; reflexivity
  | |- related _ (lift ?r) (lift ?r) => apply related_lift
  | |- related _ (log_read ?k ?v) (log_read ?k ?v) => apply related_log_read
  | |- related _ (method ?i ?c ?b) (method ?i ?c ?b) =>
      apply related_method; infer_blind
  | |- related _ (match ?x with _ => _ end) (match ?x with _ => _ end) =>
      destruct x; infer_related
  | |- _ => progress autounfold with blocks; infer_related
  end.

(** A result dict with its time stamp blanked. *)
Definition undated (x : analysis) : analysis :=
  match x with
  | Failed e s n => Failed e s n
  | Scored r =>
      Scored {| agent_id := agent_id r; agent_name := agent_name r;
                symbol := symbol r; name := name r;
                analysis_date := "";
                total_score := total_score r; breakdown := breakdown r;
                key_signals := key_signals r; key_risks := key_risks r;
                recommendation := recommendation r; extra := extra r |}
  end.

(** The DimensionScore of what [analyze] returned, if it scored. *)
Definition score_part (x : analysis)
  : option (list (string * Z) * Z * list msg * list msg) :=
  match x with
  | Failed _ _ _ => None
  | Scored r => Some (dimension_score r)
  end.

(** Two runs end alike: the same exception, or results that differ in
    the time stamp at most. *)
Definition same_output (r1 r2 : result (analysis * acc)) : Prop :=
  match r1, r2 with
  | Ok (x, _), Ok (y, _) => undated x = undated y /\ score_part x = score_part y
  | Raise e1, Raise e2 => e1 = e2
  | _, _ => False
  end.

Definition alike (x y : analysis) : Prop :=
  undated x = undated y /\ score_part x = score_part y.

Lemma technical_alike symbol name fetched now1 now2 :
  related alike (Technical.analyze symbol name fetched now1)
                (Technical.analyze symbol name fetched now2).
Proof.
  unfold Technical.analyze, fetch_failed.
  destruct fetched as [[|r0 data]|];
    try (apply related_ret; split; reflexivity).
  set (d := r0 :: data). clearbody d.
  repeat (apply related_bind; [infer_related | intros [[? ?] ?]]).
  cbv zeta. apply related_bind; [infer_related|intros last].
  apply related_ret. split; reflexivity.
Qed.

Lemma quant_alike f info symbol name fetch_ok now1 now2 :
  related alike (Quant.analyze f info symbol name fetch_ok now1)
                (Quant.analyze f info symbol name fetch_ok now2).
Proof.
  unfold Quant.analyze, fetch_failed.
  destruct fetch_ok; cbn [negb]; [|apply related_ret; split; reflexivity].
  repeat (apply related_bind; [infer_related | intros [[? ?] ?]]; cbv zeta).
  apply related_ret. split; reflexivity.
Qed.

Lemma get_info_related info key default :
  related eq (Qualitative.get_info info key default)
             (Qualitative.get_info info key default).
Proof. unfold Qualitative.get_info. infer_related. Qed.

Lemma get_moat_rating_related info :
  related eq (Qualitative.get_moat_rating info) (Qualitative.get_moat_rating info).
Proof.
  unfold Qualitative.get_moat_rating.
  repeat (apply related_bind; [apply get_info_related|intros ?]).
  infer_related.
Qed.

Lemma qualitative_alike info symbol name fetch_ok now1 now2 :
  related alike (Qualitative.analyze info symbol name fetch_ok now1)
                (Qualitative.analyze info symbol name fetch_ok now2).
Proof.
  unfold Qualitative.analyze, fetch_failed.
  destruct fetch_ok; cbn [negb]; [|apply related_ret; split; reflexivity].
  apply related_bind; [apply get_info_related|intros _].
  apply related_bind; [apply get_info_related|intros _].
  repeat (apply related_bind; [infer_related | intros [[? ?] ?]]; cbv zeta).
  apply related_bind; [apply get_moat_rating_related|intros moat].
  apply related_bind; [apply get_info_related|intros sector].
  apply related_bind; [apply get_info_related|intros industry].
  apply related_ret. split; reflexivity.
Qed.

Lemma news_alike std news pd symbol name fetch_ok now1 now2 :
  related alike (News.analyze std news pd symbol name fetch_ok now1)
                (News.analyze std news pd symbol name fetch_ok now2).
Proof.
  unfold News.analyze, fetch_failed.
  destruct fetch_ok; cbn [negb]; [|apply related_ret; split; reflexivity].
  apply related_bind; [infer_related|intros _].
  repeat (apply related_bind; [infer_related | intros [[? ?] ?]]; cbv zeta).
  apply related_bind; [infer_related|intros trend].
  apply related_ret. split; reflexivity.
Qed.

End Determinism.

Module DeterminismClaims.
Import Determinism Samples.

Lemma related_same_output (m1 m2 : M analysis) :
  related alike m1 m2 -> forall a b, same_output (m1 a) (m2 b).
Proof.
  intros H a b. specialize (H a b). unfold same_output.
  destruct (m1 a) as [[x ?]|], (m2 b) as [[y ?]|]; exact H.
Qed.

(** The time stamp itself follows the clock: it is the one field two
    runs may differ in. *)
Lemma analysis_date_follows_the_clock (now : string) :
  exists r,
    call (Quant.analyze no_float ∅ sparse_symbol sparse_name true now)
      = Ok (Scored r)
    /\ analysis_date r = now.
Proof. eexists. split; vm_compute; reflexivity. Qed.

(** C9. Two runs of the same scorer on the same input end alike,
    whatever the clock reads ([now1], [now2]) and whatever state the
    agent object was left in ([a1], [a2]): both raise the same
    exception, or both return, and then the two result dicts are equal
    once the [analysis_date] stamp is blanked; in particular their
    DimensionScore (sub-scores, total, signals, risks) is the same. *)
Theorem scorer_output_is_deterministic :
  (forall symbol name fetched now1 now2 a1 a2,
     same_output (Technical.analyze symbol name fetched now1 a1)
                 (Technical.analyze symbol name fetched now2 a2))
  /\ (forall float_of_str info symbol name fetch_ok now1 now2 a1 a2,
        same_output
          (Quant.analyze float_of_str info symbol name fetch_ok now1 a1)
          (Quant.analyze float_of_str info symbol name fetch_ok now2 a2))
  /\ (forall info symbol name fetch_ok now1 now2 a1 a2,
        same_output (Qualitative.analyze info symbol name fetch_ok now1 a1)
                    (Qualitative.analyze info symbol name fetch_ok now2 a2))
  /\ (forall series_std news price_data symbol name fetch_ok now1 now2 a1 a2,
        same_output
          (News.analyze series_std news price_data symbol name fetch_ok now1 a1)
          (News.analyze series_std news price_data symbol name fetch_ok now2 a2)).
Proof.
  split; [|split; [|split]]; intros.
  - apply related_same_output, technical_alike.
  - apply related_same_output, quant_alike.
  - apply related_same_output, qualitative_alike.
  - apply related_same_output, news_alike.
Qed.

End DeterminismClaims.

(* ================================================================== *)
(** * Further properties of the embedded code                            *)
(* ================================================================== *)

(** ** The technical agent on short histories *)

Module TechnicalExtras.
Import Technical TechnicalProps TechnicalResult.

Lemma filter_length_le {A} (f : A -> bool) (l : list A) :
  (length (List.filter f l) <= length l)%nat.
Proof. induction l as [|x l IH]; cbn; [lia|]. destruct (f x); cbn; lia. Qed.

(** A row whose [MA60] is NaN does not survive [dropna]. *)
Lemma dropna_warmup (data : list row) (n : nat) :
  (forall i r, data !! i = Some r -> (i < n)%nat -> MA60 r = NaN) ->
  (length (dropna data) <= length data - n)%nat.
Proof.
  revert n. induction data as [|r data IH]; intros n H; [cbn; lia|].
  destruct n as [|n].
  - rewrite Nat.sub_0_r. apply filter_length_le.
  - unfold dropna. cbn [List.filter].
    assert (Hr : forallb (fun x => negb (is_nan x)) (columns r) = false).
    { destruct (forallb _ (columns r)) eqn:E; [|reflexivity].
      rewrite forallb_forall in E. specialize (E (MA60 r)).
      rewrite (H 0%nat r eq_refl ltac:(lia)) in E.
      cbn in E. discriminate E. unfold columns. cbn.
      rewrite (H 0%nat r eq_refl ltac:(lia)). tauto. }
    rewrite Hr. cbn [length].
    apply (IH n). intros i r' Hi Hlt. apply (H (S i) r'); [exact Hi|lia].
Qed.

Definition insufficient : Z * list msg * list msg :=
  (12, [txt "데이터 부족"], [txt "충분한 거래일 데이터 없음"]).

Lemma price_trend_short data a :
  (length (dropna data) < 60)%nat ->
  analyze_price_trend data a = Ok (insufficient, a).
Proof.
  intros H. unfold analyze_price_trend. cbv zeta.
  destruct (Nat.ltb_spec (length (dropna data)) 60); [reflexivity|lia].
Qed.

Lemma momentum_short data a :
  (length (dropna data) < 26)%nat ->
  analyze_momentum data a = Ok (insufficient, a).
Proof.
  intros H. unfold analyze_momentum. cbv zeta.
  destruct (Nat.ltb_spec (length (dropna data)) 26); [reflexivity|lia].
Qed.

Lemma bollinger_short data a :
  (length (dropna data) < 20)%nat ->
  analyze_bollinger data a = Ok (insufficient, a).
Proof.
  intros H. unfold analyze_bollinger. cbv zeta.
  destruct (Nat.ltb_spec (length (dropna data)) 20); [reflexivity|lia].
Qed.

Lemma volume_short data a :
  (length (dropna data) < 20)%nat ->
  analyze_volume data a = Ok (insufficient, a).
Proof.
  intros H. unfold analyze_volume. cbv zeta.
  destruct (Nat.ltb_spec (length (dropna data)) 20); [reflexivity|lia].
Qed.

(** X1. [TechnicalAnalysisAgent.analyze] never raises, whatever frame
    the download left: it returns the error dict exactly when the
    download failed or came back empty, and a scored result dict
    otherwise (the length guards of the four methods make every
    [iloc] valid). *)
Theorem technical_analyze_total (symbol name : string)
    (fetched : option (list row)) (now : string) (a : acc) :
  exists x a',
    analyze symbol name fetched now a = Ok (x, a')
    /\ match fetched with
       | None | Some [] => x = fetch_failed symbol name
       | Some (_ :: _) => exists r, x = Scored r
       end.
Proof.
  destruct (technical_analyze_returns symbol name fetched now a) as (x & a' & E).
  exists x, a'. split; [exact E|].
  destruct fetched as [[|r0 data]|]; try (cbn in E; inversion E; reflexivity).
  unfold analyze in E. set (d := r0 :: data) in *. clearbody d.
  apply bind_ok in E as ([[s1 ?] ?] & a1 & E1 & E).
  apply bind_ok in E as ([[s2 ?] ?] & a2 & E2 & E).
  apply bind_ok in E as ([[s3 ?] ?] & a3 & E3 & E).
  apply bind_ok in E as ([[s4 ?] ?] & a4 & E4 & E).
  apply bind_ok in E as (last & a5 & E5 & E).
  inversion E. eexists. reflexivity.
Qed.

(** X2. With fewer than 20 complete rows (rows without a NaN in any
    column) the technical agent scores every sub-dimension with the
    neutral 12, so its total is 48 and its recommendation SELL, whatever
    the prices are. *)
Theorem technical_short_history (symbol name : string) (data : list row)
    (now : string) (a : acc) :
  data <> [] ->
  (length (dropna data) < 20)%nat ->
  exists r,
    analyze symbol name (Some data) now a = Ok (Scored r, a)
    /\ breakdown r = [("price_trend", 12); ("momentum", 12);
                      ("bollinger", 12); ("volume", 12)]
    /\ total_score r = 48
    /\ recommendation r = SELL
    /\ key_signals r = [txt "데이터 부족"; txt "데이터 부족"; txt "데이터 부족";
                        txt "데이터 부족"].
Proof.
  intros Hne Hlen. destruct data as [|r0 data]; [contradiction|].
  destruct (iloc_neg_ok (r0 :: data) 1) as [last El]; [cbn; lia|].
  eexists. split.
  - unfold analyze. cbv beta iota. unfold mbind, M_bind, bind.
    rewrite price_trend_short by lia. unfold insufficient at 1. cbv beta iota.
    rewrite momentum_short by lia. unfold insufficient at 1. cbv beta iota.
    rewrite bollinger_short by lia. unfold insufficient at 1. cbv beta iota.
    rewrite volume_short by lia. unfold insufficient at 1. cbv beta iota zeta.
    unfold lift. rewrite El. reflexivity.
  - repeat split.
Qed.

Lemma technical_short_history_witness :
  exists r,
    analyze Samples.sparse_symbol Samples.sparse_name
      (Some (take 10 Samples.spike_frame)) Samples.sample_now start
      = Ok (Scored r, start)
    /\ total_score r = 48.
Proof.
  destruct (technical_short_history Samples.sparse_symbol Samples.sparse_name
              (take 10 Samples.spike_frame) Samples.sample_now start)
    as (r & E & _ & Ht & _).
  - discriminate.
  - vm_compute. lia.
  - exists r. split; [exact E|exact Ht].
Defined.

(** X3. [calculate_indicators] sets [MA60] to the 60-day rolling mean
    of [Close], which is NaN on the first 59 rows, and [dropna] removes
    those rows: on a download of fewer than 119 rows
    [analyze_price_trend] never looks at the prices and returns the
    neutral 12 with the "insufficient data" notes; below 85 rows so does
    [analyze_momentum], below 79 rows [analyze_bollinger] and
    [analyze_volume]. *)
Theorem technical_needs_119_rows (data : list row) (a : acc) :
  (forall i r, data !! i = Some r ->
     MA60 r = Samples.rolling_mean 60 (map Close data) i) ->
  ((length data < 119)%nat ->
     analyze_price_trend data a = Ok (insufficient, a))
  /\ ((length data < 85)%nat ->
        analyze_momentum data a = Ok (insufficient, a))
  /\ ((length data < 79)%nat ->
        analyze_bollinger data a = Ok (insufficient, a)
        /\ analyze_volume data a = Ok (insufficient, a)).
Proof.
  intros H.
  assert (Hd : (length (dropna data) <= length data - 59)%nat).
  { apply dropna_warmup. intros i r Hi Hlt. rewrite (H i r Hi).
    unfold Samples.rolling_mean.
    destruct (Nat.leb_spec 60 (i + 1)); [lia|reflexivity]. }
  split; [|split]; intros Hl.
  - apply price_trend_short. lia.
  - apply momentum_short. lia.
  - split; [apply bollinger_short|apply volume_short]; lia.
Qed.

Lemma technical_needs_119_rows_witness :
  analyze_price_trend (take 118 Samples.spike_frame) start
    = Ok (insufficient, start).
Proof.
  apply (technical_needs_119_rows (take 118 Samples.spike_frame) start).
  - intros i r Hi.
    assert (Hall :
      map MA60 (take 118 Samples.spike_frame)
      = map (Samples.rolling_mean 60
               (map Close (take 118 Samples.spike_frame))) (seq 0 118))
      by (vm_compute; reflexivity).
    assert (Hlen : (i < 118)%nat).
    { apply lookup_lt_Some in Hi. revert Hi. vm_compute. lia. }
    assert (E : map MA60 (take 118 Samples.spike_frame) !! i = Some (MA60 r))
      by (rewrite list_lookup_fmap, Hi; reflexivity).
    rewrite Hall, list_lookup_fmap, lookup_seq_lt in E by exact Hlen.
    injection E as E'. exact (eq_sym E').
  - vm_compute. lia.
Defined.

End TechnicalExtras.

(** ** Total correctness under an invariant of the method's locals *)

Module InvariantLogic.

(** From every state that satisfies [P], [m] returns, in a state and
    with a value that satisfy [Q]. *)
Definition total {A} (P : acc -> Prop) (m : M A) (Q : A -> acc -> Prop)
  : Prop :=
  forall a, P a -> exists x a', m a = Ok (x, a') /\ Q x a'.

Lemma total_bind {A B} (P : acc -> Prop) (Q : A -> acc -> Prop)
    (R : B -> acc -> Prop) (m : M A) (k : A -> M B) :
  total P m Q -> (forall x, total (Q x) (k x) R) -> total P (m ≫= k) R.
Proof.
  intros Hm Hk a Ha. destruct (Hm a Ha) as (x & a1 & E1 & Hq).
  destruct (Hk x a1 Hq) as (y & a2 & E2 & Hr).
  exists y, a2. split; [|exact Hr].
  unfold mbind, M_bind, bind. rewrite E1. exact E2.
Qed.

End InvariantLogic.
Import InvariantLogic.

(** ** The news agent: price history length, event keywords, event risk *)

Module NewsExtras.
Import News NewsProps.

Lemma iloc_neg_short {A} (xs : list A) (k : nat) :
  (length xs < k)%nat -> iloc_neg xs k = Raise IndexError.
Proof.
  intros H. unfold iloc_neg.
  destruct (Nat.leb_spec k (length xs)); [lia|reflexivity].
Qed.

Lemma momentum_signals_body_short (pd : list bar) (a : acc) :
  (5 <= length pd < 20)%nat ->
  momentum_signals_body pd a = Raise IndexError.
Proof.
  intros H. unfold momentum_signals_body. cbv zeta.
  unfold mbind, M_bind, bind, lift.
  destruct (iloc_neg_ok (map Close pd) 1) as [c1 ->];
    [rewrite length_map; lia|].
  destruct (iloc_neg_ok (map Close pd) 5) as [c5 ->];
    [rewrite length_map; lia|].
  rewrite (iloc_neg_short (map Close pd) 20) by (rewrite length_map; lia).
  reflexivity.
Qed.

Lemma analyze_momentum_signals_short (pd : list bar) (a : acc) :
  (10 <= length pd < 20)%nat ->
  analyze_momentum_signals (Some pd) a = Raise IndexError.
Proof.
  intros H. unfold analyze_momentum_signals.
  destruct (Nat.ltb_spec (length pd) 10); [lia|].
  unfold method. rewrite momentum_signals_body_short by lia. reflexivity.
Qed.

Lemma momentum_signals_body_long (pd : list bar) :
  (20 <= length pd)%nat -> returns (momentum_signals_body pd).
Proof. intros H. unfold momentum_signals_body. infer_returns. Qed.

(** X4. The news agent downloads 30 days of prices and guards its
    momentum code with [len(price_data) < 10], but the code reads
    [iloc[-20]]: with fewer than 10 bars [analyze_momentum_signals]
    returns the neutral 12 and [get_sentiment_trend] "Unknown"; with 10
    to 19 bars both raise IndexError and [analyze] raises instead of
    returning a result, whatever the news are; from 20 bars on
    [analyze_momentum_signals] returns. *)
Theorem news_momentum_needs_20_bars (series_std : list fl -> fl)
    (news : list (gmap string pyval)) (pd : list bar) (a : acc) :
  ((length pd < 10)%nat ->
     analyze_momentum_signals (Some pd) a
       = Ok ((12, [txt "데이터 부족"], []), a)
     /\ get_sentiment_trend (Some pd) a = Ok ("Unknown", a))
  /\ ((10 <= length pd < 20)%nat ->
        analyze_momentum_signals (Some pd) a = Raise IndexError
        /\ get_sentiment_trend (Some pd) a = Raise IndexError
        /\ forall symbol name now, exists e,
             analyze series_std news (Some pd) symbol name true now a
               = Raise e)
  /\ ((20 <= length pd)%nat ->
        exists x a', analyze_momentum_signals (Some pd) a = Ok (x, a')).
Proof.
  split; [|split]; intros H.
  - unfold analyze_momentum_signals, get_sentiment_trend.
    destruct (Nat.ltb_spec (length pd) 10); [|lia]. split; reflexivity.
  - split; [apply analyze_momentum_signals_short; exact H|]. split.
    + unfold get_sentiment_trend.
      destruct (Nat.ltb_spec (length pd) 10); [lia|]. cbv zeta.
      unfold mbind, M_bind, bind, lift.
      destruct (iloc_neg_ok (map Close pd) 1) as [c1 ->];
        [rewrite length_map; lia|].
      destruct (iloc_neg_ok (map Close pd) 5) as [c5 ->];
        [rewrite length_map; lia|].
      rewrite (iloc_neg_short (map Close pd) 20) by (rewrite length_map; lia).
      reflexivity.
    + intros symbol name now. unfold analyze. cbn [negb].
      unfold mbind, M_bind, bind. cbn [len_price_data lift].
      destruct (analyze_news_sentiment news a) as [[[[? ?] ?] a1]|e];
        [|exists e; reflexivity].
      destruct (analyze_social_media series_std (Some pd) a1)
        as [[[[? ?] ?] a2]|e]; [|exists e; reflexivity].
      destruct (analyze_event_risk news a2) as [[[[? ?] ?] a3]|e];
        [|exists e; reflexivity].
      rewrite analyze_momentum_signals_short by exact H.
      exists IndexError. reflexivity.
  - unfold analyze_momentum_signals.
    destruct (Nat.ltb_spec (length pd) 10); [lia|].
    apply returns_method, momentum_signals_body_long. exact H.
Qed.

(** *** Keywords with a capital letter *)

Definition is_upper (c : ascii) : bool :=
  ((65 <=? nat_of_ascii c) && (nat_of_ascii c <=? 90))%nat.

Fixpoint has_upper (s : string) : bool :=
  match s with
  | EmptyString => false
  | String c s' => is_upper c || has_upper s'
  end.

Lemma lower_ascii_not_upper (c : ascii) : is_upper (lower_ascii c) = false.
Proof. destruct c as [[] [] [] [] [] [] [] []]; reflexivity. Qed.

Lemma lower_has_no_upper (s : string) : has_upper (lower s) = false.
Proof.
  induction s as [|c s IH]; [reflexivity|].
  cbn. rewrite lower_ascii_not_upper, IH. reflexivity.
Qed.

Lemma is_prefix_has_upper (kw s : string) :
  is_prefix kw s = true -> has_upper kw = true -> has_upper s = true.
Proof.
  revert s. induction kw as [|a kw IH]; intros s Hp Hu; [discriminate|].
  destruct s as [|b s]; [discriminate|]. cbn in Hp, Hu |- *.
  destruct (Ascii.eqb_spec a b) as [->|]; [|discriminate].
  destruct (is_upper b); [reflexivity|]. cbn in Hu |- *.
  apply IH; assumption.
Qed.

Lemma contains_has_upper (kw s : string) :
  contains kw s = true -> has_upper kw = true -> has_upper s = true.
Proof.
  intros Hc Hu. induction s as [|b s IH].
  - cbn in Hc. destruct (is_prefix kw "") eqn:E; [|discriminate].
    exact (is_prefix_has_upper _ _ E Hu).
  - cbn [contains] in Hc. destruct (is_prefix kw (String b s)) eqn:E.
    + exact (is_prefix_has_upper _ _ E Hu).
    + cbn. rewrite (IH Hc). apply orb_true_r.
Qed.

(** X5. [analyze_event_risk] lower-cases a title before it looks for
    the event keywords, so a keyword of [event_keywords] that is written
    with a capital letter ('EPS', 'CEO') is found in no title: it never
    counts an event. *)
Theorem capital_event_keyword_never_matches
    (kind kw : string) (kws : list string) (title : string) :
  In (kind, kws) event_keywords -> In kw kws -> has_upper kw = true ->
  contains kw (lower title) = false.
Proof.
  intros _ _ Hu. destruct (contains kw (lower title)) eqn:E; [|reflexivity].
  pose proof (contains_has_upper _ _ E Hu) as H.
  rewrite lower_has_no_upper in H. discriminate.
Qed.

Lemma capital_event_keyword_never_matches_witness :
  contains "CEO" (lower "Samsung CEO resigns") = false
  /\ count_title (lower "Samsung CEO resigns") event_counts0 = event_counts0.
Proof.
  split.
  - apply (capital_event_keyword_never_matches "executive" "CEO"
             ["CEO"; "임원"; "퇴임"; "취임"; "executive"]).
    + cbn. tauto.
    + cbn. tauto.
    + reflexivity.
  - vm_compute. reflexivity.
Defined.

(** *** Event risk: the score, the risk notes and the all-clear note *)

Definition all_clear : msg := txt "특별한 이벤트 리스크 없음".

Definition event_kinds : list string := map fst event_keywords.

Definition counted (c : gmap string Z) : Prop :=
  forall k, In k event_kinds -> is_Some (c !! k).

Lemma counted0 : counted event_counts0.
Proof.
  intros k Hk. cbn in Hk.
  repeat (destruct Hk as [<-|Hk]; [vm_compute; eauto|]). destruct Hk.
Qed.

Lemma count_title_counted title c : counted c -> counted (count_title title c).
Proof.
  unfold count_title. generalize event_keywords as kws. intros kws. revert c.
  induction kws as [|kv kws IH]; intros c Hc; [exact Hc|].
  cbn [foldl]. apply IH. destruct (existsb _ _); [|exact Hc].
  intros k Hk. apply lookup_alter_is_Some, Hc, Hk.
Qed.

Lemma count_item_unfold c item a :
  count_item c item a
  = match py_lower (item_get item "title" (PyStr "")) with
    | Ok t => Ok (count_title t c, a)
    | Raise e => Raise e
    end.
Proof.
  unfold count_item, mbind, M_bind, bind, lift.
  destruct (py_lower _); reflexivity.
Qed.

Lemma for_items_cons {S} (step : S -> gmap string pyval -> M S) s item rest a :
  for_items step s (item :: rest) a
  = match step s item a with
    | Ok (s', a') => for_items step s' rest a'
    | Raise e => Raise e
    end.
Proof. reflexivity. Qed.

(** The loop over the news leaves the locals alone; it can only fail on
    a title that is not a string. *)
Lemma count_items_outcome items : forall c a,
  counted c ->
  match for_items count_item c items a with
  | Ok (c', a') => a' = a /\ counted c'
  | Raise e =>
      e = AttributeError
      /\ exists item, In item items
           /\ py_lower (item_get item "title" (PyStr "")) = Raise AttributeError
  end.
Proof.
  induction items as [|item rest IH]; intros c a Hc.
  - cbn. split; [reflexivity|exact Hc].
  - rewrite for_items_cons, count_item_unfold.
    destruct (py_lower (item_get item "title" (PyStr ""))) as [t|e] eqn:E.
    + specialize (IH (count_title t c) a (count_title_counted t c Hc)).
      destruct (for_items count_item (count_title t c) rest a) as [[c' a']|e].
      * exact IH.
      * destruct IH as (-> & it & Hin & Hit). split; [reflexivity|].
        exists it. split; [right; exact Hin|exact Hit].
    + assert (e = AttributeError) as ->.
      { destruct (item_get item "title" (PyStr "")); cbn in E; congruence. }
      split; [reflexivity|]. exists item. split; [left; reflexivity|exact E].
Qed.

(** The invariant of the locals while the penalties are applied: the
    score is below 25 exactly when a risk has been noted. *)
Definition penalised (a : acc) : Prop :=
  score a <= 25
  /\ (score a = 25 <-> risks a = [])
  /\ ~ In all_clear (signals a).

Lemma count_of_total (P : acc -> Prop) c k :
  counted c -> In k event_kinds -> total P (count_of c k) (fun _ a => P a).
Proof.
  intros Hc Hk a Ha. destruct (Hc k Hk) as [n E].
  exists n, a. unfold count_of, lift. rewrite E. split; [reflexivity|exact Ha].
Qed.

Lemma keeps_penalty n m :
  n < 0 -> total penalised (add n;; risk m) (fun _ => penalised).
Proof.
  intros Hlt a (Hs & Hr & Hn). eexists; eexists. split; [reflexivity|].
  unfold penalised. cbn. split; [lia|]. split.
  - split; [lia|]. intros H. destruct (risks a); discriminate H.
  - exact Hn.
Qed.

Lemma keeps_signal m :
  m <> all_clear -> total penalised (signal m) (fun _ => penalised).
Proof.
  intros Hm a (Hs & Hr & Hn). eexists; eexists. split; [reflexivity|].
  unfold penalised. cbn. split; [exact Hs|]. split; [exact Hr|].
  intros H. apply in_app_or in H.
  destruct H as [H|[H|[]]]; [exact (Hn H)|exact (Hm H)].
Qed.

Lemma keeps_skip : total penalised skip (fun _ => penalised).
Proof. intros a Ha. exists tt, a. split; [reflexivity|exact Ha]. Qed.

Ltac keeps :=
  lazymatch goal with
  | |- total _ (add _ ≫= _) _ => apply keeps_penalty; lia
  | |- total _ (_ ≫= _) _ =>
      eapply total_bind; [keeps | intros; cbv beta; keeps]
  | |- total _ (if ?b then _ else _) _ => destruct b; keeps
  | |- total _ (signal _) _ => apply keeps_signal; discriminate
  | |- total _ skip _ => apply keeps_skip
  end.

Lemma er_earnings_keeps n : total penalised (er_earnings n) (fun _ => penalised).
Proof. unfold er_earnings. keeps. Qed.

Lemma er_notes_keeps d m : total penalised (er_notes d m) (fun _ => penalised).
Proof. unfold er_notes. keeps. Qed.

Lemma er_offering_keeps n : total penalised (er_offering n) (fun _ => penalised).
Proof. unfold er_offering. keeps. Qed.

Lemma er_lawsuit_keeps n : total penalised (er_lawsuit n) (fun _ => penalised).
Proof. unfold er_lawsuit. keeps. Qed.

Lemma er_executive_keeps n : total penalised (er_executive n) (fun _ => penalised).
Proof. unfold er_executive. keeps. Qed.

(** What the method's locals satisfy when it returns. *)
Definition settled (a : acc) : Prop :=
  (floor0 (score a) = 25 <-> risks a = [])
  /\ (risks a = [] <-> In all_clear (signals a)).

Lemma er_no_risk_settles : total penalised er_no_risk (fun _ => settled).
Proof.
  intros a (Hs & Hr & Hn). unfold er_no_risk, mbind, M_bind, bind, get_risks.
  destruct (risks a) as [|r rs] eqn:E.
  - assert (H25 : score a = 25) by (apply Hr; reflexivity).
    eexists; eexists. split; [reflexivity|]. unfold settled, floor0. cbn.
    rewrite E. split; [split; [reflexivity|lia]|].
    split; [intros _; apply in_or_app; right; left; reflexivity|reflexivity].
  - eexists; eexists. split; [reflexivity|]. unfold settled, floor0.
    rewrite E. split.
    + split; [intros H; apply Hr; lia|discriminate].
    + split; [discriminate|intros H; destruct (Hn H)].
Qed.

(** The statements after the loop, for the counts the loop produced. *)
Definition event_penalties (event_counts : gmap string Z) : M unit :=
  n ← count_of event_counts "earnings"; er_earnings n;;
  d ← count_of event_counts "dividend";
  m ← count_of event_counts "meeting"; er_notes d m;;
  n ← count_of event_counts "offering"; er_offering n;;
  n ← count_of event_counts "lawsuit"; er_lawsuit n;;
  n ← count_of event_counts "executive"; er_executive n;;
  er_no_risk.

Lemma event_risk_body_split news :
  event_risk_body news
  = (for_items count_item event_counts0 (take 15 news) ≫= event_penalties).
Proof. reflexivity. Qed.

Lemma event_penalties_settle c :
  counted c -> total penalised (event_penalties c) (fun _ => settled).
Proof.
  intros Hc. unfold event_penalties.
  repeat first
    [ apply er_no_risk_settles
    | eapply total_bind;
      [ first [ apply (count_of_total penalised c); [exact Hc|cbn; tauto]
              | apply er_earnings_keeps | apply er_notes_keeps
              | apply er_offering_keeps | apply er_lawsuit_keeps
              | apply er_executive_keeps ]
      | intros; cbv beta ] ].
Qed.

(** X6. [analyze_event_risk] either raises AttributeError, on a news
    item among the first 15 whose title is not a string, or returns;
    reading [event_counts] never raises KeyError.  When it returns, the
    score is 25 exactly when no risk is reported, and the note
    "no particular event risk" is among the signals exactly then. *)
Theorem event_risk_outcome (news : list (gmap string pyval)) (a : acc) :
  match analyze_event_risk news a with
  | Ok ((s, sg, rk), _) =>
      (s = 25 <-> rk = []) /\ (rk = [] <-> In all_clear sg)
  | Raise e =>
      e = AttributeError
      /\ exists item, In item (take 15 news)
           /\ py_lower (item_get item "title" (PyStr "")) = Raise AttributeError
  end.
Proof.
  unfold analyze_event_risk, method. rewrite event_risk_body_split.
  unfold mbind at 1. unfold M_bind, bind.
  set (a0 := {| score := 25; signals := []; risks := []; reads := reads a |}).
  pose proof (count_items_outcome (take 15 news) event_counts0 a0 counted0) as H.
  destruct (for_items count_item event_counts0 (take 15 news) a0)
    as [[c a1]|e]; [|exact H].
  destruct H as [-> Hc].
  destruct (event_penalties_settle c Hc a0) as ([] & a2 & -> & Hs).
  - unfold penalised. cbn. split; [lia|]. split; [tauto|]. intros [].
  - exact Hs.
Qed.

End NewsExtras.

(** ** The quantitative agent: what makes it raise, and its peer band *)

Module QuantExtras.
Import Quant QuantProps.

Lemma py_div_positive (x y : fl) :
  fgt y (of_Z 0) = true -> exists q, py_div x y = Ok q.
Proof.
  unfold fgt, flt, of_Z, py_div. destruct y as [| |q|]; try discriminate.
  - intros H. destruct (q ?= 0)%Q eqn:E; eauto.
    apply Qeq_alt in E. rewrite E in H. discriminate H.
  - eauto.
Qed.

(** The sixteen keys of [self.info] the four methods read, in order. *)
Definition metric_keys : list string :=
  ["returnOnEquity"; "returnOnAssets"; "operatingMargins"; "profitMargins";
   "revenueGrowth"; "earningsGrowth"; "earningsQuarterlyGrowth";
   "debtToEquity"; "currentRatio"; "operatingCashflow"; "totalRevenue";
   "trailingPE"; "forwardPE"; "priceToBook"; "pegRatio"; "enterpriseToEbitda"].

Section WithInfo.
Context (float_of_str : string -> option fl) (info : gmap string pyval).

(** The key holds a string that [float()] rejects. *)
Definition unparsable (key : string) : Prop :=
  exists s, info !! key = Some (PyStr s) /\ float_of_str s = None.

(** [m] reads the keys [ks]: it returns when none is unparsable and
    raises ValueError otherwise. *)
Definition reads_keys {A} (ks : list string) (m : M A) : Prop :=
  forall a,
    match m a with
    | Ok _ => Forall (fun k => ~ unparsable k) ks
    | Raise e => e = ValueError /\ Exists unparsable ks
    end.

Lemma reads_keys_pure {A} (m : M A) : returns m -> reads_keys [] m.
Proof. intros H a. destruct (H a) as (x & a' & ->). constructor. Qed.

Lemma reads_keys_bind {A B} ks1 ks2 (m : M A) (k : A -> M B) :
  reads_keys ks1 m -> (forall x, reads_keys ks2 (k x)) ->
  reads_keys (ks1 ++ ks2) (m ≫= k).
Proof.
  intros Hm Hk a. specialize (Hm a). unfold mbind, M_bind, bind.
  destruct (m a) as [[x a1]|e].
  - specialize (Hk x a1). destruct (k x a1) as [[y a2]|e].
    + apply Forall_app. split; assumption.
    + destruct Hk as [-> Hk]. split; [reflexivity|].
      apply Exists_app. right. exact Hk.
  - destruct Hm as [-> Hm]. split; [reflexivity|].
    apply Exists_app. left. exact Hm.
Qed.

Lemma reads_keys_get_metric key default :
  reads_keys [key] (get_metric float_of_str info key default).
Proof.
  intros a. unfold get_metric, mbind, M_bind, bind, lift, unparsable. cbv zeta.
  destruct (info !! key) as [[| |x|s]|] eqn:E; cbn;
    try (repeat constructor; intros (s' & Hs & _); congruence).
  - destruct (is_nan x); cbn;
      repeat constructor; intros (s' & Hs & _); congruence.
  - destruct (float_of_str s) eqn:Es; cbn.
    + repeat constructor. intros (s' & Hs & Hn). congruence.
    + split; [reflexivity|]. constructor. exists s. split; [exact E|exact Es].
  - destruct (is_nan default); cbn;
      repeat constructor; intros (s' & Hs & _); congruence.
Qed.

Lemma reads_keys_get_then {A} key default (k : fl -> M A) :
  (forall r, returns (k r)) ->
  reads_keys [key] (get_metric float_of_str info key default ≫= k).
Proof.
  intros Hk. change [key] with ([key] ++ []).
  apply reads_keys_bind; [apply reads_keys_get_metric|].
  intros r. apply reads_keys_pure, Hk.
Qed.

Lemma reads_keys_method ks init clamp body :
  reads_keys ks body -> reads_keys ks (method init clamp body).
Proof.
  intros H a. unfold method.
  specialize (H {| score := init; signals := []; risks := []; reads := reads a |}).
  destruct (body _) as [[[] a']|e]; exact H.
Qed.

Ltac one_key :=
  apply reads_keys_get_then; intros; cbv zeta; infer_returns.

Lemma st_cashflow_reads :
  reads_keys ["operatingCashflow"; "totalRevenue"]
    (st_cashflow float_of_str info).
Proof.
  unfold st_cashflow.
  change ["operatingCashflow"; "totalRevenue"]
    with (["operatingCashflow"] ++ ["totalRevenue"]).
  apply reads_keys_bind; [apply reads_keys_get_metric|]. intros operating_cf.
  apply reads_keys_get_then. intros total_revenue.
  destruct (fgt total_revenue (of_Z 0)) eqn:E.
  - destruct (py_div_positive operating_cf total_revenue E) as [q ->].
    infer_returns.
  - infer_returns.
Qed.

Lemma va_per_reads :
  reads_keys ["trailingPE"; "forwardPE"] (va_per float_of_str info).
Proof.
  unfold va_per.
  change ["trailingPE"; "forwardPE"] with (["trailingPE"] ++ ["forwardPE"]).
  apply reads_keys_bind; [apply reads_keys_get_metric|]. intros pe_ratio.
  one_key.
Qed.

Lemma analyze_profitability_reads :
  reads_keys (firstn 4 metric_keys) (analyze_profitability float_of_str info).
Proof.
  apply reads_keys_method.
  apply (reads_keys_bind [_] [_; _; _]); [unfold pr_roe; one_key|intros _].
  apply (reads_keys_bind [_] [_; _]); [unfold pr_roa; one_key|intros _].
  apply (reads_keys_bind [_] [_]); [unfold pr_op_margin; one_key|intros _].
  unfold pr_net_margin; one_key.
Qed.

Lemma analyze_growth_reads :
  reads_keys (firstn 3 (skipn 4 metric_keys))
    (analyze_growth float_of_str info).
Proof.
  apply reads_keys_method.
  apply (reads_keys_bind [_] [_; _]); [unfold gr_revenue; one_key|intros _].
  apply (reads_keys_bind [_] [_]); [unfold gr_earnings; one_key|intros _].
  unfold gr_eps; one_key.
Qed.

Lemma analyze_stability_reads :
  reads_keys (firstn 4 (skipn 7 metric_keys))
    (analyze_stability float_of_str info).
Proof.
  apply reads_keys_method.
  apply (reads_keys_bind [_] [_; _; _]); [unfold st_debt; one_key|intros _].
  apply (reads_keys_bind [_] [_; _]); [unfold st_current; one_key|intros _].
  apply st_cashflow_reads.
Qed.

Lemma analyze_valuation_reads :
  reads_keys (skipn 11 metric_keys) (analyze_valuation float_of_str info).
Proof.
  apply reads_keys_method.
  apply (reads_keys_bind [_; _] [_; _; _]); [apply va_per_reads|intros _].
  apply (reads_keys_bind [_] [_; _]); [unfold va_pbr; one_key|intros _].
  apply (reads_keys_bind [_] [_]); [unfold va_peg; one_key|intros _].
  unfold va_ev; one_key.
Qed.

Lemma quant_analyze_reads symbol name now :
  reads_keys metric_keys (analyze float_of_str info symbol name true now).
Proof.
  unfold analyze. cbn [negb].
  apply (reads_keys_bind (firstn 4 metric_keys) (skipn 4 metric_keys));
    [apply analyze_profitability_reads|intros [[? ?] ?]].
  apply (reads_keys_bind (firstn 3 (skipn 4 metric_keys)) (skipn 7 metric_keys));
    [apply analyze_growth_reads|intros [[? ?] ?]].
  apply (reads_keys_bind (firstn 4 (skipn 7 metric_keys)) (skipn 11 metric_keys));
    [apply analyze_stability_reads|intros [[? ?] ?]].
  change (skipn 11 metric_keys) with (skipn 11 metric_keys ++ []).
  apply reads_keys_bind; [apply analyze_valuation_reads|intros [[? ?] ?]].
  apply reads_keys_pure, returns_ret.
Qed.

Lemma quant_analyze_scored symbol name now a x a' :
  analyze float_of_str info symbol name true now a = Ok (x, a') ->
  exists r, x = Scored r.
Proof.
  unfold analyze. cbn [negb]. intros H.
  apply bind_ok in H as ([[s1 ?] ?] & a1 & E1 & H).
  apply bind_ok in H as ([[s2 ?] ?] & a2 & E2 & H).
  apply bind_ok in H as ([[s3 ?] ?] & a3 & E3 & H).
  apply bind_ok in H as ([[s4 ?] ?] & a4 & E4 & H).
  inversion H. eexists. reflexivity.
Qed.

(** X7. Once the download succeeded, [QuantAnalysisAgent.analyze]
    has exactly two outcomes on an [info] mapping of numbers, strings
    and [None]: when one of the sixteen metric keys holds a string that
    [float()] rejects it raises ValueError, and otherwise it returns a
    scored result dict.  A missing key, [None], NaN, an infinity or a
    zero revenue never makes it raise (the division by [totalRevenue]
    is guarded). *)
Theorem quant_analyze_outcome (symbol name now : string) (a : acc) :
  match analyze float_of_str info symbol name true now a with
  | Ok (x, _) =>
      (exists r, x = Scored r)
      /\ forall key, In key metric_keys -> ~ unparsable key
  | Raise e =>
      e = ValueError /\ exists key, In key metric_keys /\ unparsable key
  end.
Proof.
  pose proof (quant_analyze_reads symbol name now a) as H.
  pose proof (quant_analyze_scored symbol name now a) as Hs.
  destruct (analyze float_of_str info symbol name true now a) as [[x a']|e].
  - split; [exact (Hs x a' eq_refl)|].
    intros key Hk. rewrite List.Forall_forall in H. exact (H key Hk).
  - destruct H as [-> H]. split; [reflexivity|].
    apply List.Exists_exists in H. exact H.
Qed.

(** *** peer_comparison *)

(** The four bands of [get_peer_comparison]. *)
Definition band (total : Z) : string :=
  if total >=? 80 then "상위"
  else if total >=? 60 then "중상위"
  else if total >=? 40 then "중위"
  else "하위".

Lemma sum_of_scores (p g s v : Z) :
  map_fold (fun (_ : string) (x acc : Z) => x + acc) 0
    (<["valuation" := v]> (<["stability" := s]> (<["growth" := g]>
       (<["profitability" := p]> (∅ : gmap string Z)))))
  = p + g + s + v.
Proof.
  rewrite !map_fold_insert_L, map_fold_empty.
  - lia.
  - intros. lia.
  - reflexivity.
  - intros. lia.
  - rewrite lookup_insert_ne by discriminate. reflexivity.
  - intros. lia.
  - rewrite !lookup_insert_ne by discriminate. reflexivity.
  - intros. lia.
  - rewrite !lookup_insert_ne by discriminate. reflexivity.
Qed.

(** X8. The [peer_comparison] of a quant result compares with no peer:
    [self.scores] holds the four sub-scores of this very run, so the
    field is the band of the result's own total (80, 60, 40).  Hence a
    BUY is always rated "상위" or "중상위", and "하위" always comes with
    SELL. *)
Theorem quant_peer_comparison (symbol name now : string) (a a' : acc)
    (r : agent_result) :
  analyze float_of_str info symbol name true now a = Ok (Scored r, a') ->
  extra r = QuantExtra (info_get info "sector" (PyStr "Unknown"))
                       (info_get info "industry" (PyStr "Unknown"))
                       (band (total_score r))
  /\ (recommendation r = BUY ->
        band (total_score r) = "상위" \/ band (total_score r) = "중상위")
  /\ (band (total_score r) = "하위" -> recommendation r = SELL).
Proof.
  intros H. unfold analyze in H. cbn [negb] in H.
  apply bind_ok in H as ([[s1 ?] ?] & a1 & E1 & H).
  apply bind_ok in H as ([[s2 ?] ?] & a2 & E2 & H).
  apply bind_ok in H as ([[s3 ?] ?] & a3 & E3 & H).
  apply bind_ok in H as ([[s4 ?] ?] & a4 & E4 & H).
  cbv zeta in H. unfold get_peer_comparison in H. rewrite sum_of_scores in H.
  injection H as <- _. cbn [extra total_score recommendation].
  fold (band (s1 + s2 + s3 + s4)).
  split; [reflexivity|]. unfold band. split.
  - destruct (Z.geb_spec (s1 + s2 + s3 + s4) 70); [|destruct (_ >=? 50); discriminate].
    intros _. destruct (Z.geb_spec (s1 + s2 + s3 + s4) 80); [left; reflexivity|].
    destruct (Z.geb_spec (s1 + s2 + s3 + s4) 60); [right; reflexivity|lia].
  - destruct (Z.geb_spec (s1 + s2 + s3 + s4) 80); [discriminate|].
    destruct (Z.geb_spec (s1 + s2 + s3 + s4) 60); [discriminate|].
    destruct (Z.geb_spec (s1 + s2 + s3 + s4) 40); [discriminate|]. intros _.
    destruct (Z.geb_spec (s1 + s2 + s3 + s4) 70); [lia|].
    destruct (Z.geb_spec (s1 + s2 + s3 + s4) 50); [lia|reflexivity].
Qed.

End WithInfo.

Lemma quant_peer_comparison_witness :
  exists r,
    Samples.sparse_quant = Ok (Scored r)
    /\ extra r = QuantExtra (PyStr "Unknown") (PyStr "Unknown") "하위".
Proof.
  destruct (analyze Samples.no_float ∅ Samples.sparse_symbol
              Samples.sparse_name true Samples.sample_now start)
    as [[[e s n|r] a']|e] eqn:E; try (vm_compute in E; discriminate E).
  exists r. split.
  - unfold Samples.sparse_quant, call. rewrite E. reflexivity.
  - destruct (quant_peer_comparison Samples.no_float ∅ Samples.sparse_symbol
                Samples.sparse_name Samples.sample_now start a' r E)
      as (Hx & _ & _).
    rewrite Hx. assert (Ht : total_score r = 22).
    { vm_compute in E. injection E as <- _. reflexivity. }
    rewrite Ht. reflexivity.
Defined.

End QuantExtras.

(** ** The qualitative agent on a well-typed [info] *)

Module QualitativeExtras.
Import Qualitative QualitativeProps.

(** The keys whose value the agent compares with a number. *)
Definition numeric_keys : list string :=
  ["marketCap"; "grossMargins"; "revenuePerShare"; "dividendYield";
   "payoutRatio"; "heldPercentInsiders"; "heldPercentInstitutions";
   "fullTimeEmployees"; "beta"; "debtToEquity"; "revenueGrowth";
   "currentRatio"; "operatingMargins"].

(** The keys whose value it treats as text. *)
Definition text_keys : list string := ["sector"; "industry"].

Definition is_num (v : pyval) : bool :=
  match v with PyInt _ | PyFloat _ => true | _ => false end.

Definition is_str (v : pyval) : bool :=
  match v with PyStr _ => true | _ => false end.

(** What the agent's code needs of the value stored under [key]. *)
Definition ok_value (key : string) (v : pyval) : bool :=
  if existsb (String.eqb key) numeric_keys then is_num v
  else if existsb (String.eqb key) text_keys then is_str v
  else true.

Definition well_typed (info : gmap string pyval) : Prop :=
  map_Forall (fun key v => ok_value key v = true) info.

Section WithInfo.
Context (info : gmap string pyval) (Htyped : well_typed info).

Lemma returns_get_info_then {A} key default (k : pyval -> M A) :
  ok_value key default = true ->
  (forall v, ok_value key v = true -> returns (k v)) ->
  returns (get_info info key default ≫= k).
Proof.
  intros Hd Hk a. unfold get_info, mbind, M_bind, bind, log_read, ret.
  cbv zeta. destruct (info !! key) as [v|] eqn:E.
  - exact (Hk v (Htyped key v E) _).
  - exact (Hk default Hd _).
Qed.

Lemma returns_num_then {A} (v : pyval) (k : fl -> M A) :
  is_num v = true -> (forall x, returns (k x)) -> returns (num v ≫= k).
Proof.
  intros Hv Hk. apply returns_bind; [|exact Hk].
  unfold num. destruct v; try discriminate Hv; apply returns_lift_ok.
Qed.

Lemma returns_lower_has_then {A} kw (v : pyval) (k : bool -> M A) :
  is_str v = true -> (forall x, returns (k x)) ->
  returns (lower_has kw v ≫= k).
Proof.
  intros Hv Hk. apply returns_bind; [|exact Hk].
  unfold lower_has. destruct v; try discriminate Hv. cbn [py_lower].
  infer_returns.
Qed.

(** One read of a key, and the use of a value as a number. *)
Ltac read v Hv :=
  apply returns_get_info_then; [reflexivity|intros v Hv; vm_compute in Hv].

Ltac as_number Hv x :=
  apply returns_num_then; [exact Hv|intros x; cbv zeta].

Lemma bm_market_cap_returns : returns (bm_market_cap info).
Proof.
  unfold bm_market_cap. read v Hv. as_number Hv mc. infer_returns.
Qed.

Lemma or_else_returns (a b : M bool) :
  returns a -> returns b -> returns (or_else a b).
Proof. intros Ha Hb. unfold or_else. infer_returns. Qed.

Lemma lower_has_returns kw v : is_str v = true -> returns (lower_has kw v).
Proof.
  intros Hv. unfold lower_has. destruct v; try discriminate Hv.
  cbn [py_lower]. infer_returns.
Qed.

Lemma bm_diversification_returns : returns (bm_diversification info).
Proof.
  unfold bm_diversification. read sector Hs. read industry Hi. cbv zeta.
  apply returns_if; [infer_returns|].
  apply returns_bind;
    [apply or_else_returns; apply lower_has_returns; exact Hi|intros semi].
  apply returns_if; [infer_returns|].
  apply returns_bind;
    [apply or_else_returns; apply lower_has_returns; exact Hi|intros bank].
  infer_returns.
Qed.

Lemma bm_margin_returns : returns (bm_margin info).
Proof. unfold bm_margin. read v Hv. as_number Hv g. infer_returns. Qed.

Lemma bm_rd_returns : returns (bm_rd info).
Proof. unfold bm_rd. read v Hv. as_number Hv rd_ratio. infer_returns. Qed.

Lemma mg_governance_returns : returns (mg_governance info).
Proof.
  unfold mg_governance. read v Hv. as_number Hv i.
  read v' Hv'. as_number Hv' i'. infer_returns.
Qed.

Lemma mg_employees_returns : returns (mg_employees info).
Proof. unfold mg_employees. read v Hv. as_number Hv n. infer_returns. Qed.

Lemma management_body_returns : returns (management_body info).
Proof.
  unfold management_body.
  apply returns_get_info_then; [reflexivity|intros dividend_rate _].
  read v Hv. as_number Hv y. read v' Hv'. as_number Hv' p.
  apply returns_bind; [infer_returns|intros _].
  apply returns_bind; [infer_returns|intros _].
  apply returns_bind; [apply mg_governance_returns|intros _].
  apply mg_employees_returns.
Qed.

Lemma io_tech_returns industry :
  is_str industry = true -> returns (io_tech industry).
Proof.
  intros Hi. unfold io_tech. cbv zeta.
  apply returns_bind.
  { unfold any_in. destruct industry; try discriminate Hi. apply returns_ret'. }
  intros t. apply returns_if; [infer_returns|].
  apply returns_lower_has_then; [exact Hi|intros e].
  apply returns_if; [infer_returns|].
  apply returns_lower_has_then; [exact Hi|intros b].
  infer_returns.
Qed.

Lemma io_beta_returns : returns (io_beta info).
Proof. unfold io_beta. read v Hv. as_number Hv beta. infer_returns. Qed.

Lemma industry_outlook_body_returns : returns (industry_outlook_body info).
Proof.
  unfold industry_outlook_body. read sector Hs. read industry Hi.
  apply returns_bind; [infer_returns|intros _].
  apply returns_bind; [apply io_tech_returns; exact Hi|intros _].
  apply io_beta_returns.
Qed.

Lemma rf_beta_returns : returns (rf_beta info).
Proof. unfold rf_beta. read v Hv. as_number Hv beta. infer_returns. Qed.

Lemma rf_debt_returns : returns (rf_debt info).
Proof. unfold rf_debt. read v Hv. as_number Hv d. infer_returns. Qed.

Lemma rf_revenue_returns : returns (rf_revenue info).
Proof. unfold rf_revenue. read v Hv. as_number Hv g. infer_returns. Qed.

Lemma rf_liquidity_returns : returns (rf_liquidity info).
Proof. unfold rf_liquidity. read v Hv. as_number Hv c. infer_returns. Qed.

Lemma num_ge_returns v c : is_num v = true -> returns (num_ge v c).
Proof.
  intros Hv. unfold num_ge. apply returns_num_then; [exact Hv|].
  intros x. apply returns_ret'.
Qed.

Lemma num_gt_returns v c : is_num v = true -> returns (num_gt v c).
Proof.
  intros Hv. unfold num_gt. apply returns_num_then; [exact Hv|].
  intros x. apply returns_ret'.
Qed.

Lemma and_then_returns (a b : M bool) :
  returns a -> returns b -> returns (and_then a b).
Proof. intros Ha Hb. unfold and_then. infer_returns. Qed.

Lemma get_moat_rating_returns : returns (get_moat_rating info).
Proof.
  unfold get_moat_rating. read g Hg. read o Ho. read m Hm.
  apply returns_bind.
  { repeat first [ apply and_then_returns
                 | apply num_ge_returns; assumption
                 | apply num_gt_returns; assumption ]. }
  intros wide. apply returns_if; [apply returns_ret'|].
  apply returns_bind.
  { repeat first [ apply and_then_returns
                 | apply num_ge_returns; assumption ]. }
  intros narrow. infer_returns.
Qed.

Lemma qualitative_analyze_scored symbol name now a x a' :
  analyze info symbol name true now a = Ok (x, a') -> exists r, x = Scored r.
Proof.
  unfold analyze. cbn [negb]. intros H.
  apply bind_ok in H as (? & ? & _ & H).
  apply bind_ok in H as (? & ? & _ & H).
  apply bind_ok in H as ([[s1 ?] ?] & a1 & E1 & H).
  apply bind_ok in H as ([[s2 ?] ?] & a2 & E2 & H).
  apply bind_ok in H as ([[s3 ?] ?] & a3 & E3 & H).
  apply bind_ok in H as ([[s4 ?] ?] & a4 & E4 & H).
  apply bind_ok in H as (moat & a5 & _ & H).
  apply bind_ok in H as (sector & a6 & _ & H).
  apply bind_ok in H as (industry & a7 & _ & H).
  inversion H. eexists. reflexivity.
Qed.

Lemma qualitative_analyze_returns symbol name now :
  returns (analyze info symbol name true now).
Proof.
  unfold analyze. cbn [negb].
  apply returns_get_info_then; [reflexivity|intros _ _].
  apply returns_get_info_then; [reflexivity|intros _ _].
  apply returns_bind.
  { apply returns_method.
    apply returns_bind; [apply bm_market_cap_returns|intros _].
    apply returns_bind; [apply bm_diversification_returns|intros _].
    apply returns_bind; [apply bm_margin_returns|intros _].
    apply bm_rd_returns. }
  intros [[? ?] ?].
  apply returns_bind; [apply returns_method, management_body_returns|].
  intros [[? ?] ?].
  apply returns_bind; [apply returns_method, industry_outlook_body_returns|].
  intros [[? ?] ?].
  apply returns_bind.
  { apply returns_method.
    apply returns_bind; [apply rf_beta_returns|intros _].
    apply returns_bind; [apply rf_debt_returns|intros _].
    apply returns_bind; [apply rf_revenue_returns|intros _].
    apply rf_liquidity_returns. }
  intros [[? ?] ?]. cbv zeta.
  apply returns_bind; [apply get_moat_rating_returns|intros moat].
  apply returns_get_info_then; [reflexivity|intros sector _].
  apply returns_get_info_then; [reflexivity|intros industry _].
  apply returns_ret.
Qed.

End WithInfo.

(** X9. On an [info] mapping in which every numeric field the agent
    reads is a number or absent, and [sector] and [industry] are strings
    or absent, [QualitativeAnalysisAgent.analyze] never raises: once the
    download succeeded it returns a scored result dict. *)
Theorem qualitative_analyze_well_typed (info : gmap string pyval)
    (symbol name now : string) (a : acc) :
  well_typed info ->
  exists r a', analyze info symbol name true now a = Ok (Scored r, a').
Proof.
  intros Ht.
  destruct (qualitative_analyze_returns info Ht symbol name now a)
    as (x & a' & E).
  destruct (qualitative_analyze_scored info symbol name now a x a' E) as [r ->].
  exists r, a'. exact E.
Qed.

(** A company profile with a sector, an industry and three figures. *)
Definition chip_maker : gmap string pyval :=
  <["sector" := PyStr "Technology"]>
  (<["industry" := PyStr "Semiconductors"]>
  (<["marketCap" := PyInt 400000000000000]>
  (<["grossMargins" := PyFloat (Fin (4#10))]>
  (<["beta" := PyFloat (Fin (11#10))]> ∅)))).

Lemma qualitative_analyze_well_typed_witness :
  exists r a',
    analyze chip_maker "005930.KS" "Samsung" true Samples.sample_now start
      = Ok (Scored r, a').
Proof.
  apply (qualitative_analyze_well_typed chip_maker).
  unfold well_typed, chip_maker.
  repeat (apply map_Forall_insert_2; [reflexivity|]).
  apply map_Forall_empty.
Defined.

End QualitativeExtras.

(** ** Level-1 aggregation: consensus against average, partial results *)

Module Level1Extras.
Import Level1 Samples Level1Claims.

(** What an agent hands to the aggregation: the error dict, or a result
    dict that one of the four scorers built. *)
Definition answered (x : analysis) : Prop :=
  match x with
  | Failed _ _ _ => True
  | Scored r => exists k, produces k r
  end.

Lemma answered_entry (x : analysis) :
  answered x ->
  0 <= get_total_score x <= 100
  /\ (get_recommendation x = BUY -> 70 <= get_total_score x)
  /\ (get_recommendation x = HOLD -> get_total_score x <= 69)
  /\ (get_recommendation x = SELL -> get_total_score x <= 49).
Proof.
  destruct x as [e s n|r]; cbn.
  - intros _. repeat split; try lia; discriminate.
  - intros [k Hk]. apply ScorerClaims.produces_result_ok in Hk.
    destruct Hk as [(_ & _ & _ & Hb) (Hbuy & Hhold & Hsell)].
    repeat split; try lia.
    + intros H. apply Hbuy, H.
    + intros H. apply Hhold in H. lia.
    + intros H. apply Hsell in H. lia.
Qed.

Lemma votes_bound_sum (a b c d : Z) (ra rb rc rd : Rec) :
  (0 <= a <= 100 /\ (ra = BUY -> 70 <= a) /\ (ra = HOLD -> a <= 69)
   /\ (ra = SELL -> a <= 49)) ->
  (0 <= b <= 100 /\ (rb = BUY -> 70 <= b) /\ (rb = HOLD -> b <= 69)
   /\ (rb = SELL -> b <= 49)) ->
  (0 <= c <= 100 /\ (rc = BUY -> 70 <= c) /\ (rc = HOLD -> c <= 69)
   /\ (rc = SELL -> c <= 49)) ->
  (0 <= d <= 100 /\ (rd = BUY -> 70 <= d) /\ (rd = HOLD -> d <= 69)
   /\ (rd = SELL -> d <= 49)) ->
  let cons := consensus_of (count BUY [ra; rb; rc; rd])
                           (count SELL [ra; rb; rc; rd]) in
  (cons = "STRONG BUY" -> 210 <= a + b + c + d)
  /\ (cons = "BUY" -> 140 <= a + b + c + d)
  /\ (cons = "SELL" -> a + b + c + d <= 267).
Proof.
  intros (Ha & Ha1 & Ha2 & Ha3) (Hb & Hb1 & Hb2 & Hb3)
         (Hc & Hc1 & Hc2 & Hc3) (Hd & Hd1 & Hd2 & Hd3).
  destruct ra, rb, rc, rd;
    repeat match goal with
           | H : ?x = ?x -> _ |- _ => specialize (H eq_refl)
           | H : BUY = HOLD -> _ |- _ => clear H
           | H : BUY = SELL -> _ |- _ => clear H
           | H : HOLD = BUY -> _ |- _ => clear H
           | H : HOLD = SELL -> _ |- _ => clear H
           | H : SELL = BUY -> _ |- _ => clear H
           | H : SELL = HOLD -> _ |- _ => clear H
           end;
    vm_compute consensus_of; cbv zeta;
    repeat split; intros H; try discriminate H; lia.
Qed.

(** X10. In the summary of [run_all_level1_agents] the consensus and
    the average score agree only loosely, because the consensus counts
    votes and the average counts points: for four agents that each
    returned the error dict or a scorer's result, the average lies in
    [0, 100]; a STRONG BUY can come with an average as low as 52.5 but
    not lower, a BUY with 35.0, and a SELL with an average as high as
    66.8 but not higher.  When three or four agents failed the
    consensus is HOLD and the average at most 25. *)
Theorem consensus_bounds_average (t q l n : analysis)
    (agents : list (string * entry)) (s : summary) :
  answered t -> answered q -> answered l -> answered n ->
  run_all_level1_agents (Ok t) (Ok q) (Ok l) (Ok n) = Ok (agents, s) ->
  (0 <= average_score s <= 100)%Q
  /\ (consensus s = "STRONG BUY" -> (525 # 10 <= average_score s)%Q)
  /\ (consensus s = "BUY" -> (35 <= average_score s)%Q)
  /\ (consensus s = "SELL" -> (average_score s <= 668 # 10)%Q)
  /\ (3 <= failures [t; q; l; n] ->
        consensus s = "HOLD" /\ (average_score s <= 25)%Q).
Proof.
  intros Ht Hq Hl Hn H. cbn in H. injection H as _ <-.
  pose proof (answered_entry t Ht) as Bt.
  pose proof (answered_entry q Hq) as Bq.
  pose proof (answered_entry l Hl) as Bl.
  pose proof (answered_entry n Hn) as Bn.
  pose proof (votes_bound_sum _ _ _ _ _ _ _ _ Bt Bq Bl Bn) as (V1 & V2 & V3).
  destruct (round1_mean4 (get_total_score t) (get_total_score q)
              (get_total_score l) (get_total_score n)) as (k & Ek & Hk).
  unfold summarize. cbn [average_score consensus map fst snd entry_of].
  change (round1 (mean [get_total_score t; get_total_score q;
                        get_total_score l; get_total_score n]) = (k # 10)%Q)
    in Ek.
  rewrite Ek. unfold Qle. cbn [Qnum Qden].
  destruct Bt as (Bt & _), Bq as (Bq & _), Bl as (Bl & _), Bn as (Bn & _).
  split; [lia|]. split; [intros Hc; specialize (V1 Hc); lia|].
  split; [intros Hc; specialize (V2 Hc); lia|].
  split; [intros Hc; specialize (V3 Hc); lia|].
  intros Hf. unfold failures in Hf.
  destruct t as [? ? ?|rt], q as [? ? ?|rq], l as [? ? ?|rl], n as [? ? ?|rn];
    cbn in Hf; try lia; cbn [get_total_score get_recommendation] in *;
    (split; [|lia]);
    repeat match goal with
           | |- context [recommendation ?r] => destruct (recommendation r)
           end;
    reflexivity.
Qed.

Lemma consensus_bounds_average_witness :
  exists agents s,
    run_all_level1_agents sparse_tech sparse_quant sparse_qual sparse_news
      = Ok (agents, s)
    /\ consensus s = "SELL"
    /\ (average_score s <= 668 # 10)%Q.
Proof.
  destruct ScorerClaims.sparse_quant_produced as (rq & Eq & Pq).
  destruct ScorerClaims.sparse_qual_produced as (rl & El & Pl).
  assert (Et : exists rt, sparse_tech = Ok (Scored rt) /\ produces TECH rt).
  { eexists. split; [vm_compute; reflexivity|].
    cbn. exists sparse_symbol, sparse_name, (Some (take 10 spike_frame)),
           sample_now.
    eexists start, _. vm_compute. reflexivity. }
  assert (En : exists rn, sparse_news = Ok (Scored rn) /\ produces NEWS rn).
  { eexists. split; [vm_compute; reflexivity|].
    cbn. exists flat_std, [], (Some []), sparse_symbol, sparse_name, true,
           sample_now.
    eexists start, _. vm_compute. reflexivity. }
  destruct Et as (rt & Et & Pt). destruct En as (rn & En & Pn).
  rewrite Et, Eq, El, En.
  eexists _, _. split; [reflexivity|].
  destruct (consensus_bounds_average (Scored rt) (Scored rq) (Scored rl)
              (Scored rn) _ _
              (ex_intro _ TECH Pt) (ex_intro _ QUANT Pq)
              (ex_intro _ QUAL Pl) (ex_intro _ NEWS Pn) eq_refl)
    as (_ & _ & _ & Hsell & _).
  assert (Hc : consensus
                 (summarize
                    [("TECH_001", entry_of (Scored rt));
                     ("QUANT_001", entry_of (Scored rq));
                     ("QUAL_001", entry_of (Scored rl));
                     ("NEWS_001", entry_of (Scored rn))]) = "SELL").
  { assert (Rt : recommendation rt = SELL)
      by (vm_compute in Et; injection Et as <-; reflexivity).
    assert (Rq : recommendation rq = SELL)
      by (vm_compute in Eq; injection Eq as <-; reflexivity).
    assert (Rl : recommendation rl = SELL)
      by (vm_compute in El; injection El as <-; reflexivity).
    assert (Rn : recommendation rn = HOLD)
      by (vm_compute in En; injection En as <-; reflexivity).
    unfold summarize. cbn [consensus map fst snd entry_of get_recommendation].
    rewrite Rt, Rq, Rl, Rn. reflexivity. }
  split; [exact Hc|exact (Hsell Hc)].
Defined.

(** *** What a stock's result keeps when an agent raises *)

(** The agents that ran to the end before the first one that raised. *)
Fixpoint completed (runs : list (string * result analysis))
  : list (string * entry) :=
  match runs with
  | (key, Ok r) :: rest => (key, entry_of r) :: completed rest
  | _ => []
  end.

Fixpoint first_error (runs : list (string * result analysis)) : option exn :=
  match runs with
  | [] => None
  | (_, Raise e) :: _ => Some e
  | (_, Ok _) :: rest => first_error rest
  end.

Lemma run_agents_prefix runs agents :
  run_agents runs agents = (agents ++ completed runs, first_error runs).
Proof.
  revert agents. induction runs as [|[key [r|e]] rest IH]; intros agents; cbn.
  - rewrite app_nil_r. reflexivity.
  - rewrite IH, <- app_assoc. reflexivity.
  - rewrite app_nil_r. reflexivity.
Qed.

(** X11. The [try] block of the batch runners stores each agent's
    entry before the next agent runs, so a stock's result of status
    'error' still holds the entries of the agents that finished before
    the failing one, in running order and in [run_agents]' keys, and it
    has no [avg_score] (and no [consensus]); a result of status
    'success' holds all four entries and the rounded mean of their four
    scores.  This is so in daily_level1_batch.py and in the two market
    runners alike. *)
Theorem stock_result_keeps_finished_agents (s : stock) (now : string)
    (tech quant qual news : result analysis) :
  let runs := keyed tech quant qual news in
  let b := analyze_stock s now tech quant qual news in
  let f := analyze_stock_fdr s now tech quant qual news in
  sr_agents b = completed runs
  /\ sr_agents f = completed runs
  /\ sr_error b = first_error runs /\ sr_error f = first_error runs
  /\ match first_error runs with
     | Some _ =>
         sr_status b = "error" /\ sr_status f = "error"
         /\ sr_avg_score b = None /\ sr_avg_score f = None
         /\ sr_consensus f = None
         /\ (length (sr_agents b) < 4)%nat
     | None =>
         sr_status b = "success" /\ sr_status f = "success"
         /\ map fst (sr_agents b) = ["TECH"; "QUANT"; "QUAL"; "NEWS"]
         /\ sr_avg_score b = Some (round1 (mean (map (fun a => a.2.1) (sr_agents b))))
         /\ sr_avg_score f = sr_avg_score b
         /\ sr_consensus f <> None
     end.
Proof.
  cbv zeta. unfold analyze_stock, analyze_stock_fdr.
  rewrite run_agents_prefix. cbn [app]. unfold keyed.
  destruct tech, quant, qual, news; cbn;
    repeat split; try discriminate; lia.
Qed.

(** X12. The 'success' figure of the batch summary is the number of
    stocks none of whose four agents raised; it never exceeds 'total',
    and equals it exactly when no agent raised for any stock. *)
Theorem batch_success_count (world : stock -> outcomes) (now : string)
    (stocks : list stock) :
  let final := main world now stocks in
  let clean := fun s => match first_raise (world s) with
                        | None => true
                        | Some _ => false
                        end in
  b_success final = length (List.filter clean stocks)
  /\ (b_success final <= b_total final)%nat
  /\ (b_success final = b_total final <-> forallb clean stocks = true).
Proof.
  cbv zeta. unfold main. cbn [b_success b_total].
  rewrite batch_loop_map. cbn [app].
  set (clean := fun s => match first_raise (world s) with
                         | None => true | Some _ => false end).
  match goal with |- context [map ?f stocks] => set (run := f) end.
  assert (E : forall l,
    length (List.filter (fun r => String.eqb (sr_status r) "success")
              (map run l))
    = length (List.filter clean l)).
  { induction l as [|s l IH]; [reflexivity|].
    cbn [map List.filter].
    destruct (analyze_stock_status s now (world s)) as (_ & _ & Hs).
    cbv zeta in Hs. unfold run at 1. cbv zeta. rewrite Hs. unfold clean at 1.
    destruct (first_raise (world s)).
    - change (("error" =? "success")%string) with false. exact (IH).
    - change (("success" =? "success")%string) with true. cbn [length].
      rewrite IH. reflexivity. }
  rewrite E. split; [reflexivity|].
  assert (Hle : forall l, (length (List.filter clean l) <= length l)%nat).
  { induction l as [|x l IH]; cbn; [lia|]. destruct (clean x); cbn; lia. }
  split; [apply Hle|].
  clear E run. induction stocks as [|x l IH]; cbn; [tauto|].
  destruct (clean x); cbn.
  - rewrite <- IH. lia.
  - specialize (Hle l). split; [lia|discriminate].
Qed.

End Level1Extras.

(** ** The agent group, the orchestrator and the spawner *)

Module OrchestrationExtras.
Import AgentGroup.

(** The agent dicts of all levels, in the order of the two loops. *)
Definition all_agents (lv : levels) : list agent_dict :=
  flat_map (fun kv => ld_agents kv.2) lv.

Lemma list_all_agents_map lv :
  list_all_agents lv = map info_of (all_agents lv).
Proof.
  induction lv as [|[k ld] rest IH]; [reflexivity|].
  cbn. rewrite map_app, IH. reflexivity.
Qed.

Lemma find_agent_first agents agent_id :
  match find_agent agents agent_id with
  | Some agent =>
      ad_id agent = agent_id
      /\ exists pre post,
           agents = pre ++ agent :: post
           /\ Forall (fun x => ad_id x <> agent_id) pre
  | None => Forall (fun x => ad_id x <> agent_id) agents
  end.
Proof.
  induction agents as [|a rest IH]; cbn; [constructor|].
  destruct (String.eqb_spec (ad_id a) agent_id) as [E|E].
  - split; [exact E|]. exists [], rest. split; [reflexivity|constructor].
  - destruct (find_agent rest agent_id) as [b|].
    + destruct IH as (Hb & pre & post & -> & Hpre). split; [exact Hb|].
      exists (a :: pre), post. split; [reflexivity|].
      constructor; assumption.
    + constructor; assumption.
Qed.

(** X13. [InvestmentAgentGroup.get_agent] returns the first agent, in
    the order of [list_all_agents], whose id is the one asked for; the
    empty dict comes back exactly for an id that [list_all_agents] does
    not list. *)
Theorem get_agent_first_listed (lv : levels) (agent_id : string) :
  match get_agent lv agent_id with
  | Some agent =>
      ad_id agent = agent_id
      /\ exists pre post,
           list_all_agents lv = map info_of pre ++ info_of agent :: map info_of post
           /\ Forall (fun x => ad_id x <> agent_id) pre
  | None => ~ In agent_id (map ai_id (list_all_agents lv))
  end.
Proof.
  rewrite list_all_agents_map.
  induction lv as [|[k ld] rest IH]; cbn; [tauto|].
  pose proof (find_agent_first (ld_agents ld) agent_id) as Hf.
  destruct (find_agent (ld_agents ld) agent_id) as [a|].
  - destruct Hf as (Ha & pre & post & E & Hpre). split; [exact Ha|].
    exists pre, (post ++ all_agents rest). split; [|exact Hpre].
    change (flat_map (fun kv => ld_agents kv.2) rest) with (all_agents rest).
    rewrite E, !map_app, <- app_assoc. reflexivity.
  - change (flat_map (fun kv => ld_agents kv.2) rest) with (all_agents rest).
    destruct (get_agent rest agent_id) as [a|].
    + destruct IH as (Ha & pre & post & E & Hpre). split; [exact Ha|].
      exists (ld_agents ld ++ pre), post. split.
      * rewrite !map_app, E, <- app_assoc. reflexivity.
      * apply Forall_app. split; assumption.
    + rewrite !map_app. intros H. apply in_app_or in H. destruct H as [H|H].
      * rewrite map_map in H. apply in_map_iff in H.
        destruct H as (x & Hx & Hin). cbn in Hx.
        rewrite List.Forall_forall in Hf. exact (Hf x Hin Hx).
      * exact (IH H).
Qed.

(** *** get_level_agents *)

(** The configuration that [_load_or_create_config] writes: its three
    level keys, whatever the levels hold. *)
Definition standard (l1 l2 l3 : level_data) : levels :=
  [("level_1_analysts", l1); ("level_2_managers", l2); ("level_3_pm", l3)].

Lemma append_pm_not_analysts (s : string) : s +:+ "_pm" <> "1_analysts".
Proof.
  intros H.
  do 11 (destruct s as [|? s]; [cbn in H; discriminate H|]).
  cbn in H. discriminate H.
Qed.

Lemma append_pm_not_managers (s : string) : s +:+ "_pm" <> "2_managers".
Proof.
  intros H.
  do 11 (destruct s as [|? s]; [cbn in H; discriminate H|]).
  cbn in H. discriminate H.
Qed.

Lemma append_pm_3 (s : string) : s +:+ "_pm" = "3_pm" -> s = "3".
Proof.
  intros H. destruct s as [|c s]; [discriminate H|].
  cbn in H. injection H as -> H.
  destruct s as [|c s]; [reflexivity|]. exfalso.
  do 4 (destruct s as [|? s]; [cbn in H; discriminate H|]).
  cbn in H. discriminate H.
Qed.

(** X17. On a configuration with the three level keys that the code
    writes, [get_level_agents] returns the agents of level 1, 2 and 3
    under those numbers and the empty list, without raising, for every
    other number; the three lists together are the agents that
    [list_all_agents] lists, in the same order. *)
Theorem level_agents_standard (l1 l2 l3 : level_data) :
  let lv := standard l1 l2 l3 in
  get_level_agents lv 1 = ld_agents l1
  /\ get_level_agents lv 2 = ld_agents l2
  /\ get_level_agents lv 3 = ld_agents l3
  /\ (forall level, level <> 1 -> level <> 2 -> level <> 3 ->
        get_level_agents lv level = [])
  /\ list_all_agents lv
     = map info_of (get_level_agents lv 1 ++ get_level_agents lv 2
                    ++ get_level_agents lv 3).
Proof.
  cbv zeta.
  assert (E1 : get_level_agents (standard l1 l2 l3) 1 = ld_agents l1)
    by reflexivity.
  assert (E2 : get_level_agents (standard l1 l2 l3) 2 = ld_agents l2)
    by reflexivity.
  assert (E3 : get_level_agents (standard l1 l2 l3) 3 = ld_agents l3)
    by reflexivity.
  split; [exact E1|]. split; [exact E2|]. split; [exact E3|]. split.
  - intros level H1 H2 H3. unfold get_level_agents, level_key.
    destruct (Z.eqb_spec level 1); [contradiction|].
    destruct (Z.eqb_spec level 2); [contradiction|].
    set (s := pretty level).
    assert (Hs : s <> "3").
    { intros H. apply H3. apply (inj pretty). exact H. }
    clearbody s. unfold standard. cbn [lookup_level].
    destruct (String.eqb_spec "level_1_analysts" ("level_" +:+ s +:+ "_" +:+ "pm"))
      as [E|_].
    { exfalso. cbn in E. injection E as E.
      exact (append_pm_not_analysts s (eq_sym E)). }
    destruct (String.eqb_spec "level_2_managers" ("level_" +:+ s +:+ "_" +:+ "pm"))
      as [E|_].
    { exfalso. cbn in E. injection E as E.
      exact (append_pm_not_managers s (eq_sym E)). }
    destruct (String.eqb_spec "level_3_pm" ("level_" +:+ s +:+ "_" +:+ "pm"))
      as [E|_]; [|reflexivity].
    exfalso. cbn in E. injection E as E.
    exact (Hs (append_pm_3 s (eq_sym E))).
  - rewrite E1, E2, E3. cbn. rewrite !map_app, app_nil_r. reflexivity.
Qed.

(** *** agent_orchestrator.py *)

Section WithConfig.
Context (config : levels).

(** The id names an agent of the configuration. *)
Definition known (agent_id : string) : Prop :=
  get_agent config agent_id <> None.

Definition seven : list string := level1_agents ++ level2_agents ++ [pm_agent].

Import Orchestrator.

Ltac lookup id E :=
  destruct (get_agent config id) as [?a|] eqn:E;
  [ cbn [field]
  | cbn [field]; split; [reflexivity|];
    apply List.Exists_exists; exists id;
    split; [cbn; tauto|intros H; apply H; exact E] ].

(** X14. [AgentOrchestrator.run_full_analysis] raises KeyError when
    one of the seven agent ids it names is missing from the
    configuration ([_get_agent_info] returns [{}] and the next
    statement reads [agent['name']]).  Otherwise it returns a record of
    status 'completed' in which every one of the seven agents is
    'pending' with result [None]: no analysis has run. *)
Theorem orchestrator_outcome (symbol name stamp now : string) :
  match run_full_analysis config symbol name stamp now with
  | Ok r =>
      Forall known seven
      /\ fr_status r = "completed"
      /\ map fst (fr_level_1 r) = level1_agents
      /\ map fst (fr_level_2 r) = level2_agents
      /\ map fst (fr_level_3 r) = [pm_agent]
      /\ Forall (fun e => o1_status e.2 = "pending" /\ o1_result e.2 = None)
                (fr_level_1 r)
      /\ Forall (fun e => o2_status e.2 = "pending" /\ o2_result e.2 = None
                          /\ o2_level1_input e.2 = fr_level_1 r)
                (fr_level_2 r)
      /\ Forall (fun e => o3_status e.2 = "pending" /\ o3_result e.2 = None
                          /\ o3_level1_input e.2 = fr_level_1 r
                          /\ o3_level2_input e.2 = fr_level_2 r)
                (fr_level_3 r)
  | Raise e => e = KeyError /\ Exists (fun id => ~ known id) seven
  end.
Proof.
  unfold run_full_analysis, run_level1_analysis, run_level2_analysis,
    run_level3_decision, seven, level1_agents, level2_agents, pm_agent.
  cbn [level1_loop app]. unfold get_agent_info.
  lookup "TECH_001" E1. lookup "QUANT_001" E2. lookup "QUAL_001" E3.
  lookup "NEWS_001" E4.
  cbn [level2_loop]. unfold get_agent_info.
  lookup "SECTOR_001" E5. lookup "MACRO_001" E6.
  lookup "PM_001" E7.
  cbn [fr_status fr_level_1 fr_level_2 fr_level_3 map fst app].
  split.
  { unfold known.
    repeat (apply List.Forall_cons; [congruence|]). apply List.Forall_nil. }
  repeat split;
    repeat (apply List.Forall_cons; [repeat split|]); apply List.Forall_nil.
Qed.

Import Spawner.

Lemma summary_known id symbol name today now a :
  get_agent config id = Some a ->
  summary_of (spawn_agent config id symbol name today now)
  = Ok {| row_agent := ad_name a; row_symbol := symbol;
          row_status := "spawned" |}.
Proof. intros E. unfold spawn_agent. rewrite E. reflexivity. Qed.

Lemma summary_unknown id symbol name today now :
  get_agent config id = None ->
  summary_of (spawn_agent config id symbol name today now) = Raise KeyError.
Proof. intros E. unfold spawn_agent. rewrite E. reflexivity. Qed.

Ltac spawned id E :=
  destruct (get_agent config id) as [?a|] eqn:E;
  [ rewrite !(summary_known id _ _ _ _ _ E)
  | rewrite !(summary_unknown id _ _ _ _ E);
    repeat match goal with
           | |- context [summary_of ?x] => destruct (summary_of x)
           end;
    (split; [reflexivity|]);
    apply List.Exists_exists; exists id;
    split; [cbn; tauto|intros H; apply H; exact E] ].

(** X15. [AgentSpawner.run_full_pipeline] treats a missing agent
    differently by level.  A missing Level-1 agent makes it raise
    KeyError, because [run_level2_parallel] reads [r['agent_name']] of
    the error dict that [spawn_agent] returned.  A missing Level-2 agent
    or portfolio manager does not: the pipeline then returns with
    status 'pipeline_initialized' and 'total_agents' 7, and the stage
    holds the error dict of the agent that was not found. *)
Theorem spawner_outcome (symbol name today stamp now : string) :
  match run_full_pipeline config symbol name today stamp now with
  | Ok p =>
      Forall known level1_agents
      /\ pl_status p = "pipeline_initialized"
      /\ pl_total_agents p = 7
      /\ pl_level1_spawned p = 4 /\ pl_level2_spawned p = 2
      /\ pl_level1 p
         = map (fun id => spawn_agent config id symbol name today now)
               level1_agents
      /\ map wc_spawn (pl_level2 p)
         = map (fun id => spawn_agent config id symbol name today now)
               level2_agents
      /\ wi_spawn (pl_level3 p)
         = spawn_agent config pm_agent symbol name today now
      /\ (forall id, In id (level2_agents ++ [pm_agent]) -> ~ known id ->
            exists error,
              spawn_agent config id symbol name today now = NotFound error)
  | Raise e => e = KeyError /\ Exists (fun id => ~ known id) level1_agents
  end.
Proof.
  unfold run_full_pipeline, run_level2_parallel, run_level1_parallel,
    level1_agents, level2_agents.
  cbn [foldl app level2_loop level1_summary].
  spawned "TECH_001" E1. spawned "QUANT_001" E2. spawned "QUAL_001" E3.
  spawned "NEWS_001" E4.
  cbn [pl_status pl_total_agents pl_level1_spawned pl_level2_spawned
       pl_level1 pl_level2 pl_level3 map wc_spawn wi_spawn run_level3_final
       length].
  split.
  { unfold known.
    repeat (apply List.Forall_cons; [congruence|]). apply List.Forall_nil. }
  split; [reflexivity|]. split; [reflexivity|]. split; [reflexivity|].
  split; [reflexivity|]. split; [reflexivity|].
  split; [reflexivity|]. split; [reflexivity|].
  intros id _ Hid. unfold spawn_agent, known in *.
  destruct (get_agent config id); [exfalso; apply Hid; discriminate|].
  eexists. reflexivity.
Qed.

End WithConfig.

(** *** daily_level1_fullmarket.py *)

Import Level1 FullMarket.

Lemma results_loop {A B} (f : A -> B) (xs : list A) (acc : list B) :
  foldl (fun results x => results ++ [f x]) acc xs = acc ++ map f xs.
Proof.
  revert acc. induction xs as [|x xs IH]; intros acc; cbn.
  - rewrite app_nil_r. reflexivity.
  - rewrite IH, <- app_assoc. reflexivity.
Qed.

(** X16. The full-market run analyses the selected KOSPI stocks and
    then the selected KOSDAQ stocks, one result per stock in that
    order, each labelled with the market of the list it came from.
    Its counts add up: total = kospi_count + kosdaq_count and
    success + failed = total, with neither negative.  A count of 0
    selects the whole list, like no count at all (so no market can be
    left out); a positive count selects that many stocks from the front,
    at most the whole list. *)
Theorem full_market_counts (kospi kosdaq : list listed)
    (world : stock -> outcomes) (now : string)
    (kospi_count kosdaq_count : option Z) :
  let final := run_full_analysis kospi kosdaq world now kospi_count kosdaq_count in
  f_total final = f_kospi_count final + f_kosdaq_count final
  /\ f_total final = len (f_results final)
  /\ f_success final + f_failed final = f_total final
  /\ 0 <= f_success final /\ 0 <= f_failed final
  /\ map mr_market (f_results final)
     = repeat "KOSPI" (Z.to_nat (f_kospi_count final))
       ++ repeat "KOSDAQ" (Z.to_nat (f_kosdaq_count final))
  /\ map (fun r => sr_symbol (mr_result r)) (f_results final)
     = map l_symbol (select kospi_count kospi ++ select kosdaq_count kosdaq)
  /\ (kospi_count = None \/ kospi_count = Some 0 ->
        f_kospi_count final = len kospi)
  /\ (forall n, kospi_count = Some n -> 0 < n ->
        f_kospi_count final = Z.min n (len kospi)
        /\ select kospi_count kospi = take (Z.to_nat n) kospi).
Proof.
  cbv zeta. unfold run_full_analysis.
  cbn [f_total f_kospi_count f_kosdaq_count f_results f_success f_failed].
  rewrite results_loop. cbn [app].
  set (ks := select kospi_count kospi). set (qs := select kosdaq_count kosdaq).
  unfold len. rewrite !length_map, !length_app, !length_map.
  split; [lia|]. split; [lia|]. split; [lia|]. split; [lia|].
  split.
  { match goal with
    | |- context [List.filter ?f ?l] =>
        pose proof (TechnicalExtras.filter_length_le f l) as Hle
    end.
    rewrite !length_map, length_app, !length_map in Hle. lia. }
  split.
  { rewrite !Nat2Z.id, map_app, !map_map, map_app. f_equal.
    - clear. induction ks as [|x l IH]; [reflexivity|]. cbn. f_equal. exact IH.
    - clear. induction qs as [|x l IH]; [reflexivity|]. cbn. f_equal. exact IH. }
  split.
  { rewrite map_map, map_app, !map_map. cbn. rewrite <- map_app.
    apply map_ext. intros x. unfold analyze_stock_fdr.
    destruct (run_agents _ _) as [ag [e|]]; reflexivity. }
  split.
  { intros [->| ->]; reflexivity. }
  intros n -> Hn. subst ks. unfold select, slice_to.
  destruct (Z.eqb_spec n 0); [lia|]. destruct (Z.ltb_spec n 0); [lia|].
  split; [|reflexivity]. rewrite length_take. lia.
Qed.

End OrchestrationExtras.
